(** * Daylight: sun and moon positions, times and phase

    A shallow embedding of the calculation engine of [modern-dev/daylight]
    ([src/index.ts] and its later revision [src/unnamed/part_001], which adds
    the ecliptic latitude and longitude and the zodiac sign of the moon).

    Numbers.  A JavaScript Number is modelled by [number]: a real number, one
    of the two infinities, or NaN.  Arithmetic on finite values is exact (no
    binary64 rounding, one zero); the special values follow IEEE 754 as
    ECMAScript prescribes, so that a division by zero, an [acos] outside
    [[-1,1]] or a comparison with NaN behave as in the program.  The module
    [Binary64] repeats the two Julian-date conversions on binary64 floats,
    where the rounding the exact model leaves out can be evaluated.

    Dates.  A [Date] object holds a time value: an integral number of
    milliseconds since the epoch, or NaN (an invalid date).  The functions of
    the ECMAScript time model that the program calls ([setHours],
    [getFullYear], [getMonth], [getDate], the [Date] constructor) are written
    out over [Z]; the local time zone is a parameter, of type [TimeZone]. *)

From Stdlib Require Import ZArith Reals Lra Lia Psatz List Bool String.
From Stdlib Require Floats.PrimFloat Floats.FloatOps Floats.SpecFloat Uint63.
Import ListNotations.

Local Open Scope R_scope.

(* ================================================================== *)
(** * Numbers *)
(* ================================================================== *)

Inductive number : Type :=
| Fin (r : R)
| PInf
| NInf
| NaN.

Declare Scope num_scope.
Delimit Scope num_scope with num.
Bind Scope num_scope with number.

Definition Rltb (a b : R) : bool := if Rlt_dec a b then true else false.
Definition Rleb (a b : R) : bool := if Rle_dec a b then true else false.
Definition Reqb (a b : R) : bool := if Req_dec_T a b then true else false.

(** The infinity of the given sign. *)
Definition inf (negative : bool) : number := if negative then NInf else PInf.

(** Sign bit of a number; the single zero of the model counts as [+0]. *)
Definition negative (x : number) : bool :=
  match x with
  | Fin r => Rltb r 0
  | NInf => true
  | _ => false
  end.

Definition is_zero (x : number) : bool :=
  match x with
  | Fin r => Reqb r 0
  | _ => false
  end.

Definition is_finite (x : number) : bool :=
  match x with
  | Fin _ => true
  | _ => false
  end.

Definition neg (x : number) : number :=
  match x with
  | Fin r => Fin (- r)
  | PInf => NInf
  | NInf => PInf
  | NaN => NaN
  end.

Definition add (x y : number) : number :=
  match x, y with
  | NaN, _ | _, NaN => NaN
  | Fin a, Fin b => Fin (a + b)
  | PInf, NInf | NInf, PInf => NaN
  | PInf, _ | _, PInf => PInf
  | NInf, _ | _, NInf => NInf
  end.

Definition sub (x y : number) : number := add x (neg y).

Definition mul (x y : number) : number :=
  match x, y with
  | NaN, _ | _, NaN => NaN
  | Fin a, Fin b => Fin (a * b)
  | _, _ =>
      if is_zero x || is_zero y then NaN
      else inf (xorb (negative x) (negative y))
  end.

Definition div (x y : number) : number :=
  match x, y with
  | NaN, _ | _, NaN => NaN
  | Fin a, Fin b =>
      if Reqb b 0
      then (if Reqb a 0 then NaN else inf (negative x))
      else Fin (a / b)
  | Fin _, _ => Fin 0
  | _, Fin _ => inf (xorb (negative x) (negative y))
  | _, _ => NaN
  end.

(** [<], [<=], [>], [>=]: false as soon as an operand is NaN. *)
Definition ltb (x y : number) : bool :=
  match x, y with
  | NaN, _ | _, NaN => false
  | Fin a, Fin b => Rltb a b
  | NInf, NInf | PInf, _ | _, NInf => false
  | NInf, _ | _, PInf => true
  end.

Definition leb (x y : number) : bool :=
  match x, y with
  | NaN, _ | _, NaN => false
  | Fin a, Fin b => Rleb a b
  | NInf, _ | _, PInf => true
  | PInf, _ | _, NInf => false
  end.

Definition gtb (x y : number) : bool := ltb y x.
Definition geb (x y : number) : bool := leb y x.

(** ToBoolean on a Number: [0] and NaN are falsy. *)
Definition truthy (x : number) : bool :=
  match x with
  | Fin r => negb (Reqb r 0)
  | NaN => false
  | _ => true
  end.

Notation "x + y" := (add x y) : num_scope.
Notation "x - y" := (sub x y) : num_scope.
Notation "x * y" := (mul x y) : num_scope.
Notation "x / y" := (div x y) : num_scope.
Notation "- x" := (neg x) : num_scope.
Notation "x <? y" := (ltb x y) : num_scope.
Notation "x <=? y" := (leb x y) : num_scope.
Notation "x >? y" := (gtb x y) : num_scope.
Notation "x >=? y" := (geb x y) : num_scope.

(* ================================================================== *)
(** * The [Math] object *)
(* ================================================================== *)

Module Math.

Definition PI : number := Fin Rtrigo1.PI.

Definition sin (x : number) : number :=
  match x with
  | Fin r => Fin (Rtrigo_def.sin r)
  | _ => NaN
  end.

Definition cos (x : number) : number :=
  match x with
  | Fin r => Fin (Rtrigo_def.cos r)
  | _ => NaN
  end.

(** The tangent, the quotient of sine and cosine; where the cosine vanishes
    the quotient is the infinity [div] gives. *)
Definition tan (x : number) : number :=
  match x with
  | Fin r => div (Fin (Rtrigo_def.sin r)) (Fin (Rtrigo_def.cos r))
  | _ => NaN
  end.

Definition asin (x : number) : number :=
  match x with
  | Fin r => if Rleb (-1) r && Rleb r 1 then Fin (Ratan.asin r) else NaN
  | _ => NaN
  end.

Definition acos (x : number) : number :=
  match x with
  | Fin r => if Rleb (-1) r && Rleb r 1 then Fin (Ratan.acos r) else NaN
  | _ => NaN
  end.

(** The angle of the point [(x, y)], in [(-PI, PI]]. *)
Definition atan2R (y x : R) : R :=
  if Rltb 0 x then atan (y / x)
  else if Rltb x 0
       then (if Rleb 0 y then atan (y / x) + Rtrigo1.PI
             else atan (y / x) - Rtrigo1.PI)
       else if Rltb 0 y then Rtrigo1.PI / 2
            else if Rltb y 0 then - (Rtrigo1.PI / 2)
                 else 0.

Definition atan2 (y x : number) : number :=
  match y, x with
  | NaN, _ | _, NaN => NaN
  | Fin b, Fin a => Fin (atan2R b a)
  | Fin _, PInf => Fin 0
  | Fin b, NInf => if Rleb 0 b then Fin Rtrigo1.PI else Fin (- Rtrigo1.PI)
  | PInf, Fin _ => Fin (Rtrigo1.PI / 2)
  | NInf, Fin _ => Fin (- (Rtrigo1.PI / 2))
  | PInf, PInf => Fin (Rtrigo1.PI / 4)
  | PInf, NInf => Fin (3 * Rtrigo1.PI / 4)
  | NInf, PInf => Fin (- (Rtrigo1.PI / 4))
  | NInf, NInf => Fin (- (3 * Rtrigo1.PI / 4))
  end.

Definition sqrt (x : number) : number :=
  match x with
  | Fin r => if Rltb r 0 then NaN else Fin (R_sqrt.sqrt r)
  | PInf => PInf
  | _ => NaN
  end.

Definition abs (x : number) : number :=
  match x with
  | Fin r => Fin (Rabs r)
  | NaN => NaN
  | _ => PInf
  end.

Definition floor (x : number) : number :=
  match x with
  | Fin r => Fin (IZR (Zfloor r))
  | _ => x
  end.

(** [Math.round]: the nearest integer, ties towards [+Infinity]. *)
Definition round (x : number) : number :=
  match x with
  | Fin r => Fin (IZR (Zfloor (r + 0.5)))
  | _ => x
  end.

End Math.

(* ================================================================== *)
(** * Dates *)
(* ================================================================== *)

(** The state of a [Date] object: its time value. *)
Inductive Date : Type :=
| DateAt (t : Z)
| InvalidDate.

(** The offset of local time from UTC, in milliseconds, at a time value
    ([LocalTZA (t, isUTC)] of ECMAScript): the environment of the program. *)
Definition TimeZone : Type := Z -> bool -> Z.

Definition UTCZone : TimeZone := fun _ _ => 0%Z.

Module TimeValue.
Local Open Scope Z_scope.

Definition msPerDay : Z := 86400000.
Definition maxTime : Z := 8640000000000000.

Definition Day (t : Z) : Z := t / msPerDay.
Definition TimeWithinDay (t : Z) : Z := t mod msPerDay.

Definition DaysInYear (y : Z) : Z :=
  if negb (y mod 4 =? 0) then 365
  else if negb (y mod 100 =? 0) then 366
  else if negb (y mod 400 =? 0) then 365
  else 366.

Definition DayFromYear (y : Z) : Z :=
  365 * (y - 1970) + (y - 1969) / 4 - (y - 1901) / 100 + (y - 1601) / 400.

Definition TimeFromYear (y : Z) : Z := msPerDay * DayFromYear y.

(** The largest [y] with [TimeFromYear y <= t]: an estimate from the mean
    length of the year, corrected by at most one year. *)
Definition YearFromTime (t : Z) : Z :=
  let d := Day t in
  let y := 1970 + d * 10000 / 3652425 in
  if d <? DayFromYear y then y - 1
  else if DayFromYear (y + 1) <=? d then y + 1
  else y.

Definition InLeapYear (t : Z) : Z :=
  if DaysInYear (YearFromTime t) =? 366 then 1 else 0.

Definition DayWithinYear (t : Z) : Z := Day t - DayFromYear (YearFromTime t).

Definition MonthFromTime (t : Z) : Z :=
  let d := DayWithinYear t in
  let leap := InLeapYear t in
  if d <? 31 then 0
  else if d <? 59 + leap then 1
  else if d <? 90 + leap then 2
  else if d <? 120 + leap then 3
  else if d <? 151 + leap then 4
  else if d <? 181 + leap then 5
  else if d <? 212 + leap then 6
  else if d <? 243 + leap then 7
  else if d <? 273 + leap then 8
  else if d <? 304 + leap then 9
  else if d <? 334 + leap then 10
  else 11.

Definition DateFromTime (t : Z) : Z :=
  let d := DayWithinYear t in
  let leap := InLeapYear t in
  match MonthFromTime t with
  | 0 => d + 1
  | 1 => d - 30
  | 2 => d - 58 - leap
  | 3 => d - 89 - leap
  | 4 => d - 119 - leap
  | 5 => d - 150 - leap
  | 6 => d - 180 - leap
  | 7 => d - 211 - leap
  | 8 => d - 242 - leap
  | 9 => d - 272 - leap
  | 10 => d - 303 - leap
  | _ => d - 333 - leap
  end.

Definition LocalTime (tz : TimeZone) (t : Z) : Z := t + tz t true.
Definition UTC (tz : TimeZone) (t : Z) : Z := t - tz t false.

Definition MakeTime (hour min sec ms : Z) : Z :=
  hour * 3600000 + min * 60000 + sec * 1000 + ms.
Definition MakeDate (day time : Z) : Z := day * msPerDay + time.

(** [TimeClip] on an integral time value. *)
Definition TimeClip (t : Z) : Date :=
  if Z.abs t <=? maxTime then DateAt t else InvalidDate.

End TimeValue.

(** Truncation towards zero ([ToIntegerOrInfinity] on a finite value). *)
Definition Ztrunc (r : R) : Z := if Rltb r 0 then Zceil r else Zfloor r.

(** [date.valueOf()]. *)
Definition valueOf (date : Date) : number :=
  match date with
  | DateAt t => Fin (IZR t)
  | InvalidDate => NaN
  end.

(** [new Date(value)] for a Number: [TimeClip], which truncates a finite value
    in range and turns anything else into an invalid date. *)
Definition newDate (value : number) : Date :=
  match value with
  | Fin r =>
      if Rleb (Rabs r) (IZR TimeValue.maxTime) then DateAt (Ztrunc r)
      else InvalidDate
  | _ => InvalidDate
  end.

(** [date.setHours(hour, min, sec, ms)]: the new state of the object. *)
Definition setHours (tz : TimeZone) (date : Date) (hour min sec ms : Z) : Date :=
  match date with
  | DateAt t =>
      let local := TimeValue.LocalTime tz t in
      TimeValue.TimeClip
        (TimeValue.UTC tz (TimeValue.MakeDate (TimeValue.Day local) (TimeValue.MakeTime hour min sec ms)))
  | InvalidDate => InvalidDate
  end.

Definition getFullYear (tz : TimeZone) (date : Date) : number :=
  match date with
  | DateAt t => Fin (IZR (TimeValue.YearFromTime (TimeValue.LocalTime tz t)))
  | InvalidDate => NaN
  end.

Definition getMonth (tz : TimeZone) (date : Date) : number :=
  match date with
  | DateAt t => Fin (IZR (TimeValue.MonthFromTime (TimeValue.LocalTime tz t)))
  | InvalidDate => NaN
  end.

Definition getDate (tz : TimeZone) (date : Date) : number :=
  match date with
  | DateAt t => Fin (IZR (TimeValue.DateFromTime (TimeValue.LocalTime tz t)))
  | InvalidDate => NaN
  end.

(* ================================================================== *)
(** * The engine: what [index.ts] and [part_001] share *)
(* ================================================================== *)

Local Open Scope num_scope.

Definition PI : number := Math.PI.
Definition rad : number := PI / Fin 180.
Definition e : number := rad * Fin 23.4397.

Definition dayMills : number := Fin 1000 * Fin 60 * Fin 60 * Fin 24.
Definition julian1970 : number := Fin 2440588.
Definition julian2000 : number := Fin 2451545.
Definition julian0 : number := Fin 0.0009.
Definition sunsetAngle : number := Fin (-0.83) * rad.
Definition sunDiameter : number := Fin 0.53 * rad.
Definition nauticalTwilightAngle : number := Fin (-6) * rad.
Definition astronomicalTwilightAngle : number := Fin (-12) * rad.
Definition darknessAngle : number := Fin (-18) * rad.

Definition toJulian (date : Date) : number :=
  valueOf date / dayMills - Fin 0.5 + julian1970.
Definition getDays (date : Date) : number := toJulian date - julian2000.
Definition getJulianCycle (julian lw : number) : number :=
  Math.round (julian - julian2000 - julian0 - lw / (Fin 2 * PI)).
Definition julianDateToDate (juian : number) : Date :=
  newDate ((juian + Fin 0.5 - julian1970) * dayMills).

Definition getRightAscension (lon lat : number) : number :=
  Math.atan2 (Math.sin lon * Math.cos e - Math.tan lat * Math.sin e) (Math.cos lon).
Definition getDeclination (lon lat : number) : number :=
  Math.asin (Math.sin lat * Math.cos e + Math.cos lat * Math.sin e * Math.sin lon).
Definition getAzimuth (h phi dec : number) : number :=
  Math.atan2 (Math.sin h) (Math.cos h * Math.sin phi - Math.tan dec * Math.cos phi).
Definition getAltitude (h phi dec : number) : number :=
  Math.asin (Math.sin phi * Math.sin dec + Math.cos phi * Math.cos dec * Math.cos h).
Definition getSiderealTime (d lw : number) : number :=
  rad * (Fin 280.16 + Fin 360.9856235 * d) - lw.
Definition getSolarMeanAnomaly (days : number) : number :=
  rad * (Fin 357.5291 + Fin 0.98560028 * days).
Definition hoursShift (date : Date) (hours : number) : Date :=
  newDate (valueOf date + hours * dayMills / Fin 24).
Definition getApproxSolarTransit (ht lw julianCycle : number) : number :=
  julian2000 + julian0 + (ht + lw) / (Fin 2 * PI) + julianCycle.
Definition getSunriseJulianDate (julianTransit julianSet : number) : number :=
  julianTransit - (julianSet - julianTransit).
Definition getSolarTransit (approxSolarTransit solarMeanAnomaly eclipticLongitude : number)
  : number :=
  approxSolarTransit + (Fin 0.0053 * Math.sin solarMeanAnomaly)
  + (Fin (-0.0069) * Math.sin (Fin 2 * eclipticLongitude)).
Definition getSunsetJulianDate (w0 meanAnomaly eclipticLongitude lw julianCycle : number)
  : number :=
  getSolarTransit (getApproxSolarTransit w0 lw julianCycle) meanAnomaly eclipticLongitude.

(** The argument the program hands to [acos] in [getHourAngle]. *)
Definition hourAngleCosine (hour phi declination : number) : number :=
  (Math.sin hour - Math.sin phi * Math.sin declination)
  / (Math.cos phi * Math.cos declination).
Definition getHourAngle (hour phi declination : number) : number :=
  Math.acos (hourAngleCosine hour phi declination).
Definition getEquationOfCenter (meanAnomaly : number) : number :=
  rad * (Fin 1.9148 * Math.sin meanAnomaly + Fin 0.02 * Math.sin (Fin 2 * meanAnomaly)
         + Fin 0.0003 * Math.sin (Fin 3 * meanAnomaly)).

Definition getSolarEclipticLongitude (meanAnomaly : number) : number :=
  let centerEquation := getEquationOfCenter meanAnomaly in
  let earthPerihelion := rad * Fin 102.9372 in
  meanAnomaly + centerEquation + earthPerihelion + PI.

Definition getAstroRefraction (altitude : number) : number :=
  let altitude := if altitude <? Fin 0 then Fin 0 else altitude in
  Fin 0.0002967 / Math.tan (altitude + Fin 0.00312536 / (altitude + Fin 0.08901179)).

Record SunCoordinates : Type := mkSunCoordinates {
  sc_declination : number;
  sc_rightAscension : number
}.

Definition getSunCoords (days : number) : SunCoordinates :=
  let meanAnomaly := getSolarMeanAnomaly days in
  let eclipticLongitude := getSolarEclipticLongitude meanAnomaly in
  let declination := getDeclination eclipticLongitude (Fin 0) in
  let rightAscension := getRightAscension eclipticLongitude (Fin 0) in
  {| sc_declination := declination; sc_rightAscension := rightAscension |}.

Record SunPosition : Type := mkSunPosition {
  sp_azimuth : number;
  sp_altitude : number
}.

Record TimeSpan : Type := mkTimeSpan {
  start : Date;
  end_ : Date
}.

Record SunTimes : Type := mkSunTimes {
  sunrise : TimeSpan;
  civilDawn : TimeSpan;
  nauticalDawn : TimeSpan;
  astronomicalDawn : TimeSpan;
  dawn : Date;
  sunset : TimeSpan;
  civilDusk : TimeSpan;
  nauticalDusk : TimeSpan;
  astronomicalDusk : TimeSpan;
  dusk : Date;
  transit : Date
}.

(** A [Date] object is truthy, so [date || new Date()] is [date]. *)
Definition getSunPosition (date : Date) (lat lon : number) : SunPosition :=
  let lw := rad * - lon in
  let phi := rad * lat in
  let days := getDays date in
  let sunnCoords := getSunCoords days in
  let siderealTime := getSiderealTime days lw - sc_rightAscension sunnCoords in
  let azimuth := getAzimuth siderealTime phi (sc_declination sunnCoords) in
  let altitude := getAltitude siderealTime phi (sc_declination sunnCoords) in
  {| sp_azimuth := azimuth; sp_altitude := altitude |}.

(** The Julian dates [getSunTimes] computes before it converts them: its
    local constants, under their names. *)
Record SunJulianDates : Type := mkSunJulianDates {
  phi_ : number;
  sunDeclination : number;
  julianTransit : number;
  w0 : number; w1 : number; w2 : number; w3 : number; w4 : number;
  julianSet : number;
  julianSetStart : number;
  julianRise : number;
  julianRiseEnd : number;
  julianNautical : number;
  julianCivil : number;
  julianAstro : number;
  julianDark : number;
  julianNautical2 : number;
  julianAsto2 : number
}.

Definition sunJulianDates (date : Date) (lat lon : number) : SunJulianDates :=
  let lw := - lon * rad in
  let phi := lat * rad in
  let julianDate := toJulian date in
  let julianCycle := getJulianCycle julianDate lw in
  let approxSolarTransit := getApproxSolarTransit (Fin 0) lw julianCycle in
  let solarMeanAnomaly := getSolarMeanAnomaly (approxSolarTransit - julian2000) in
  let eclipticLongitude := getSolarEclipticLongitude solarMeanAnomaly in
  let sunDeclination := Math.asin (Math.sin eclipticLongitude * Math.sin e) in
  let julianTransit := getSolarTransit approxSolarTransit solarMeanAnomaly eclipticLongitude in
  let w0 := getHourAngle sunsetAngle phi sunDeclination in
  let w1 := getHourAngle (sunsetAngle + sunDiameter) phi sunDeclination in
  let julianSet := getSunsetJulianDate w0 solarMeanAnomaly eclipticLongitude lw julianCycle in
  let julianSetStart := getSunsetJulianDate w1 solarMeanAnomaly eclipticLongitude lw julianCycle in
  let julianRise := getSunriseJulianDate julianTransit julianSet in
  let julianRiseEnd := getSunriseJulianDate julianTransit julianSetStart in
  let w2 := getHourAngle nauticalTwilightAngle phi sunDeclination in
  let w3 := getHourAngle astronomicalTwilightAngle phi sunDeclination in
  let w4 := getHourAngle darknessAngle phi sunDeclination in
  let julianNautical := getSunsetJulianDate w2 solarMeanAnomaly eclipticLongitude lw julianCycle in
  let julianCivil := getSunriseJulianDate julianTransit julianNautical in
  let julianAstro := getSunsetJulianDate w3 solarMeanAnomaly eclipticLongitude lw julianCycle in
  let julianDark := getSunsetJulianDate w4 solarMeanAnomaly eclipticLongitude lw julianCycle in
  let julianNautical2 := getSunriseJulianDate julianTransit julianAstro in
  let julianAsto2 := getSunriseJulianDate julianTransit julianDark in
  {| phi_ := phi; sunDeclination := sunDeclination; julianTransit := julianTransit;
     w0 := w0; w1 := w1; w2 := w2; w3 := w3; w4 := w4;
     julianSet := julianSet; julianSetStart := julianSetStart;
     julianRise := julianRise; julianRiseEnd := julianRiseEnd;
     julianNautical := julianNautical; julianCivil := julianCivil;
     julianAstro := julianAstro; julianDark := julianDark;
     julianNautical2 := julianNautical2; julianAsto2 := julianAsto2 |}.

Definition getSunTimes (date : Date) (lat lon : number) : SunTimes :=
  let j := sunJulianDates date lat lon in
  {| sunrise := {| start := julianDateToDate (julianRise j);
                   end_ := julianDateToDate (julianRiseEnd j) |};
     civilDawn := {| start := julianDateToDate (julianCivil j);
                     end_ := julianDateToDate (julianRise j) |};
     nauticalDawn := {| start := julianDateToDate (julianNautical2 j);
                        end_ := julianDateToDate (julianCivil j) |};
     astronomicalDawn := {| start := julianDateToDate (julianAsto2 j);
                            end_ := julianDateToDate (julianNautical2 j) |};
     dawn := julianDateToDate (julianCivil j);
     sunset := {| start := julianDateToDate (julianSetStart j);
                  end_ := julianDateToDate (julianSet j) |};
     civilDusk := {| start := julianDateToDate (julianSet j);
                     end_ := julianDateToDate (julianNautical j) |};
     nauticalDusk := {| start := julianDateToDate (julianNautical j);
                        end_ := julianDateToDate (julianAstro j) |};
     astronomicalDusk := {| start := julianDateToDate (julianAstro j);
                            end_ := julianDateToDate (julianDark j) |};
     dusk := julianDateToDate (julianNautical j);
     transit := julianDateToDate (julianTransit j) |}.

Record MoonPhase : Type := mkMoonPhase {
  fraction : number;
  phase : number;
  angle : number
}.

(** An absent (optional) property is [None]. *)
Record MoonTimes : Type := mkMoonTimes {
  moonrise : option Date;
  moonset : option Date;
  alwaysUp : option bool;
  alwaysDown : option bool
}.

(** ** The rise/set scan of [getMoonTimes]

    The variables the loop of [getMoonTimes] carries from one two-hour window
    to the next; [rise] and [set] are [undefined] ([None]) until assigned. *)
Record Scan : Type := mkScan {
  h0 : number;
  rise : option number;
  set : option number;
  ye : number;
  x1 : number;
  x2 : number
}.

Definition hc : number := Fin 0.133 * rad.

(** The values [i] takes in [for (let i = 1; i <= 24; i += 2)]. *)
Definition windowHours : list Z := [1; 3; 5; 7; 9; 11; 13; 15; 17; 19; 21; 23]%Z.

(** What one window computes from its three samples: the vertex value [ye],
    the count of roots in [[-1,1]] and the roots [x1], [x2] ([x1], [x2] keep
    their former values when the discriminant is negative). *)
Record Fit : Type := mkFit {
  fit_ye : number;
  fit_roots : Z;
  fit_x1 : number;
  fit_x2 : number
}.

Definition fitWindow (h0 h1 h2 x1 x2 : number) : Fit :=
  let a := (h0 + h2) / Fin 2 - h1 in
  let b := (h2 - h0) / Fin 2 in
  let xe := - b / (Fin 2 * a) in
  let ye := (a * xe + b) * xe + h1 in
  let d := b * b - Fin 4 * a * h1 in
  if d >=? Fin 0 then
    let dx := Math.sqrt d / (Math.abs a * Fin 2) in
    let x1 := xe - dx in
    let x2 := xe + dx in
    let roots := 0%Z in
    let roots := if Math.abs x1 <=? Fin 1 then (roots + 1)%Z else roots in
    let roots := if Math.abs x2 <=? Fin 1 then (roots + 1)%Z else roots in
    let x1 := if x1 <? Fin (-1) then x2 else x1 in
    {| fit_ye := ye; fit_roots := roots; fit_x1 := x1; fit_x2 := x2 |}
  else {| fit_ye := ye; fit_roots := 0%Z; fit_x1 := x1; fit_x2 := x2 |}.

(** The body of the loop up to the [break] test, for the window centred at
    hour [i] with samples [h0 s], [h1], [h2]. *)
Definition moonWindow (i h1 h2 : number) (s : Scan) : Scan :=
  let f := fitWindow (h0 s) h1 h2 (x1 s) (x2 s) in
  let rise_set :=
    if (fit_roots f =? 1)%Z then
      if h0 s <? Fin 0 then (Some (i + fit_x1 f), set s)
      else (rise s, Some (i + fit_x1 f))
    else if (fit_roots f =? 2)%Z then
      (Some (i + (if fit_ye f <? Fin 0 then fit_x2 f else fit_x1 f)),
       Some (i + (if fit_ye f <? Fin 0 then fit_x1 f else fit_x2 f)))
    else (rise s, set s) in
  {| h0 := h0 s; rise := fst rise_set; set := snd rise_set;
     ye := fit_ye f; x1 := fit_x1 f; x2 := fit_x2 f |}.

(** Truthiness of a variable that is [undefined] or a Number. *)
Definition truthyOpt (v : option number) : bool :=
  match v with
  | Some x => truthy x
  | None => false
  end.

Definition nextWindow (h2 : number) (s : Scan) : Scan :=
  {| h0 := h2; rise := rise s; set := set s; ye := ye s; x1 := x1 s; x2 := x2 s |}.

Definition initialScan (h0 : number) : Scan :=
  {| h0 := h0; rise := None; set := None; ye := Fin 0; x1 := Fin 0; x2 := Fin 0 |}.

(** The statements after the loop: the result object. *)
Definition moonResult (date : Date) (s : Scan) : MoonTimes :=
  let result_moonrise :=
    match rise s with
    | Some r => if truthy r then Some (hoursShift date r) else None
    | None => None
    end in
  let result_moonset :=
    match set s with
    | Some r => if truthy r then Some (hoursShift date r) else None
    | None => None
    end in
  let neither := negb (truthyOpt (rise s)) && negb (truthyOpt (set s)) in
  {| moonrise := result_moonrise;
     moonset := result_moonset;
     alwaysUp := if neither && (ye s >? Fin 0) then Some true else None;
     alwaysDown := if neither && negb (ye s >? Fin 0) then Some true else None |}.

(* ================================================================== *)
(** * [src/index.ts] *)
(* ================================================================== *)

Module Index.

Record MoonCoordinates : Type := mkMoonCoordinates {
  rightAscension : number;
  declination : number;
  distance : number
}.

Record MoonPosition : Type := mkMoonPosition {
  mp_azimuth : number;
  mp_altitude : number;
  mp_distance : number;
  mp_parallacticAngle : number
}.

Definition getMoonCoords (days : number) : MoonCoordinates :=
  let eclipticLong := rad * (Fin 218.316 + Fin 13.176396 * days) in
  let meanAnomaly := rad * (Fin 134.963 + Fin 13.064993 * days) in
  let meanDistance := rad * (Fin 93.272 + Fin 13.229350 * days) in
  let long := eclipticLong + rad * Fin 6.289 * Math.sin meanAnomaly in
  let lat := rad * Fin 5.128 * Math.sin meanDistance in
  let distance := Fin 385001 - Fin 20905 * Math.cos meanAnomaly in
  {| rightAscension := getRightAscension long lat;
     declination := getDeclination long lat;
     distance := distance |}.

Definition getMoonPosition (date : Date) (lat lon : number) : MoonPosition :=
  let lw := rad * - lon in
  let phi := rad * lat in
  let days := getDays date in
  let moonCoords := getMoonCoords days in
  let siderealTime := getSiderealTime days lw - rightAscension moonCoords in
  let altitude := getAltitude siderealTime phi (declination moonCoords) in
  let parallacticAngle :=
    Math.atan2 (Math.sin siderealTime)
      (Math.tan phi * Math.cos (declination moonCoords)
       - Math.sin (declination moonCoords) * Math.cos siderealTime) in
  let altitude := altitude + getAstroRefraction altitude in
  let azimuth := getAzimuth siderealTime phi (declination moonCoords) in
  {| mp_azimuth := azimuth;
     mp_altitude := altitude;
     mp_distance := distance moonCoords;
     mp_parallacticAngle := parallacticAngle |}.

Definition getMoonPhase (date : Date) : MoonPhase :=
  let days := getDays date in
  let sunCoords := getSunCoords days in
  let moonCoords := getMoonCoords days in
  let sunDistance := Fin 149598000 in
  let phi :=
    Math.acos (Math.sin (sc_declination sunCoords) * Math.sin (declination moonCoords)
               + Math.cos (sc_declination sunCoords) * Math.cos (declination moonCoords)
                 * Math.cos (sc_rightAscension sunCoords - rightAscension moonCoords)) in
  let inc :=
    Math.atan2 (sunDistance * Math.sin phi)
               (distance moonCoords - sunDistance * Math.cos phi) in
  let angle :=
    Math.atan2 (Math.cos (sc_declination sunCoords)
                * Math.sin (sc_rightAscension sunCoords - rightAscension moonCoords))
               (Math.sin (sc_declination sunCoords) * Math.cos (declination moonCoords)
                - Math.cos (sc_declination sunCoords) * Math.sin (declination moonCoords)
                  * Math.cos (sc_rightAscension sunCoords - rightAscension moonCoords)) in
  {| fraction := (Fin 1 + Math.cos inc) / Fin 2;
     phase := Fin 0.5 + Fin 0.5 * inc * (if angle <? Fin 0 then Fin (-1) else Fin 1) / Math.PI;
     angle := angle |}.

(** The loop of [getMoonTimes] over the remaining window hours. *)
Fixpoint moonScan (date : Date) (lat lon : number) (hours : list Z) (s : Scan) : Scan :=
  match hours with
  | [] => s
  | i :: rest =>
      let i := Fin (IZR i) in
      let h1 := mp_altitude (getMoonPosition (hoursShift date i) lat lon) - hc in
      let h2 := mp_altitude (getMoonPosition (hoursShift date (i + Fin 1)) lat lon) - hc in
      let s := moonWindow i h1 h2 s in
      if truthyOpt (rise s) && truthyOpt (set s) then s
      else moonScan date lat lon rest (nextWindow h2 s)
  end.

(** [getMoonTimes] returns its result and leaves the [Date] object it was
    given in the state of the second component. *)
Definition getMoonTimes (tz : TimeZone) (date : Date) (lat lon : number)
  : MoonTimes * Date :=
  let date := setHours tz date 0 0 0 0 in
  let h0 := mp_altitude (getMoonPosition date lat lon) - hc in
  let s := moonScan date lat lon windowHours (initialScan h0) in
  (moonResult date s, date).

End Index.

(* ================================================================== *)
(** * [src/unnamed/part_001] *)
(* ================================================================== *)

(** How a call ends: with a value, or with an exception thrown. *)
Inductive JSError : Type := TypeError.

Inductive outcome (A : Type) : Type :=
| Returns (a : A)
| Throws (err : JSError).
Arguments Returns {A} a.
Arguments Throws {A} err.

Definition bind {A B : Type} (m : outcome A) (k : A -> outcome B) : outcome B :=
  match m with
  | Returns a => k a
  | Throws err => Throws err
  end.

Notation "'do' x <- m ; k" := (bind m (fun x => k))
  (at level 10, x name, m at level 100, k at level 200).

Module Part001.

Record Zodiac : Type := mkZodiac {
  sign : string;
  long : number
}.

(** The table [zodiacs], in the order of its keys (the first key is spelt
    [zodiac] in the program). *)
Definition zodiacs : list (string * Zodiac) :=
  [ ("zodiac"%string, {| sign := "Aries"; long := Fin 0 |});
    ("taurus"%string, {| sign := "Taurus"; long := Fin 30 |});
    ("gemini"%string, {| sign := "Gemini"; long := Fin 60 |});
    ("cancer"%string, {| sign := "Cancer"; long := Fin 90 |});
    ("leo"%string, {| sign := "Leo"; long := Fin 120 |});
    ("virgo"%string, {| sign := "Virgo"; long := Fin 150 |});
    ("libra"%string, {| sign := "Libra"; long := Fin 180 |});
    ("scorpio"%string, {| sign := "Scorpio"; long := Fin 210 |});
    ("sagittarius"%string, {| sign := "Sagittarius"; long := Fin 240 |});
    ("capricorn"%string, {| sign := "Capricorn"; long := Fin 270 |});
    ("aquarius"%string, {| sign := "Aquarius"; long := Fin 300 |});
    ("pisces"%string, {| sign := "Pisces"; long := Fin 330 |}) ].

Definition normalize (v : number) : number :=
  let v := v - Math.floor v in
  if v <? Fin 0 then v + Fin 1 else v.

Record MoonCoordinates : Type := mkMoonCoordinates {
  rightAscension : number;
  declination : number;
  distance : number;
  latitude : number;
  longitude : number;
  zodiacSign : string
}.

Record MoonPosition : Type := mkMoonPosition {
  mp_azimuth : number;
  mp_altitude : number;
  mp_distance : number;
  mp_parallacticAngle : number;
  mp_latitude : number;
  mp_longitude : number;
  mp_zodiacSign : string
}.

(** The day number [jd] that [getMoonCoords] derives from the local calendar
    date of [date]. *)
Definition calendarDayNumber (tz : TimeZone) (date : Date) : number :=
  let year := getFullYear tz date in
  let month := getMonth tz date + Fin 1 in
  let day := getDate tz date in
  let yy := year - Math.floor ((Fin 12 - month) / Fin 10) in
  let mm := month + Fin 9 in
  let mm := if mm >=? Fin 12 then mm - Fin 12 else mm in
  let k1 := Math.floor (Fin 365.25 * (yy + Fin 4712)) in
  let k2 := Math.floor (Fin 30.6 * mm + Fin 0.5) in
  let k3 := Math.floor (Math.floor ((yy / Fin 100) + Fin 49) * Fin 0.75) - Fin 38 in
  let jd := k1 + k2 + day + Fin 59 in
  if jd >? Fin 2299160 then jd - k3 else jd.

(** The local constant [longitude] of [getMoonCoords]. *)
Definition zodiacLongitude (jd : number) : number :=
  let ip := normalize ((jd - Fin 2451550.1) / Fin 29.530588853) in
  let ip := ip * Fin 2 * PI in
  let dp := Fin 2 * PI * normalize ((jd - Fin 2451562.2) / Fin 27.55454988) in
  let rp := normalize ((jd - Fin 2451555.8) / Fin 27.321582241) in
  Fin 360 * rp + Fin 6.3 * Math.sin dp + Fin 1.3 * Math.sin (Fin 2 * ip - dp)
  + Fin 0.7 * Math.sin (Fin 2 * ip).

(** The local constant [latitude] of [getMoonCoords]. *)
Definition zodiacLatitude (jd : number) : number :=
  let np := Fin 2 * PI * normalize ((jd - Fin 2451565.2) / Fin 27.212220817) in
  Fin 5.1 * Math.sin np.

(** [Object.keys(zodiacs).map(key => zodiacs[key]).filter(...)]: the entries
    of the table, in key order, whose 30-degree range holds [longitude]. *)
Definition zodiacMatches (longitude : number) : list Zodiac :=
  filter (fun zodiac => (longitude >=? long zodiac) && (longitude <? long zodiac + Fin 30))
         (map snd zodiacs).

(** [matches[0].sign]: reading [sign] off the [undefined] that an empty array
    gives throws a [TypeError]. *)
Definition zodiacLookup (longitude : number) : outcome string :=
  match zodiacMatches longitude with
  | zodiac :: _ => Returns (sign zodiac)
  | [] => Throws TypeError
  end.

Definition getMoonCoords (tz : TimeZone) (date : Date) (days : number)
  : outcome MoonCoordinates :=
  let eclipticLong := rad * (Fin 218.316 + Fin 13.176396 * days) in
  let meanAnomaly := rad * (Fin 134.963 + Fin 13.064993 * days) in
  let meanDistance := rad * (Fin 93.272 + Fin 13.229350 * days) in
  let long := eclipticLong + rad * Fin 6.289 * Math.sin meanAnomaly in
  let lat := rad * Fin 5.128 * Math.sin meanDistance in
  let distance := Fin 385001 - Fin 20905 * Math.cos meanAnomaly in
  let jd := calendarDayNumber tz date in
  let latitude := zodiacLatitude jd in
  let longitude := zodiacLongitude jd in
  do zodiacSign <- zodiacLookup longitude;
  Returns {| rightAscension := getRightAscension long lat;
             declination := getDeclination long lat;
             distance := distance;
             latitude := latitude;
             longitude := longitude;
             zodiacSign := zodiacSign |}.

Definition getMoonPosition (tz : TimeZone) (date : Date) (lat lon : number)
  : outcome MoonPosition :=
  let lw := rad * - lon in
  let phi := rad * lat in
  let days := getDays date in
  do moonCoords <- getMoonCoords tz date days;
  let siderealTime := getSiderealTime days lw - rightAscension moonCoords in
  let altitude := getAltitude siderealTime phi (declination moonCoords) in
  let parallacticAngle :=
    Math.atan2 (Math.sin siderealTime)
      (Math.tan phi * Math.cos (declination moonCoords)
       - Math.sin (declination moonCoords) * Math.cos siderealTime) in
  let altitude := altitude + getAstroRefraction altitude in
  let azimuth := getAzimuth siderealTime phi (declination moonCoords) in
  Returns {| mp_azimuth := azimuth;
             mp_altitude := altitude;
             mp_distance := distance moonCoords;
             mp_parallacticAngle := parallacticAngle;
             mp_latitude := latitude moonCoords;
             mp_longitude := longitude moonCoords;
             mp_zodiacSign := zodiacSign moonCoords |}.

Definition getMoonPhase (tz : TimeZone) (date : Date) : outcome MoonPhase :=
  let days := getDays date in
  let sunCoords := getSunCoords days in
  do moonCoords <- getMoonCoords tz date days;
  let sunDistance := Fin 149598000 in
  let phi :=
    Math.acos (Math.sin (sc_declination sunCoords) * Math.sin (declination moonCoords)
               + Math.cos (sc_declination sunCoords) * Math.cos (declination moonCoords)
                 * Math.cos (sc_rightAscension sunCoords - rightAscension moonCoords)) in
  let inc :=
    Math.atan2 (sunDistance * Math.sin phi)
               (distance moonCoords - sunDistance * Math.cos phi) in
  let angle :=
    Math.atan2 (Math.cos (sc_declination sunCoords)
                * Math.sin (sc_rightAscension sunCoords - rightAscension moonCoords))
               (Math.sin (sc_declination sunCoords) * Math.cos (declination moonCoords)
                - Math.cos (sc_declination sunCoords) * Math.sin (declination moonCoords)
                  * Math.cos (sc_rightAscension sunCoords - rightAscension moonCoords)) in
  Returns {| fraction := (Fin 1 + Math.cos inc) / Fin 2;
             phase := Fin 0.5 + Fin 0.5 * inc * (if angle <? Fin 0 then Fin (-1) else Fin 1) / PI;
             angle := angle |}.

Fixpoint moonScan (tz : TimeZone) (date : Date) (lat lon : number) (hours : list Z)
  (s : Scan) : outcome Scan :=
  match hours with
  | [] => Returns s
  | i :: rest =>
      let i := Fin (IZR i) in
      do p1 <- getMoonPosition tz (hoursShift date i) lat lon;
      let h1 := mp_altitude p1 - hc in
      do p2 <- getMoonPosition tz (hoursShift date (i + Fin 1)) lat lon;
      let h2 := mp_altitude p2 - hc in
      let s := moonWindow i h1 h2 s in
      if truthyOpt (rise s) && truthyOpt (set s) then Returns s
      else moonScan tz date lat lon rest (nextWindow h2 s)
  end.

Definition getMoonTimes (tz : TimeZone) (date : Date) (lat lon : number)
  : outcome MoonTimes * Date :=
  let date := setHours tz date 0 0 0 0 in
  (do p0 <- getMoonPosition tz date lat lon;
   let h0 := mp_altitude p0 - hc in
   do s <- moonScan tz date lat lon windowHours (initialScan h0);
   Returns (moonResult date s),
   date).

End Part001.

(* ================================================================== *)
(** * The Julian-date conversions on binary64 *)
(* ================================================================== *)

(** [toJulian] and [julianDateToDate] once more, on IEEE 754 binary64 floats
    with round-to-nearest-even: the arithmetic the program runs on.  A time
    value is an integer of magnitude at most [8.64e15], which a float holds
    exactly. *)
Module Binary64.
Import PrimFloat FloatOps SpecFloat.
Local Open Scope float_scope.

Definition of_Z (z : Z) : float :=
  match z with
  | Z0 => 0
  | Zpos _ => PrimFloat.of_uint63 (Uint63.of_Z z)
  | Zneg _ => - PrimFloat.of_uint63 (Uint63.of_Z (- z))
  end.

(** Truncation of a finite float towards zero; [None] on NaN and infinities. *)
Definition trunc (x : float) : option Z :=
  match Prim2SF x with
  | S754_zero _ => Some 0%Z
  | S754_finite s m e =>
      let v := match e with
               | Zneg k => Z.shiftr (Zpos m) (Zpos k)
               | _ => Z.shiftl (Zpos m) e
               end in
      Some (if s then (- v)%Z else v)
  | _ => None
  end.

Definition valueOf (date : Date) : float :=
  match date with
  | DateAt t => of_Z t
  | InvalidDate => nan
  end.

(** [new Date(value)]: [TimeClip]. *)
Definition newDate (value : float) : Date :=
  if PrimFloat.leb (PrimFloat.abs value) 8640000000000000 then
    match trunc value with
    | Some t => DateAt t
    | None => InvalidDate
    end
  else InvalidDate.

Definition dayMills : float := 1000 * 60 * 60 * 24.
Definition julian1970 : float := 2440588.

Definition toJulian (date : Date) : float :=
  valueOf date / dayMills - 0.5 + julian1970.
Definition julianDateToDate (juian : float) : Date :=
  newDate ((juian + 0.5 - julian1970) * dayMills).

End Binary64.

(* ================================================================== *)
(** * The Julian-date conversions with rounded operations *)
(* ================================================================== *)

(** [toJulian] and [julianDateToDate] a third time, over the reals with every
    arithmetic operation followed by a rounding [rnd] of its exact result, as
    a floating-point unit does it.  The time value of a [Date] and the
    constants [0.5], [julian1970] and [dayMills] are whole or dyadic numbers
    that binary64 holds exactly; they are not rounded. *)
Module Rounded.

Definition fl (rnd : R -> R) (x : number) : number :=
  match x with
  | Fin r => Fin (rnd r)
  | _ => x
  end.

Definition toJulian (rnd : R -> R) (date : Date) : number :=
  fl rnd (fl rnd (fl rnd (valueOf date / dayMills) - Fin 0.5) + julian1970).
Definition julianDateToDate (rnd : R -> R) (juian : number) : Date :=
  newDate (fl rnd (fl rnd (fl rnd (juian + Fin 0.5) - julian1970) * dayMills)).

End Rounded.

(* ================================================================== *)
(** * Vocabulary of the statements *)
(* ================================================================== *)


(** The rounding that takes every value towards zero by exactly that
    relative error. *)
Definition shrink53 (x : R) : R := (x - x * / 9007199254740992)%R.

(** A value [acos] has no real answer for: not a finite number of [[-1,1]]. *)
Definition noRealSolution (x : number) : Prop :=
  match x with
  | Fin r => (r < -1 \/ 1 < r)%R
  | _ => True
  end.

(** The value of [rise] or [set]: [undefined], or an hour from 0 to 24. *)
Definition hourOfDay (v : option number) : Prop :=
  match v with
  | Some (Fin r) => (0 <= r <= 24)%R
  | Some _ => False
  | None => True
  end.

(** An optional [Date] of a result that, when present and valid, is at most
    24 hours after the valid date [from]. *)
Definition withinDayAfter (from : Date) (d : option Date) : Prop :=
  match d, from with
  | Some (DateAt m), DateAt t0 => (t0 <= m <= t0 + 86400000)%Z
  | _, _ => True
  end.

(** The evening and the morning crossing that belong to a transit [T] (a
    Julian date) and an hour angle [w]: the transit plus or minus the hour
    angle as a fraction of a turn, NaN when there is no hour angle. *)
Definition eveningOf (T : R) (w : number) : number :=
  match w with
  | Fin omega => Fin (T + omega / (2 * Rtrigo1.PI))%R
  | _ => NaN
  end.

Definition morningOf (T : R) (w : number) : number :=
  match w with
  | Fin omega => Fin (T - omega / (2 * Rtrigo1.PI))%R
  | _ => NaN
  end.

(** Order of two dates, where both are valid. *)
Definition dateLe (a b : Date) : Prop :=
  match a, b with
  | DateAt x, DateAt y => (x <= y)%Z
  | _, _ => True
  end.

(** Order of two numbers, where both are finite. *)
Definition finLe (x y : number) : Prop :=
  match x, y with
  | Fin a, Fin b => (a <= b)%R
  | _, _ => True
  end.

(** The Julian Day Number of the civil day that holds the time value [t]:
    day 0 of the time value is 1 January 1970, whose number is 2 440 588. *)
Definition julianDayNumber (t : Z) : Z := (TimeValue.Day t + 2440588)%Z.

(** The arithmetic of [Part001.calendarDayNumber] on integers: each [floor]
    of a quotient is an integer division. *)
Definition dayNumberZ (year month0 day : Z) : Z :=
  (let month := month0 + 1 in
   let yy := year - (12 - month) / 10 in
   let mm := month + 9 in
   let mm := if 12 <=? mm then mm - 12 else mm in
   let k1 := (1461 * (yy + 4712)) / 4 in
   let k2 := (306 * mm + 5) / 10 in
   let k3 := (3 * (yy / 100 + 49)) / 4 - 38 in
   let jd := k1 + k2 + day + 59 in
   if 2299160 <? jd then jd - k3 else jd)%Z.

(** A day on which the main term of the longitude of [part_001], 360 times
    the fractional part of the sidereal months since the reference day, keeps
    8.3 degrees away from both ends of the circle. *)
Definition awayFromTheWrap (jd : Z) : Prop :=
  let x := ((IZR jd - 2451555.8) / 27.321582241)%R in
  (8.3 <= 360 * (x - IZR (Zfloor x)) < 351.7)%R.

(* ================================================================== *)
(** * Evaluating numbers *)
(* ================================================================== *)

Local Open Scope R_scope.

(** The real number pi (the program's [PI] is the Number). *)
Notation "'Rpi'" := Rtrigo1.PI.

Lemma Rltb_true (a b : R) : a < b -> Rltb a b = true.
Proof. intros H. unfold Rltb. destruct (Rlt_dec a b); [reflexivity | contradiction]. Qed.

Lemma Rltb_false (a b : R) : b <= a -> Rltb a b = false.
Proof. intros H. unfold Rltb. destruct (Rlt_dec a b); [lra | reflexivity]. Qed.

Lemma Rleb_true (a b : R) : a <= b -> Rleb a b = true.
Proof. intros H. unfold Rleb. destruct (Rle_dec a b); [reflexivity | contradiction]. Qed.

Lemma Rleb_false (a b : R) : b < a -> Rleb a b = false.
Proof. intros H. unfold Rleb. destruct (Rle_dec a b); [lra | reflexivity]. Qed.

Lemma Reqb_true (a b : R) : a = b -> Reqb a b = true.
Proof. intros H. unfold Reqb. destruct (Req_dec_T a b); [reflexivity | contradiction]. Qed.

Lemma Reqb_false (a b : R) : a <> b -> Reqb a b = false.
Proof. intros H. unfold Reqb. destruct (Req_dec_T a b); [contradiction | reflexivity]. Qed.

Lemma Rltb_spec (a b : R) : Rltb a b = true <-> a < b.
Proof. unfold Rltb. destruct (Rlt_dec a b); split; intros; auto; discriminate. Qed.

Lemma Rleb_spec (a b : R) : Rleb a b = true <-> a <= b.
Proof. unfold Rleb. destruct (Rle_dec a b); split; intros; auto; discriminate. Qed.

Lemma Reqb_spec (a b : R) : Reqb a b = true <-> a = b.
Proof. unfold Reqb. destruct (Req_dec_T a b); split; intros; auto; discriminate. Qed.

Lemma div_Fin (a b : R) : b <> 0 -> (Fin a / Fin b)%num = Fin (a / b).
Proof. intros H. unfold div. rewrite (Reqb_false b 0 H). reflexivity. Qed.

Lemma rad_Fin : rad = Fin (Rpi / 180).
Proof. unfold rad, PI, Math.PI. apply div_Fin. lra. Qed.

Lemma e_Fin : e = Fin (Rpi / 180 * 23.4397).
Proof. unfold e. rewrite rad_Fin. reflexivity. Qed.

Lemma dayMills_Fin : dayMills = Fin 86400000.
Proof. unfold dayMills. cbn [mul]. f_equal. lra. Qed.

Lemma toJulian_Fin (t : Z) :
  toJulian (DateAt t) = Fin (IZR t / 86400000 - 0.5 + 2440588).
Proof.
  unfold toJulian, julian1970. rewrite dayMills_Fin. cbn [valueOf].
  rewrite div_Fin by lra. reflexivity.
Qed.

Lemma getDays_Fin (t : Z) :
  getDays (DateAt t) = Fin (IZR t / 86400000 - 0.5 + 2440588 - 2451545).
Proof.
  unfold getDays, julian2000. rewrite toJulian_Fin. reflexivity.
Qed.

(* ================================================================== *)
(** * The calendar of the time model, checked on the years 1 to 4000 *)
(* ================================================================== *)

(** [YearFromTime] maps the first and the last millisecond of each year to
    that year, and the months and days of the month follow. *)
Lemma YearFromTime_year_ends :
  forallb (fun y =>
             (TimeValue.YearFromTime (TimeValue.TimeFromYear y) =? y)%Z
             && (TimeValue.YearFromTime (TimeValue.TimeFromYear (y + 1) - 1) =? y)%Z
             && (TimeValue.MonthFromTime (TimeValue.TimeFromYear y) =? 0)%Z
             && (TimeValue.DateFromTime (TimeValue.TimeFromYear y) =? 1)%Z
             && (TimeValue.MonthFromTime (TimeValue.TimeFromYear (y + 1) - 1) =? 11)%Z
             && (TimeValue.DateFromTime (TimeValue.TimeFromYear (y + 1) - 1) =? 31)%Z)
          (map (fun n => Z.of_nat n + 1)%Z (seq 0 4000))
  = true.
Proof. vm_compute. reflexivity. Qed.

(* ================================================================== *)
(** * The caller's [Date] object *)
(* ================================================================== *)

Lemma getMoonTimes_date_after (tz : TimeZone) (date : Date) (lat lon : number) :
  snd (Index.getMoonTimes tz date lat lon) = setHours tz date 0 0 0 0.
Proof. reflexivity. Qed.

Lemma getMoonTimes_date_after_part001 (tz : TimeZone) (date : Date) (lat lon : number) :
  snd (Part001.getMoonTimes tz date lat lon) = setHours tz date 0 0 0 0.
Proof. reflexivity. Qed.

(** In a UTC environment the object is left at the start of its day: any
    instant that is not a midnight is changed. *)
Lemma setHours_UTC_changes (t : Z) :
  (Z.abs t <= TimeValue.maxTime)%Z -> (t mod TimeValue.msPerDay <> 0)%Z ->
  exists t' : Z,
    setHours UTCZone (DateAt t) 0 0 0 0 = DateAt t' /\ (t' < t)%Z.
Proof.
  intros Ht Hmod.
  unfold setHours, TimeValue.LocalTime, TimeValue.UTC, UTCZone, TimeValue.MakeDate,
    TimeValue.MakeTime, TimeValue.Day, TimeValue.TimeClip, TimeValue.maxTime,
    TimeValue.msPerDay in *.
  assert (Hq : (86400000 * (t / 86400000) <= t - 1
                /\ t - 86400000 < 86400000 * (t / 86400000))%Z).
  { pose proof (Z.div_mod t 86400000 ltac:(lia)) as Hdiv.
    pose proof (Z.mod_pos_bound t 86400000 ltac:(lia)) as Hpos. lia. }
  replace (t + 0)%Z with t by lia.
  set (q := (t / 86400000)%Z) in *.
  match goal with
  | |- context [if (Z.abs ?u <=? ?m)%Z then _ else _] =>
      destruct (Z.leb_spec (Z.abs u) m) as [Hin | Hout];
      [exists u; split; [reflexivity | lia] | exfalso; lia]
  end.
Qed.

(** C1: [getMoonTimes] does not leave the [Date] it is given unchanged.  Called
    in a UTC environment on the instant 2019-02-09T18:00:00Z, with any
    coordinates, it leaves the caller's object at 2019-02-09T00:00:00Z. *)
Theorem getMoonTimes_resets_argument :
  forall lat lon : number,
    snd (Index.getMoonTimes UTCZone (DateAt 1549735200000) lat lon)
    = DateAt 1549670400000
    /\ snd (Part001.getMoonTimes UTCZone (DateAt 1549735200000) lat lon)
       = DateAt 1549670400000
    /\ DateAt 1549670400000 <> DateAt 1549735200000.
Proof.
  intros lat lon.
  rewrite getMoonTimes_date_after, getMoonTimes_date_after_part001.
  split; [ | split ].
  - vm_compute. reflexivity.
  - vm_compute. reflexivity.
  - discriminate.
Qed.

(* ================================================================== *)
(** * The result object of [getMoonTimes] *)
(* ================================================================== *)

Lemma moonResult_crossing_or_flag (date : Date) (s : Scan) :
  let r := moonResult date s in
  (alwaysUp r = None /\ alwaysDown r = None)
  \/ (moonrise r = None /\ moonset r = None).
Proof.
  unfold moonResult. cbn [moonrise moonset alwaysUp alwaysDown].
  destruct (rise s) as [r1 | ]; destruct (set s) as [r2 | ]; cbn [truthyOpt];
    try destruct (truthy r1); try destruct (truthy r2); cbn [negb andb];
    auto.
Qed.

Lemma moonResult_one_flag (date : Date) (s : Scan) :
  let r := moonResult date s in
  alwaysUp r = None \/ alwaysDown r = None.
Proof.
  unfold moonResult. cbn [alwaysUp alwaysDown].
  destruct (negb (truthyOpt (rise s)) && negb (truthyOpt (set s)));
    destruct (ye s >? Fin 0)%num; cbn [negb andb]; auto.
Qed.

(** C5: the result of [getMoonTimes] never carries both a crossing instant and
    an always-flag: for every time zone, date and coordinates, either neither
    [alwaysUp] nor [alwaysDown] is present, or neither [moonrise] nor
    [moonset] is (and the two flags are never both present). *)
Theorem getMoonTimes_crossing_excludes_flag :
  forall (tz : TimeZone) (date : Date) (lat lon : number),
    let r := fst (Index.getMoonTimes tz date lat lon) in
    ((alwaysUp r = None /\ alwaysDown r = None)
     \/ (moonrise r = None /\ moonset r = None))
    /\ (alwaysUp r = None \/ alwaysDown r = None).
Proof.
  intros tz date lat lon. unfold Index.getMoonTimes. cbn [fst]. split.
  - apply moonResult_crossing_or_flag.
  - apply moonResult_one_flag.
Qed.

(** The result object of [part_001], whenever its [getMoonTimes] returns. *)
Lemma getMoonTimes_crossing_excludes_flag_part001
  (tz : TimeZone) (date : Date) (lat lon : number) (r : MoonTimes) :
  fst (Part001.getMoonTimes tz date lat lon) = Returns r ->
  ((alwaysUp r = None /\ alwaysDown r = None)
   \/ (moonrise r = None /\ moonset r = None))
  /\ (alwaysUp r = None \/ alwaysDown r = None).
Proof.
  unfold Part001.getMoonTimes. cbn [fst].
  destruct (Part001.getMoonPosition tz _ lat lon) as [p0 | err]; cbn [bind];
    [ | discriminate].
  destruct (Part001.moonScan tz _ lat lon windowHours _) as [s | err]; cbn [bind];
    [ | discriminate].
  intros H.
  apply (f_equal (fun o => match o with Returns a => a | Throws _ => r end)) in H.
  cbv beta iota in H. subst r. split.
  - apply moonResult_crossing_or_flag.
  - apply moonResult_one_flag.
Qed.

(* ================================================================== *)
(** * Altitudes *)
(* ================================================================== *)

(** C9: the refraction correction is applied to the Moon only.  With [raw] the
    altitude [getAltitude] gives for the body's hour angle and declination,
    [getMoonPosition] returns [raw + getAstroRefraction raw], and
    [getSunPosition] returns [raw]. *)
Theorem refraction_only_for_moon :
  forall (date : Date) (lat lon : number),
    (let coords := Index.getMoonCoords (getDays date) in
     let H := (getSiderealTime (getDays date) (rad * - lon)
               - Index.rightAscension coords)%num in
     let raw := getAltitude H (rad * lat) (Index.declination coords) in
     Index.mp_altitude (Index.getMoonPosition date lat lon)
     = (raw + getAstroRefraction raw)%num)
    /\
    (let coords := getSunCoords (getDays date) in
     let H := (getSiderealTime (getDays date) (rad * - lon)
               - sc_rightAscension coords)%num in
     sp_altitude (getSunPosition date lat lon)
     = Math.asin (Math.sin (rad * lat) * Math.sin (sc_declination coords)
                  + Math.cos (rad * lat) * Math.cos (sc_declination coords)
                    * Math.cos H)).
Proof.
  intros date lat lon. split; reflexivity.
Qed.

(* ================================================================== *)
(** * Sun times: symmetry about the transit *)
(* ================================================================== *)

Lemma getSunriseJulianDate_mirror (T S : R) :
  exists M : R,
    getSunriseJulianDate (Fin T) (Fin S) = Fin M /\ T - M = S - T.
Proof.
  exists (T - (S - T)). split.
  - reflexivity.
  - lra.
Qed.

(** C7: every threshold of [getSunTimes] gives a morning and an evening Julian
    date that mirror each other in the transit: the morning value is
    [transit - (evening - transit)], so that for finite values the transit is
    as far from the one as from the other.  The pairs are [sunrise.start] and
    [sunset.end], [sunrise.end] and [sunset.start], [dawn] (which is
    [civilDawn.start]) and [dusk] (which is [civilDusk.end]),
    [nauticalDawn.start] and [nauticalDusk.end], [astronomicalDawn.start] and
    [astronomicalDusk.end]. *)
Theorem getSunTimes_symmetric :
  forall (date : Date) (lat lon : number),
    let j := sunJulianDates date lat lon in
    let t := getSunTimes date lat lon in
    let mirror morning evening :=
      morning = (julianTransit j - (evening - julianTransit j))%num
      /\ (forall T S : R, julianTransit j = Fin T -> evening = Fin S ->
          exists M : R, morning = Fin M /\ T - M = S - T) in
    (start (sunrise t) = julianDateToDate (julianRise j)
     /\ end_ (sunset t) = julianDateToDate (julianSet j)
     /\ mirror (julianRise j) (julianSet j))
    /\ (end_ (sunrise t) = julianDateToDate (julianRiseEnd j)
        /\ start (sunset t) = julianDateToDate (julianSetStart j)
        /\ mirror (julianRiseEnd j) (julianSetStart j))
    /\ (dawn t = julianDateToDate (julianCivil j)
        /\ start (civilDawn t) = dawn t
        /\ dusk t = julianDateToDate (julianNautical j)
        /\ end_ (civilDusk t) = dusk t
        /\ mirror (julianCivil j) (julianNautical j))
    /\ (start (nauticalDawn t) = julianDateToDate (julianNautical2 j)
        /\ end_ (nauticalDusk t) = julianDateToDate (julianAstro j)
        /\ mirror (julianNautical2 j) (julianAstro j))
    /\ (start (astronomicalDawn t) = julianDateToDate (julianAsto2 j)
        /\ end_ (astronomicalDusk t) = julianDateToDate (julianDark j)
        /\ mirror (julianAsto2 j) (julianDark j))
    /\ transit t = julianDateToDate (julianTransit j).
Proof.
  intros date lat lon j t mirror.
  assert (Hm : forall evening,
             mirror (getSunriseJulianDate (julianTransit j) evening) evening).
  { intros evening. split; [reflexivity | ].
    intros T S HT HS. rewrite HT, HS. apply getSunriseJulianDate_mirror. }
  repeat split; try reflexivity; apply Hm.
Qed.

(* ================================================================== *)
(** * Distance of the moon *)
(* ================================================================== *)

Lemma moon_distance_Fin (d : R) :
  exists km : R,
    Index.distance (Index.getMoonCoords (Fin d)) = Fin km
    /\ 364096 <= km <= 405906.
Proof.
  unfold Index.getMoonCoords. cbn [Index.distance]. rewrite rad_Fin.
  cbn [mul add sub neg Math.cos].
  eexists. split; [reflexivity | ].
  match goal with |- context [cos ?x] => pose proof (COS_bound x) end.
  lra.
Qed.

(** C10: for every instant and all coordinates, the [distance] that
    [getMoonPosition] returns is a finite number of kilometres between
    385001 - 20905 = 364096 and 385001 + 20905 = 405906. *)
Theorem moon_distance_bounds :
  forall (t : Z) (lat lon : number),
  exists km : R,
    Index.mp_distance (Index.getMoonPosition (DateAt t) lat lon) = Fin km
    /\ 385001 - 20905 <= km <= 385001 + 20905.
Proof.
  intros t lat lon. unfold Index.getMoonPosition. cbn [Index.mp_distance].
  rewrite getDays_Fin.
  destruct (moon_distance_Fin (IZR t / 86400000 - 0.5 + 2440588 - 2451545))
    as [km [Hkm Hb]].
  exists km. split; [exact Hkm | lra].
Qed.

(** The same bounds in [part_001], whenever [getMoonPosition] returns. *)
Lemma moon_distance_bounds_part001 (tz : TimeZone) (t : Z) (lat lon : number)
  (p : Part001.MoonPosition) :
  Part001.getMoonPosition tz (DateAt t) lat lon = Returns p ->
  exists km : R, Part001.mp_distance p = Fin km /\ 364096 <= km <= 405906.
Proof.
  unfold Part001.getMoonPosition, Part001.getMoonCoords.
  rewrite getDays_Fin.
  destruct (Part001.zodiacLookup _) as [sg | err]; cbn [bind]; [ | discriminate].
  intros H. injection H as <-. cbn [Part001.mp_distance Part001.distance].
  rewrite rad_Fin. cbn [mul add sub neg Math.cos].
  eexists. split; [reflexivity | ].
  match goal with |- context [cos ?x] => pose proof (COS_bound x) end.
  lra.
Qed.

(* ================================================================== *)
(** * One window of the rise/set scan *)
(* ================================================================== *)

Lemma sub_Fin_inv (x y : number) (r : R) :
  (x - y)%num = Fin r -> exists u v : R, x = Fin u /\ y = Fin v /\ r = u - v.
Proof.
  destruct x as [u | | | ], y as [v | | | ]; cbn; try discriminate.
  intros H. injection H as <-. exists u, v. repeat split; lra.
Qed.

Lemma add_Fin_inv (x y : number) (r : R) :
  (x + y)%num = Fin r -> exists u v : R, x = Fin u /\ y = Fin v /\ r = u + v.
Proof.
  destruct x as [u | | | ], y as [v | | | ]; cbn; try discriminate.
  intros H. injection H as <-. exists u, v. repeat split; lra.
Qed.

Lemma abs_leb_inv (x : number) :
  (Math.abs x <=? Fin 1)%num = true -> exists r : R, x = Fin r /\ -1 <= r <= 1.
Proof.
  destruct x as [r | | | ]; cbn; try discriminate.
  intros H. apply Rleb_spec in H. exists r. split; [reflexivity | ].
  unfold Rabs in H. destruct (Rcase_abs r); lra.
Qed.

(** The half-distance [dx] between the two roots is never negative. *)
Ltac case_tests :=
  repeat (match goal with
          | |- context [Rltb ?a ?b] => destruct (Rltb a b) eqn:?
          | |- context [Rleb ?a ?b] => destruct (Rleb a b) eqn:?
          | |- context [Reqb ?a ?b] => destruct (Reqb a b) eqn:?
          end; cbn).

Lemma root_spread_nonneg (d a : number) (v : R) :
  (Math.sqrt d / (Math.abs a * Fin 2))%num = Fin v -> 0 <= v.
Proof.
  destruct d as [rd | | | ], a as [ra | | | ]; cbn; case_tests;
    try discriminate; intros H; injection H as <-; try lra.
  all: assert (Rabs ra * 2 <> 0)
    by (intros Heq; rewrite (Reqb_true _ _ Heq) in *; discriminate).
  all: pose proof (Rabs_pos ra); pose proof (sqrt_pos rd).
  all: apply Rmult_le_pos; [assumption | ].
  all: apply Rlt_le, Rinv_0_lt_compat; lra.
Qed.

(** [fitWindow] on finite samples that give a proper parabola ([a <> 0]) with
    a non-negative discriminant. *)
Lemma fitWindow_Fin (h0 h1 h2 : R) (x1 x2 : number) :
  let a := (h0 + h2) / 2 - h1 in
  let b := (h2 - h0) / 2 in
  let xe := - b / (2 * a) in
  let d := b * b - 4 * a * h1 in
  let dx := sqrt d / (Rabs a * 2) in
  a <> 0 -> 0 <= d ->
  fitWindow (Fin h0) (Fin h1) (Fin h2) x1 x2
  = {| fit_ye := Fin ((a * xe + b) * xe + h1);
       fit_roots := (if Rleb (Rabs (xe - dx)) 1 then 1 else 0)
                    + (if Rleb (Rabs (xe + dx)) 1 then 1 else 0);
       fit_x1 := if Rltb (xe - dx) (-1) then Fin (xe + dx) else Fin (xe - dx);
       fit_x2 := Fin (xe + dx) |}.
Proof.
  intros a b xe d dx Ha Hd. unfold fitWindow.
  subst dx d xe b a. unfold Rminus in *.
  cbn [add sub neg mul]. rewrite !(div_Fin _ 2) by lra.
  cbn [add sub neg mul].
  rewrite div_Fin by (intros Hc; apply Ha; lra).
  cbn [add sub neg mul geb leb].
  rewrite (Rleb_true 0 _ Hd).
  cbn [Math.sqrt Math.abs mul]. rewrite (Rltb_false _ 0 Hd).
  rewrite div_Fin by (pose proof (Rabs_pos_lt _ Ha); lra).
  cbn [add sub neg Math.abs leb ltb].
  repeat match goal with
         | |- context [if ?c then _ else _] => destruct c
         end; reflexivity.
Qed.

(** A window in which the moon dips below the horizon and comes back: samples
    0.03, -0.01, 0.03 (radians) at the hours 0, 1, 2. *)
Lemma dip_window_fit (x1 x2 : number) :
  fitWindow (Fin 0.03) (Fin (-0.01)) (Fin 0.03) x1 x2
  = {| fit_ye := Fin (-0.01); fit_roots := 2;
       fit_x1 := Fin (-0.5); fit_x2 := Fin 0.5 |}.
Proof.
  assert (Hs : sqrt (0.04 * 0.04) = 0.04) by (apply sqrt_square; lra).
  rewrite fitWindow_Fin by lra.
  replace ((0.03 - 0.03) / 2 * ((0.03 - 0.03) / 2)
           - 4 * ((0.03 + 0.03) / 2 - -0.01) * -0.01) with (0.04 * 0.04) by lra.
  rewrite Hs.
  replace (Rabs ((0.03 + 0.03) / 2 - -0.01)) with 0.04
    by (rewrite Rabs_pos_eq; lra).
  replace (- ((0.03 - 0.03) / 2) / (2 * ((0.03 + 0.03) / 2 - -0.01))) with 0 by lra.
  replace (0 - 0.04 / (0.04 * 2)) with (-0.5) by lra.
  replace (0 + 0.04 / (0.04 * 2)) with 0.5 by lra.
  rewrite (Rabs_left (-0.5)) by lra. rewrite (Rabs_pos_eq 0.5) by lra.
  rewrite !Rleb_true by lra. rewrite Rltb_false by lra.
  f_equal. f_equal. lra.
Qed.

(** The roots of a window that counts two of them: both finite, in [[-1,1]],
    [x1] the earlier one. *)
Lemma two_roots_ordered (h0 h1 h2 x1 x2 : number) :
  let f := fitWindow h0 h1 h2 x1 x2 in
  fit_roots f = 2%Z ->
  exists earlier later : R,
    fit_x1 f = Fin earlier /\ fit_x2 f = Fin later
    /\ -1 <= earlier /\ earlier <= later /\ later <= 1.
Proof.
  unfold fitWindow.
  set (a := ((h0 + h2) / Fin 2 - h1)%num).
  set (b := ((h2 - h0) / Fin 2)%num).
  set (xe := (- b / (Fin 2 * a))%num).
  set (d := (b * b - Fin 4 * a * h1)%num).
  set (dx := (Math.sqrt d / (Math.abs a * Fin 2))%num).
  cbv zeta.
  destruct (d >=? Fin 0)%num; cbn [fit_roots fit_x1 fit_x2]; [ | discriminate].
  destruct (Math.abs (xe - dx) <=? Fin 1)%num eqn:H1;
    destruct (Math.abs (xe + dx) <=? Fin 1)%num eqn:H2;
    try discriminate.
  intros _.
  destruct (abs_leb_inv _ H1) as [r1 [E1 B1]].
  destruct (abs_leb_inv _ H2) as [r2 [E2 B2]].
  destruct (sub_Fin_inv _ _ _ E1) as [u [v [Eu [Ev Er1]]]].
  destruct (add_Fin_inv _ _ _ E2) as [u' [v' [Eu' [Ev' Er2]]]].
  rewrite Eu in Eu'. injection Eu' as <-.
  rewrite Ev in Ev'. injection Ev' as <-.
  pose proof (root_spread_nonneg d a v Ev) as Hv.
  exists r1, r2. rewrite E1, E2. cbn [ltb].
  rewrite Rltb_false by lra.
  repeat split; try reflexivity; lra.
Qed.

(** C4, as the program has it: in a window with two roots in [[-1,1]], the
    rise is the later root when the vertex value [ye] is negative and the
    earlier root otherwise; the set is the other root. *)
Theorem two_roots_assignment :
  forall (i h1 h2 : number) (s : Scan),
    let f := fitWindow (h0 s) h1 h2 (x1 s) (x2 s) in
    fit_roots f = 2%Z ->
    exists earlier later : R,
      fit_x1 f = Fin earlier /\ fit_x2 f = Fin later
      /\ -1 <= earlier /\ earlier <= later /\ later <= 1
      /\ rise (moonWindow i h1 h2 s)
         = Some (i + (if fit_ye f <? Fin 0 then Fin later else Fin earlier))%num
      /\ set (moonWindow i h1 h2 s)
         = Some (i + (if fit_ye f <? Fin 0 then Fin earlier else Fin later))%num.
Proof.
  intros i h1 h2 s f Hroots.
  destruct (two_roots_ordered (h0 s) h1 h2 (x1 s) (x2 s) Hroots)
    as [earlier [later [E1 [E2 [B1 [B2 B3]]]]]].
  exists earlier, later.
  subst f. unfold moonWindow. cbv zeta in *.
  rewrite Hroots. cbn [Z.eqb Pos.eqb fst snd rise set].
  rewrite E1, E2. repeat split; try assumption; reflexivity.
Qed.

Lemma two_roots_assignment_witness :
  exists earlier later : R,
    fit_x1 (fitWindow (Fin 0.03) (Fin (-0.01)) (Fin 0.03) (Fin 0) (Fin 0)) = Fin earlier
    /\ fit_x2 (fitWindow (Fin 0.03) (Fin (-0.01)) (Fin 0.03) (Fin 0) (Fin 0)) = Fin later
    /\ -1 <= earlier /\ earlier <= later /\ later <= 1
    /\ rise (moonWindow (Fin 1) (Fin (-0.01)) (Fin 0.03) (initialScan (Fin 0.03)))
       = Some (Fin 1 + (if fit_ye (fitWindow (Fin 0.03) (Fin (-0.01)) (Fin 0.03)
                                     (Fin 0) (Fin 0)) <? Fin 0
                        then Fin later else Fin earlier))%num
    /\ set (moonWindow (Fin 1) (Fin (-0.01)) (Fin 0.03) (initialScan (Fin 0.03)))
       = Some (Fin 1 + (if fit_ye (fitWindow (Fin 0.03) (Fin (-0.01)) (Fin 0.03)
                                     (Fin 0) (Fin 0)) <? Fin 0
                        then Fin earlier else Fin later))%num.
Proof.
  apply (two_roots_assignment (Fin 1) (Fin (-0.01)) (Fin 0.03) (initialScan (Fin 0.03))).
  cbn [initialScan h0 x1 x2]. rewrite dip_window_fit. reflexivity.
Defined.

(** C4, as the specification words it (the earlier root is the rise when [ye] is
    negative), fails: in the window with samples 0.03, -0.01, 0.03 at the
    hours 0, 1, 2 the roots are -0.5 and 0.5, [ye] is -0.01, and the rise is
    set to hour 1.5, the later root, not 0.5. *)
Lemma two_roots_rise_not_earlier_when_vertex_negative :
  ~ (forall (i h1 h2 : number) (s : Scan) (earlier later : R),
        let f := fitWindow (h0 s) h1 h2 (x1 s) (x2 s) in
        fit_roots f = 2%Z ->
        fit_x1 f = Fin earlier -> fit_x2 f = Fin later -> earlier <= later ->
        rise (moonWindow i h1 h2 s)
        = Some (i + (if fit_ye f <? Fin 0 then Fin earlier else Fin later))%num
        /\ set (moonWindow i h1 h2 s)
           = Some (i + (if fit_ye f <? Fin 0 then Fin later else Fin earlier))%num).
Proof.
  intros stated.
  specialize (stated (Fin 1) (Fin (-0.01)) (Fin 0.03) (initialScan (Fin 0.03))
                (-0.5) 0.5).
  cbv zeta in stated. unfold moonWindow in stated.
  cbn [initialScan h0 x1 x2] in stated.
  rewrite dip_window_fit in stated.
  cbn [fit_roots fit_x1 fit_x2 fit_ye Z.eqb Pos.eqb fst snd rise set ltb add] in stated.
  rewrite (Rltb_true (-0.01) 0) in stated by lra.
  destruct stated as [Hrise _]; [reflexivity | reflexivity | reflexivity | lra | ].
  injection Hrise as Hrise. lra.
Qed.

(* ================================================================== *)
(** * Sun times where a threshold is never crossed *)
(* ================================================================== *)

Lemma acos_noRealSolution (x : number) :
  noRealSolution x <-> Math.acos x = NaN.
Proof.
  destruct x as [r | | | ]; cbn; try tauto.
  destruct (Rleb (-1) r) eqn:H1; destruct (Rleb r 1) eqn:H2; cbn.
  - apply Rleb_spec in H1, H2. split; [lra | discriminate].
  - split; [reflexivity | intros _].
    right. apply Rnot_le_lt. intros H. apply Rleb_spec in H. congruence.
  - split; [reflexivity | intros _].
    left. apply Rnot_le_lt. intros H. apply Rleb_spec in H. congruence.
  - split; [reflexivity | intros _].
    left. apply Rnot_le_lt. intros H. apply Rleb_spec in H. congruence.
Qed.

Lemma add_NaN_r (x : number) : (x + NaN)%num = NaN.
Proof. destruct x; reflexivity. Qed.

Lemma sub_NaN_r (x : number) : (x - NaN)%num = NaN.
Proof. destruct x; reflexivity. Qed.

Lemma getSunsetJulianDate_NaN (ma el lw jc : number) :
  getSunsetJulianDate NaN ma el lw jc = NaN.
Proof.
  unfold getSunsetJulianDate, getApproxSolarTransit, getSolarTransit.
  cbn [add div]. rewrite add_NaN_r. reflexivity.
Qed.

Lemma getSunriseJulianDate_NaN (T : number) : getSunriseJulianDate T NaN = NaN.
Proof. unfold getSunriseJulianDate. cbn [sub add neg]. apply add_NaN_r. Qed.

Lemma julianDateToDate_NaN : julianDateToDate NaN = InvalidDate.
Proof. reflexivity. Qed.

Lemma div_by_zero_noRealSolution (n c : number) :
  noRealSolution (n / (Fin 0 * c)).
Proof.
  destruct n as [rn | | | ], c as [rc | | | ];
    cbn [mul div is_zero negative orb noRealSolution]; try exact I.
  all: try rewrite (Reqb_true (0 * rc) 0) by lra.
  all: try rewrite (Reqb_true 0 0) by reflexivity.
  all: cbn [orb noRealSolution]; try exact I.
  all: unfold inf; repeat match goal with
         | |- context [if ?c then _ else _] => destruct c
         end; exact I.
Qed.

(** At the poles ([lat = 90]) the divisor [cos phi * cos declination] is zero
    and no threshold has a crossing, whatever the date and longitude. *)
Lemma polar_noRealSolution (h dec : number) :
  noRealSolution (hourAngleCosine h (Fin 90 * rad) dec).
Proof.
  unfold hourAngleCosine. rewrite rad_Fin. cbn [mul Math.cos].
  replace (90 * (Rpi / 180)) with (Rpi / 2) by lra.
  rewrite cos_PI2. apply div_by_zero_noRealSolution.
Qed.

Lemma no_crossing_evening (h phi dec ma el lw jc : number) :
  noRealSolution (hourAngleCosine h phi dec) ->
  julianDateToDate (getSunsetJulianDate (getHourAngle h phi dec) ma el lw jc)
  = InvalidDate.
Proof.
  intros H. unfold getHourAngle.
  apply acos_noRealSolution in H. rewrite H, getSunsetJulianDate_NaN. reflexivity.
Qed.

Lemma no_crossing_morning (h phi dec ma el lw jc T : number) :
  noRealSolution (hourAngleCosine h phi dec) ->
  julianDateToDate
    (getSunriseJulianDate T (getSunsetJulianDate (getHourAngle h phi dec) ma el lw jc))
  = InvalidDate.
Proof.
  intros H. unfold getHourAngle.
  apply acos_noRealSolution in H.
  rewrite H, getSunsetJulianDate_NaN, getSunriseJulianDate_NaN. reflexivity.
Qed.

(** C3, as the program has it: a threshold whose hour-angle equation has no
    real solution is not left out of the result of [getSunTimes]; each field
    computed from it holds an invalid date (one whose time value is NaN). *)
Theorem no_crossing_gives_invalid_dates :
  forall (date : Date) (lat lon : number),
    let j := sunJulianDates date lat lon in
    let t := getSunTimes date lat lon in
    let noCrossing h := noRealSolution (hourAngleCosine h (phi_ j) (sunDeclination j)) in
    (noCrossing sunsetAngle ->
     end_ (sunset t) = InvalidDate /\ start (sunrise t) = InvalidDate
     /\ start (civilDusk t) = InvalidDate /\ end_ (civilDawn t) = InvalidDate)
    /\ (noCrossing (sunsetAngle + sunDiameter)%num ->
        start (sunset t) = InvalidDate /\ end_ (sunrise t) = InvalidDate)
    /\ (noCrossing nauticalTwilightAngle ->
        dusk t = InvalidDate /\ dawn t = InvalidDate
        /\ end_ (civilDusk t) = InvalidDate /\ start (civilDawn t) = InvalidDate
        /\ start (nauticalDusk t) = InvalidDate /\ end_ (nauticalDawn t) = InvalidDate)
    /\ (noCrossing astronomicalTwilightAngle ->
        end_ (nauticalDusk t) = InvalidDate /\ start (nauticalDawn t) = InvalidDate
        /\ start (astronomicalDusk t) = InvalidDate
        /\ end_ (astronomicalDawn t) = InvalidDate)
    /\ (noCrossing darknessAngle ->
        end_ (astronomicalDusk t) = InvalidDate
        /\ start (astronomicalDawn t) = InvalidDate).
Proof.
  intros date lat lon j t noCrossing. subst noCrossing. cbv beta.
  repeat split;
    first [ apply no_crossing_evening; assumption
          | apply no_crossing_morning; assumption ].
Qed.

(** C3, as the specification words it, fails: at the pole (latitude 90, longitude 0)
    on 2019-02-09T18:00:00Z the sunset threshold has no crossing, and
    [sunset.end] and [sunrise.start] are present and hold an invalid date. *)
Lemma polar_sunset_is_an_invalid_date :
  ~ (forall (date : Date) (lat lon : number),
        let j := sunJulianDates date lat lon in
        noRealSolution (hourAngleCosine sunsetAngle (phi_ j) (sunDeclination j)) ->
        end_ (sunset (getSunTimes date lat lon)) <> InvalidDate).
Proof.
  intros stated.
  apply (stated (DateAt 1549735200000) (Fin 90) (Fin 0)).
  - apply polar_noRealSolution.
  - apply no_crossing_evening. apply polar_noRealSolution.
Qed.

Lemma no_crossing_gives_invalid_dates_witness :
  end_ (sunset (getSunTimes (DateAt 1549735200000) (Fin 90) (Fin 0))) = InvalidDate
  /\ start (sunrise (getSunTimes (DateAt 1549735200000) (Fin 90) (Fin 0))) = InvalidDate.
Proof.
  destruct (no_crossing_gives_invalid_dates (DateAt 1549735200000) (Fin 90) (Fin 0))
    as [Hsunset _].
  destruct (Hsunset (polar_noRealSolution _ _)) as [H1 [H2 _]].
  split; assumption.
Defined.

(* ================================================================== *)
(** * Julian dates and back *)
(* ================================================================== *)

Lemma Ztrunc_IZR (t : Z) : Ztrunc (IZR t) = t.
Proof.
  unfold Ztrunc. destruct (Rltb (IZR t) 0).
  - unfold Zceil. rewrite ZfloorNZ. lia.
  - apply ZfloorZ.
Qed.


Lemma newDate_IZR (t : Z) :
  (Z.abs t <= TimeValue.maxTime)%Z -> newDate (Fin (IZR t)) = DateAt t.
Proof.
  intros Ht. unfold newDate.
  rewrite Rleb_true by (rewrite <- abs_IZR; apply IZR_le; exact Ht).
  rewrite Ztrunc_IZR. reflexivity.
Qed.

Lemma julianDateToDate_Fin (j : R) :
  julianDateToDate (Fin j) = newDate (Fin ((j + 0.5 - 2440588) * 86400000)).
Proof.
  unfold julianDateToDate, julian1970. rewrite dayMills_Fin. reflexivity.
Qed.

(** Over the reals, without rounding, [julianDateToDate] undoes [toJulian]. *)
Lemma julian_round_trip_exact (t : Z) :
  (Z.abs t <= TimeValue.maxTime)%Z ->
  julianDateToDate (toJulian (DateAt t)) = DateAt t.
Proof.
  intros Ht. rewrite toJulian_Fin, julianDateToDate_Fin.
  replace ((IZR t / 86400000 - 0.5 + 2440588 + 0.5 - 2440588) * 86400000)
    with (IZR t) by lra.
  apply newDate_IZR. exact Ht.
Qed.







(** With that rounding the instant 4 ms after the epoch comes back as 3 ms:
    the product is just below 4 and the [Date] constructor truncates it. *)
Lemma shrink53_round_trip :
  Rounded.julianDateToDate shrink53 (Rounded.toJulian shrink53 (DateAt 4)) = DateAt 3.
Proof.
  unfold Rounded.toJulian, Rounded.julianDateToDate, julian1970.
  rewrite dayMills_Fin. cbn [valueOf]. rewrite div_Fin by lra.
  cbn [Rounded.fl add sub neg mul]. unfold shrink53, newDate.
  match goal with
  | |- (if Rleb (Rabs ?y) _ then _ else _) = _ =>
      assert (Hy : 3 <= y < 4) by lra; set (y3 := y) in *
  end.
  rewrite Rleb_true by (apply Rabs_le; unfold TimeValue.maxTime; lra).
  unfold Ztrunc. rewrite Rltb_false by lra.
  rewrite (Zfloor_eq 3) by lra. reflexivity.
Qed.

(** On binary64 the conversions round, and the [Date] constructor truncates:
    the instant 4 ms after the epoch comes back as 3 ms, and
    2019-02-09T18:00:00.004Z as 18:00:00.003Z; the instant 7 ms comes back
    unchanged. *)
Lemma binary64_round_trip_examples :
  Binary64.julianDateToDate (Binary64.toJulian (DateAt 4)) = DateAt 3
  /\ Binary64.julianDateToDate (Binary64.toJulian (DateAt 1549735200004))
     = DateAt 1549735200003
  /\ Binary64.julianDateToDate (Binary64.toJulian (DateAt 7)) = DateAt 7
  /\ Binary64.julianDateToDate (Binary64.toJulian InvalidDate) = InvalidDate.
Proof. vm_compute. repeat split. Qed.


(* ================================================================== *)
(** * Equatorial coordinates are finite *)
(* ================================================================== *)

(** The cosine rule on the sphere stays in [[-1,1]]: for unit vectors
    [(s, c)] and [(x, y)] and a factor [z] of modulus at most one. *)
Lemma unit_product_bound (s c x y z : R) :
  s * s + c * c = 1 -> x * x + y * y = 1 -> -1 <= z <= 1 ->
  -1 <= s * x + c * y * z <= 1.
Proof.
  intros Hsc Hxy Hz.
  assert (Hsq : (s * x + c * y * z) * (s * x + c * y * z) <= 1).
  { assert (H1 : 0 <= (s * (y * z) - c * x) * (s * (y * z) - c * x))
      by apply Rle_0_sqr.
    assert (H2 : 0 <= (y * y) * (1 - z * z)).
    { apply Rmult_le_pos; [apply Rle_0_sqr | nra]. }
    nra. }
  split; nra.
Qed.

Lemma sin_cos_unit (a : R) : sin a * sin a + cos a * cos a = 1.
Proof. pose proof (sin2_cos2 a) as H. unfold Rsqr in H. exact H. Qed.

Lemma cos_sin_unit (a : R) : cos a * cos a + sin a * sin a = 1.
Proof. pose proof (sin_cos_unit a). lra. Qed.

Lemma asin_Fin (r : R) : -1 <= r <= 1 -> Math.asin (Fin r) = Fin (asin r).
Proof.
  intros [H1 H2]. unfold Math.asin.
  rewrite (Rleb_true _ _ H1), (Rleb_true _ _ H2). reflexivity.
Qed.

Lemma acos_Fin (r : R) : -1 <= r <= 1 -> Math.acos (Fin r) = Fin (acos r).
Proof.
  intros [H1 H2]. unfold Math.acos.
  rewrite (Rleb_true _ _ H1), (Rleb_true _ _ H2). reflexivity.
Qed.

Lemma tan_Fin (r : R) : cos r <> 0 -> Math.tan (Fin r) = Fin (sin r / cos r).
Proof. intros H. unfold Math.tan. apply div_Fin. exact H. Qed.

Lemma getDeclination_Fin (lon lat : R) :
  exists dec : R, getDeclination (Fin lon) (Fin lat) = Fin dec.
Proof.
  unfold getDeclination. rewrite e_Fin. cbn [Math.sin Math.cos mul add].
  eexists. apply asin_Fin.
  apply unit_product_bound.
  - apply sin_cos_unit.
  - apply cos_sin_unit.
  - apply SIN_bound.
Qed.

Lemma getRightAscension_Fin (lon lat : R) :
  cos lat <> 0 ->
  exists ra : R, getRightAscension (Fin lon) (Fin lat) = Fin ra.
Proof.
  intros Hlat. unfold getRightAscension. rewrite e_Fin, (tan_Fin lat Hlat).
  cbn [Math.sin Math.cos mul add sub neg Math.atan2]. eexists. reflexivity.
Qed.

Lemma getSunCoords_Fin (d : R) :
  exists dec ra : R,
    getSunCoords (Fin d)
    = {| sc_declination := Fin dec; sc_rightAscension := Fin ra |}.
Proof.
  unfold getSunCoords, getSolarEclipticLongitude, getEquationOfCenter,
    getSolarMeanAnomaly, PI, Math.PI.
  rewrite rad_Fin. cbn [Math.sin mul add].
  match goal with
  | |- context [getDeclination (Fin ?L) (Fin 0)] =>
      destruct (getDeclination_Fin L 0) as [dec Hdec];
      destruct (getRightAscension_Fin L 0) as [ra Hra];
      [ rewrite cos_0; lra | ];
      rewrite Hdec, Hra
  end.
  exists dec, ra. reflexivity.
Qed.

(** The ecliptic latitude of the moon stays within 5.128 degrees, where the
    cosine does not vanish. *)
Lemma moon_latitude_cos (x : R) : cos (Rpi / 180 * 5.128 * sin x) <> 0.
Proof.
  pose proof (SIN_bound x) as [H1 H2].
  pose proof PI_RGT_0. pose proof PI_4. pose proof PI2_1.
  apply Rgt_not_eq, cos_gt_0; nra.
Qed.

Lemma getMoonCoords_Fin (d : R) :
  exists ra dec km : R,
    Index.getMoonCoords (Fin d)
    = {| Index.rightAscension := Fin ra; Index.declination := Fin dec;
         Index.distance := Fin km |}
    /\ 364096 <= km <= 405906.
Proof.
  unfold Index.getMoonCoords. rewrite rad_Fin. cbn [Math.sin Math.cos mul add sub neg].
  match goal with
  | |- context [getDeclination (Fin ?L) (Fin ?B)] =>
      destruct (getDeclination_Fin L B) as [dec Hdec];
      destruct (getRightAscension_Fin L B) as [ra Hra];
      [ apply moon_latitude_cos | ];
      rewrite Hdec, Hra
  end.
  eexists ra, dec, _. split; [reflexivity | ].
  match goal with |- context [cos ?x] => pose proof (COS_bound x) end.
  lra.
Qed.

(** ** The range of [atan2] *)

Lemma atan_nonneg (x : R) : 0 <= x -> 0 <= atan x.
Proof.
  intros [H | <-].
  - rewrite <- atan_0. apply Rlt_le, atan_increasing. exact H.
  - rewrite atan_0. lra.
Qed.

Lemma atan_nonpos (x : R) : x <= 0 -> atan x <= 0.
Proof.
  intros [H | ->].
  - rewrite <- atan_0. apply Rlt_le, atan_increasing. exact H.
  - rewrite atan_0. lra.
Qed.

Lemma atan2R_upper_half (y x : R) :
  0 <= y -> 0 <= Math.atan2R y x <= Rpi.
Proof.
  intros Hy. unfold Math.atan2R. pose proof PI_RGT_0.
  destruct (Rltb 0 x) eqn:Hx.
  - apply Rltb_spec in Hx. pose proof (atan_bound (y / x)).
    assert (0 <= y / x).
    { apply Rmult_le_pos; [exact Hy | apply Rlt_le, Rinv_0_lt_compat; exact Hx]. }
    pose proof (atan_nonneg _ H1). lra.
  - destruct (Rltb x 0) eqn:Hx'.
    + apply Rltb_spec in Hx'. rewrite (Rleb_true 0 y Hy).
      pose proof (atan_bound (y / x)).
      assert (y / x <= 0).
      { assert (0 <= y * / - x).
        { apply Rmult_le_pos; [exact Hy | apply Rlt_le, Rinv_0_lt_compat; lra]. }
        replace (y / x) with (- (y * / - x)); [lra | ].
        field. lra. }
      pose proof (atan_nonpos _ H1). lra.
    + destruct (Rltb 0 y); [lra | ].
      destruct (Rltb y 0) eqn:Hy'; [ | lra].
      apply Rltb_spec in Hy'. lra.
Qed.

(* ================================================================== *)
(** * Moon phase *)
(* ================================================================== *)

(** C8: for every instant, [getMoonPhase] returns finite [fraction] and
    [phase], both in [[0,1]]. *)
Theorem moon_phase_in_unit_interval :
  forall t : Z,
  exists f p : R,
    fraction (Index.getMoonPhase (DateAt t)) = Fin f
    /\ phase (Index.getMoonPhase (DateAt t)) = Fin p
    /\ 0 <= f <= 1 /\ 0 <= p <= 1.
Proof.
  intros t. unfold Index.getMoonPhase. rewrite getDays_Fin.
  destruct (getSunCoords_Fin (IZR t / 86400000 - 0.5 + 2440588 - 2451545))
    as [ds [rs Hsun]].
  destruct (getMoonCoords_Fin (IZR t / 86400000 - 0.5 + 2440588 - 2451545))
    as [rm [dm [km [Hmoon Hkm]]]].
  rewrite Hsun, Hmoon. cbv zeta.
  cbn [sc_declination sc_rightAscension Index.rightAscension Index.declination
       Index.distance Math.sin Math.cos mul add sub neg].
  rewrite acos_Fin.
  2:{ apply unit_product_bound.
      - apply sin_cos_unit.
      - apply sin_cos_unit.
      - apply COS_bound. }
  set (sep := acos (sin ds * sin dm + cos ds * cos dm * cos (rs + - rm))).
  assert (Hsep : 0 <= sep <= Rpi) by apply acos_bound.
  cbn [Math.sin Math.cos mul add sub neg Math.atan2].
  set (inc := Math.atan2R (149598000 * sin sep) (km + - (149598000 * cos sep))).
  assert (Hinc : 0 <= inc <= Rpi).
  { apply atan2R_upper_half.
    apply Rmult_le_pos; [lra | ]. apply sin_ge_0; lra. }
  rewrite (div_Fin _ 2) by lra.
  set (ang := Math.atan2R _ _).
  pose proof PI_RGT_0 as Hpi.
  pose proof (COS_bound inc) as Hcos.
  cbn [fraction phase ltb].
  assert (Hq : 0 <= inc / Rpi <= 1).
  { split.
    - apply Rmult_le_pos; [lra | apply Rlt_le, Rinv_0_lt_compat; exact Hpi].
    - apply (Rmult_le_reg_r Rpi); [exact Hpi | ].
      unfold Rdiv. rewrite Rmult_assoc, Rinv_l by lra. lra. }
  destruct (Rltb ang 0); cbn [mul]; unfold Math.PI; rewrite div_Fin by lra;
    cbn [add]; eexists; eexists; (split; [reflexivity | split; [reflexivity | ] ]).
  - split; [lra | ].
    replace (0.5 * inc * -1 / Rpi) with (- (0.5 * (inc / Rpi))) by (field; lra).
    lra.
  - split; [lra | ].
    replace (0.5 * inc * 1 / Rpi) with (0.5 * (inc / Rpi)) by (field; lra).
    lra.
Qed.

(** [part_001] returns the same phase whenever its [getMoonPhase] returns. *)
Lemma getMoonPhase_part001_agrees (tz : TimeZone) (t : Z) (ph : MoonPhase) :
  Part001.getMoonPhase tz (DateAt t) = Returns ph ->
  ph = Index.getMoonPhase (DateAt t).
Proof.
  unfold Part001.getMoonPhase, Part001.getMoonCoords.
  destruct (Part001.zodiacLookup _) as [sg | err]; cbn [bind]; [ | discriminate].
  intros H.
  apply (f_equal (fun o => match o with Returns a => a | Throws _ => ph end)) in H.
  cbv beta iota in H.
  symmetry. exact H.
Qed.

(* ================================================================== *)
(** * The zodiac sign of the moon ([part_001]) *)
(* ================================================================== *)

Lemma floor_Fin_eq (r : R) (k : Z) :
  IZR k <= r < IZR k + 1 -> Math.floor (Fin r) = Fin (IZR k).
Proof. intros H. unfold Math.floor. rewrite (Zfloor_eq k r H). reflexivity. Qed.

Lemma normalize_Fin (r : R) (k : Z) :
  IZR k <= r < IZR k + 1 -> Part001.normalize (Fin r) = Fin (r - IZR k).
Proof.
  intros H. unfold Part001.normalize. rewrite (floor_Fin_eq r k H).
  cbn [sub add neg ltb]. rewrite Rltb_false by lra. reflexivity.
Qed.

(** [normalize] takes every finite value into [[0,1)]. *)
Lemma normalize_range (r : R) :
  exists v : R, Part001.normalize (Fin r) = Fin v /\ 0 <= v < 1.
Proof.
  pose proof (Zfloor_bound r) as H.
  exists (r - IZR (Zfloor r)). split; [ | lra].
  apply normalize_Fin. exact H.
Qed.

Lemma filter_hit {A : Type} (f : A -> bool) (x : A) (l : list A) :
  f x = true -> filter f (x :: l) = x :: filter f l.
Proof. intros H. cbn [filter]. rewrite H. reflexivity. Qed.

Lemma filter_miss {A : Type} (f : A -> bool) (x : A) (l : list A) :
  f x = false -> filter f (x :: l) = filter f l.
Proof. intros H. cbn [filter]. rewrite H. reflexivity. Qed.

(** Decides one range test of the table from the bounds in the context. *)
Ltac range_test :=
  cbn [Part001.long geb leb ltb add];
  first [ rewrite Rleb_true by lra; rewrite Rltb_true by lra; reflexivity
        | rewrite Rleb_false by lra; reflexivity
        | rewrite Rltb_false by lra; apply andb_false_r ].

Ltac filter_table :=
  repeat match goal with
         | |- context [filter ?f (?z :: ?l)] =>
             first [ rewrite (filter_hit f z l) by range_test
                   | rewrite (filter_miss f z l) by range_test ]
         end;
  cbn [filter].

(** The table finds a sign exactly for the longitudes of [[0,360)]. *)
Lemma zodiacLookup_outside (L : R) :
  L < 0 \/ 360 <= L -> Part001.zodiacLookup (Fin L) = Throws TypeError.
Proof.
  intros H. unfold Part001.zodiacLookup, Part001.zodiacMatches, Part001.zodiacs.
  cbn [map snd].
  destruct H as [H | H]; filter_table; reflexivity.
Qed.

Lemma zodiacLookup_inside (L : R) :
  0 <= L < 360 ->
  exists zodiac : Part001.Zodiac,
    Part001.zodiacMatches (Fin L) = [zodiac]
    /\ Part001.zodiacLookup (Fin L) = Returns (Part001.sign zodiac).
Proof.
  intros H. unfold Part001.zodiacLookup, Part001.zodiacMatches, Part001.zodiacs.
  cbn [map snd].
  assert (Hcase : L < 30 \/ 30 <= L < 60 \/ 60 <= L < 90 \/ 90 <= L < 120
                  \/ 120 <= L < 150 \/ 150 <= L < 180 \/ 180 <= L < 210
                  \/ 210 <= L < 240 \/ 240 <= L < 270 \/ 270 <= L < 300
                  \/ 300 <= L < 330 \/ 330 <= L).
  { destruct (Rlt_dec L 30); [tauto | ].
    destruct (Rlt_dec L 60); [right; left; lra | ].
    destruct (Rlt_dec L 90); [do 2 right; left; lra | ].
    destruct (Rlt_dec L 120); [do 3 right; left; lra | ].
    destruct (Rlt_dec L 150); [do 4 right; left; lra | ].
    destruct (Rlt_dec L 180); [do 5 right; left; lra | ].
    destruct (Rlt_dec L 210); [do 6 right; left; lra | ].
    destruct (Rlt_dec L 240); [do 7 right; left; lra | ].
    destruct (Rlt_dec L 270); [do 8 right; left; lra | ].
    destruct (Rlt_dec L 300); [do 9 right; left; lra | ].
    destruct (Rlt_dec L 330); [do 10 right; left; lra | ].
    do 11 right. lra. }
  repeat destruct Hcase as [Hcase | Hcase];
    filter_table; eexists; split; reflexivity.
Qed.
Lemma christmas_2017_calendar :
  getFullYear UTCZone (DateAt 1514203200000) = Fin 2017
  /\ getMonth UTCZone (DateAt 1514203200000) = Fin 11
  /\ getDate UTCZone (DateAt 1514203200000) = Fin 25.
Proof.
  unfold getFullYear, getMonth, getDate.
  replace (TimeValue.YearFromTime (TimeValue.LocalTime UTCZone 1514203200000)) with 2017%Z
    by (vm_compute; reflexivity).
  replace (TimeValue.MonthFromTime (TimeValue.LocalTime UTCZone 1514203200000)) with 11%Z
    by (vm_compute; reflexivity).
  replace (TimeValue.DateFromTime (TimeValue.LocalTime UTCZone 1514203200000)) with 25%Z
    by (vm_compute; reflexivity).
  repeat split.
Qed.

Lemma christmas_2017_day_number :
  Part001.calendarDayNumber UTCZone (DateAt 1514203200000) = Fin 2458113.
Proof.
  unfold Part001.calendarDayNumber.
  destruct christmas_2017_calendar as [Hy [Hm Hd]]. rewrite Hy, Hm, Hd.
  cbn [add sub neg mul].
  rewrite (div_Fin _ 10) by lra.
  rewrite (floor_Fin_eq ((12 + - (11 + 1)) / 10) 0) by lra.
  cbn [add sub neg mul geb leb].
  rewrite (Rleb_true 12 (11 + 1 + 9)) by lra.
  cbn [add sub neg mul].
  rewrite (floor_Fin_eq (365.25 * (2017 + - 0 + 4712)) 2457767) by lra.
  rewrite (floor_Fin_eq (30.6 * (11 + 1 + 9 + - (12)) + 0.5) 275) by lra.
  rewrite (div_Fin _ 100) by lra. cbn [add].
  rewrite (floor_Fin_eq ((2017 + - 0) / 100 + 49) 69) by lra.
  cbn [mul].
  rewrite (floor_Fin_eq (69 * 0.75) 51) by lra.
  cbn [add sub neg mul gtb ltb].
  rewrite Rltb_true by lra.
  f_equal. lra.
Qed.

(** On the arc from 7/12 to 11/12 of a turn the sine is at most -1/2. *)
Lemma sin_upper_arc (x : R) : Rpi / 6 <= x <= 5 * Rpi / 6 -> 1 / 2 <= sin x.
Proof.
  intros [H1 H2]. pose proof PI_RGT_0. rewrite <- sin_PI6.
  destruct (Rle_dec x (Rpi / 2)) as [Hx | Hx].
  - apply sin_incr_1; lra.
  - rewrite <- (sin_PI_x x). apply sin_incr_1; lra.
Qed.

Lemma sin_lower_arc (f : R) :
  7 / 12 <= f <= 11 / 12 -> sin (2 * Rpi * f) <= - (1 / 2).
Proof.
  intros [H1 H2]. pose proof PI_RGT_0.
  replace (2 * Rpi * f) with (2 * Rpi * f - Rpi + Rpi) by lra.
  rewrite neg_sin.
  assert (1 / 2 <= sin (2 * Rpi * f - Rpi)); [ | lra].
  apply sin_upper_arc. split; nra.
Qed.

Lemma christmas_2017_longitude :
  exists L : R,
    Part001.zodiacLongitude (Fin 2458113) = Fin L /\ L < 0.
Proof.
  unfold Part001.zodiacLongitude, PI, Math.PI.
  cbn [sub add neg].
  rewrite !div_Fin by lra.
  rewrite (normalize_Fin (_ / 29.530588853) 222) by lra.
  rewrite (normalize_Fin (_ / 27.55454988) 237) by lra.
  rewrite (normalize_Fin (_ / 27.321582241) 240) by lra.
  cbn [mul add sub neg Math.sin].
  eexists. split; [reflexivity | ].
  match goal with
  | |- _ + 6.3 * sin (2 * Rpi * ?f) + 1.3 * sin ?a + 0.7 * sin ?b < 0 =>
      pose proof (sin_lower_arc f) as Hdp;
      pose proof (SIN_bound a) as Ha;
      pose proof (SIN_bound b) as Hb
  end.
  assert (Hf : 7 / 12 <= (2458113 + - (2451562.2)) / 27.55454988 - 237 <= 11 / 12)
    by lra.
  specialize (Hdp Hf). lra.
Qed.

(** For every finite day number the longitude is finite, within 8.3 degrees
    of [[0,360)]: the three periodic terms are added to [360 * rp] and the sum
    is not brought back into the range of the table. *)
Lemma zodiacLongitude_range (jd : R) :
  exists L : R,
    Part001.zodiacLongitude (Fin jd) = Fin L /\ -8.3 <= L < 368.3.
Proof.
  unfold Part001.zodiacLongitude, PI, Math.PI.
  cbn [sub add neg].
  rewrite !div_Fin by lra.
  destruct (normalize_range ((jd + - (2451550.1)) / 29.530588853)) as [ip [Hip _]].
  destruct (normalize_range ((jd + - (2451562.2)) / 27.55454988)) as [dp [Hdp _]].
  destruct (normalize_range ((jd + - (2451555.8)) / 27.321582241)) as [rp [Hrp Brp]].
  rewrite Hip, Hdp, Hrp. cbn [mul add sub neg Math.sin].
  eexists. split; [reflexivity | ].
  match goal with
  | |- _ <= _ + 6.3 * sin ?a + 1.3 * sin ?b + 0.7 * sin ?c < _ =>
      pose proof (SIN_bound a); pose proof (SIN_bound b); pose proof (SIN_bound c)
  end.
  lra.
Qed.

(** C2 at a failing input: on 2017-12-25 (any time of that local day; here
    12:00:00Z in a UTC environment) the longitude that [getMoonCoords]
    computes is negative, no entry of the zodiac table matches it, and
    [getMoonCoords] and [getMoonPosition] throw a [TypeError] instead of
    returning a sign. *)
Theorem zodiac_lookup_fails_on_christmas_2017 :
  (exists L : R,
      Part001.zodiacLongitude
        (Part001.calendarDayNumber UTCZone (DateAt 1514203200000)) = Fin L
      /\ L < 0)
  /\ Part001.zodiacMatches
       (Part001.zodiacLongitude
          (Part001.calendarDayNumber UTCZone (DateAt 1514203200000))) = []
  /\ (forall days : number,
        Part001.getMoonCoords UTCZone (DateAt 1514203200000) days = Throws TypeError)
  /\ (forall lat lon : number,
        Part001.getMoonPosition UTCZone (DateAt 1514203200000) lat lon
        = Throws TypeError).
Proof.
  rewrite christmas_2017_day_number.
  destruct christmas_2017_longitude as [L [HL Hneg]].
  assert (Hthrow : Part001.zodiacLookup (Fin L) = Throws TypeError)
    by (apply zodiacLookup_outside; left; exact Hneg).
  assert (Hcoords : forall days : number,
             Part001.getMoonCoords UTCZone (DateAt 1514203200000) days
             = Throws TypeError).
  { intros days. unfold Part001.getMoonCoords.
    rewrite christmas_2017_day_number, HL, Hthrow. reflexivity. }
  split; [exists L; split; [exact HL | exact Hneg] | ].
  split.
  - rewrite HL. unfold Part001.zodiacLookup in Hthrow.
    destruct (Part001.zodiacMatches (Fin L)); [reflexivity | discriminate].
  - split; [exact Hcoords | ].
    intros lat lon. unfold Part001.getMoonPosition. rewrite Hcoords. reflexivity.
Qed.



(* ================================================================== *)
(** * Invalid dates *)
(* ================================================================== *)

Lemma mul_NaN_r (x : number) : (x * NaN)%num = NaN.
Proof. destruct x; reflexivity. Qed.

Lemma div_NaN_r (x : number) : (x / NaN)%num = NaN.
Proof. destruct x; reflexivity. Qed.

Lemma getDays_invalid : getDays InvalidDate = NaN.
Proof. reflexivity. Qed.

Lemma hoursShift_invalid (hours : number) : hoursShift InvalidDate hours = InvalidDate.
Proof. reflexivity. Qed.

(** X1: An invalid date makes every field of [getSunTimes] an invalid date, at
    every latitude and longitude. *)
Theorem getSunTimes_invalid_date :
  forall lat lon : number,
    getSunTimes InvalidDate lat lon
    = let span := {| start := InvalidDate; end_ := InvalidDate |} in
      {| sunrise := span; civilDawn := span; nauticalDawn := span;
         astronomicalDawn := span; dawn := InvalidDate;
         sunset := span; civilDusk := span; nauticalDusk := span;
         astronomicalDusk := span; dusk := InvalidDate; transit := InvalidDate |}.
Proof.
  intros lat lon.
  assert (Hcycle : forall lw, getJulianCycle (toJulian InvalidDate) lw = NaN)
    by reflexivity.
  assert (Happrox : forall ht lw, getApproxSolarTransit ht lw NaN = NaN).
  { intros ht lw. unfold getApproxSolarTransit. apply add_NaN_r. }
  assert (Hanom : getSolarMeanAnomaly (NaN - julian2000) = NaN).
  { unfold getSolarMeanAnomaly. cbn [sub add mul]. apply mul_NaN_r. }
  assert (Hlong : getSolarEclipticLongitude NaN = NaN) by reflexivity.
  assert (Htransit : forall ma el, getSolarTransit NaN ma el = NaN) by reflexivity.
  assert (Hset : forall w ma el lw, getSunsetJulianDate w ma el lw NaN = NaN).
  { intros w ma el lw. unfold getSunsetJulianDate. rewrite Happrox. reflexivity. }
  assert (Hrise : forall T, getSunriseJulianDate T NaN = NaN)
    by apply getSunriseJulianDate_NaN.
  unfold getSunTimes, sunJulianDates. cbv zeta.
  cbn [julianRise julianRiseEnd julianCivil julianNautical2 julianAsto2
       julianSet julianSetStart julianNautical julianAstro julianDark julianTransit].
  rewrite Hcycle, Happrox, Hanom, Hlong, !Hset, !Hrise, Htransit.
  reflexivity.
Qed.

(** X2: [part_001]: an invalid date has no calendar fields, the longitude is NaN,
    no entry of the zodiac table matches and [getMoonPosition],
    [getMoonPhase] and [getMoonTimes] throw. *)
Theorem part001_invalid_date_throws :
  forall (tz : TimeZone) (lat lon : number),
    Part001.getMoonPosition tz InvalidDate lat lon = Throws TypeError
    /\ Part001.getMoonPhase tz InvalidDate = Throws TypeError
    /\ Part001.getMoonTimes tz InvalidDate lat lon = (Throws TypeError, InvalidDate).
Proof.
  intros tz lat lon.
  assert (Hcoords : forall days, Part001.getMoonCoords tz InvalidDate days
                                 = Throws TypeError) by reflexivity.
  unfold Part001.getMoonTimes, Part001.getMoonPosition, Part001.getMoonPhase.
  cbn [setHours]. rewrite !Hcoords. repeat split.
Qed.

Lemma getMoonPosition_invalid_altitude (lat lon : number) :
  Index.mp_altitude (Index.getMoonPosition InvalidDate lat lon) = NaN.
Proof.
  unfold Index.getMoonPosition. rewrite getDays_invalid. cbv zeta.
  cbn [Index.mp_altitude].
  assert (Hdec : Index.declination (Index.getMoonCoords NaN) = NaN).
  { unfold Index.getMoonCoords. cbn [Index.declination].
    unfold getDeclination. rewrite rad_Fin. reflexivity. }
  rewrite Hdec. unfold getAltitude. cbn [Math.sin Math.cos].
  rewrite !mul_NaN_r. cbn [mul]. rewrite add_NaN_r. reflexivity.
Qed.

Lemma fitWindow_NaN (x1 x2 : number) :
  fitWindow NaN NaN NaN x1 x2
  = {| fit_ye := NaN; fit_roots := 0; fit_x1 := x1; fit_x2 := x2 |}.
Proof. reflexivity. Qed.

Lemma moonScan_invalid (lat lon : number) (hours : list Z) (s : Scan) :
  h0 s = NaN -> rise s = None -> set s = None -> (ye s >? Fin 0)%num = false ->
  let s' := Index.moonScan InvalidDate lat lon hours s in
  rise s' = None /\ set s' = None /\ (ye s' >? Fin 0)%num = false.
Proof.
  revert s. induction hours as [ | i rest IH]; intros s Hh0 Hrise Hset Hye.
  - cbn. auto.
  - cbn [Index.moonScan]. cbv zeta.
    rewrite !hoursShift_invalid, !getMoonPosition_invalid_altitude.
    unfold moonWindow. rewrite Hh0. cbn [sub add neg]. rewrite fitWindow_NaN.
    cbn [fit_roots fit_x1 fit_x2 fit_ye Z.eqb fst snd rise set].
    rewrite Hrise, Hset. cbn [truthyOpt andb].
    apply IH; reflexivity.
Qed.

(** X3: An invalid date gives no crossing and the flag [alwaysDown]: every sample
    is NaN, no window has a root, and [ye > 0] is false for NaN. *)
Theorem getMoonTimes_invalid_date :
  forall (tz : TimeZone) (lat lon : number),
    Index.getMoonTimes tz InvalidDate lat lon
    = ({| moonrise := None; moonset := None;
          alwaysUp := None; alwaysDown := Some true |}, InvalidDate).
Proof.
  intros tz lat lon. unfold Index.getMoonTimes. cbn [setHours]. cbv zeta.
  rewrite getMoonPosition_invalid_altitude. cbn [sub add neg].
  assert (Hye0 : (ye (initialScan NaN) >? Fin 0)%num = false)
    by (apply Rltb_false; lra).
  destruct (moonScan_invalid lat lon windowHours (initialScan NaN)
              eq_refl eq_refl eq_refl Hye0) as [Hrise [Hset Hye]].
  unfold moonResult. rewrite Hrise, Hset, Hye. reflexivity.
Qed.

(* ================================================================== *)
(** * The rise/set scan: what a window can assign *)
(* ================================================================== *)

(** X4: The roots a window records are the zeros of the parabola through its
    three samples, [p x = a x^2 + b x + h1] with [p (-1) = h0], [p 0 = h1],
    [p 1 = h2], and [ye] is its value at the vertex. *)
Theorem window_roots_are_zeros :
  forall (h0 h1 h2 : R) (x1 x2 : number),
    let a := (h0 + h2) / 2 - h1 in
    let b := (h2 - h0) / 2 in
    let p := fun x : R => a * x * x + b * x + h1 in
    a <> 0 -> 0 <= b * b - 4 * a * h1 ->
    p (-1) = h0 /\ p 0 = h1 /\ p 1 = h2
    /\ exists r1 r2 : R,
         fit_x1 (fitWindow (Fin h0) (Fin h1) (Fin h2) x1 x2) = Fin r1
         /\ fit_x2 (fitWindow (Fin h0) (Fin h1) (Fin h2) x1 x2) = Fin r2
         /\ p r1 = 0 /\ p r2 = 0
         /\ fit_ye (fitWindow (Fin h0) (Fin h1) (Fin h2) x1 x2)
            = Fin (p (- b / (2 * a))).
Proof.
  intros h0 h1 h2 x1 x2 a b p Ha Hd.
  split; [unfold p, a, b; lra | ].
  split; [unfold p; lra | ].
  split; [unfold p, a, b; lra | ].
  rewrite fitWindow_Fin by assumption. fold a b.
  set (d := b * b - 4 * a * h1) in *.
  set (xe := - b / (2 * a)).
  set (dx := sqrt d / (Rabs a * 2)).
  assert (Hdx : a * (dx * dx) = d / (4 * a)).
  { unfold dx.
    assert (Hs : sqrt d * sqrt d = d) by (apply sqrt_sqrt; exact Hd).
    assert (Habs : Rabs a * Rabs a = a * a).
    { unfold Rabs. destruct (Rcase_abs a); lra. }
    assert (Hpos : Rabs a <> 0) by (apply Rabs_no_R0; exact Ha).
    replace (sqrt d / (Rabs a * 2) * (sqrt d / (Rabs a * 2)))
      with ((sqrt d * sqrt d) / (4 * (Rabs a * Rabs a))) by (field; exact Hpos).
    rewrite Hs, Habs. field. exact Ha. }
  assert (Hm : p (xe - dx) = 0).
  { unfold p.
    replace (a * (xe - dx) * (xe - dx) + b * (xe - dx) + h1)
      with (a * xe * xe + b * xe + h1 + a * (dx * dx) - (2 * a * xe + b) * dx)
      by ring.
    rewrite Hdx. unfold xe, d. field. exact Ha. }
  assert (Hp : p (xe + dx) = 0).
  { unfold p.
    replace (a * (xe + dx) * (xe + dx) + b * (xe + dx) + h1)
      with (a * xe * xe + b * xe + h1 + a * (dx * dx) + (2 * a * xe + b) * dx)
      by ring.
    rewrite Hdx. unfold xe, d. field. exact Ha. }
  cbn [fit_x1 fit_x2 fit_ye].
  destruct (Rltb (xe - dx) (-1)).
  - exists (xe + dx), (xe + dx). repeat split; try assumption.
    f_equal. unfold p. ring.
  - exists (xe - dx), (xe + dx). repeat split; try assumption.
    f_equal. unfold p. ring.
Qed.

Lemma window_roots_are_zeros_witness :
  let p := fun x : R => ((0.03 + 0.03) / 2 - -0.01) * x * x
                        + ((0.03 - 0.03) / 2) * x + -0.01 in
  p (-1) = 0.03 /\ p 0 = -0.01 /\ p 1 = 0.03
  /\ exists r1 r2 : R,
       fit_x1 (fitWindow (Fin 0.03) (Fin (-0.01)) (Fin 0.03) (Fin 0) (Fin 0)) = Fin r1
       /\ fit_x2 (fitWindow (Fin 0.03) (Fin (-0.01)) (Fin 0.03) (Fin 0) (Fin 0)) = Fin r2
       /\ p r1 = 0 /\ p r2 = 0
       /\ fit_ye (fitWindow (Fin 0.03) (Fin (-0.01)) (Fin 0.03) (Fin 0) (Fin 0))
          = Fin (p (- ((0.03 - 0.03) / 2) / (2 * ((0.03 + 0.03) / 2 - -0.01)))).
Proof.
  apply (window_roots_are_zeros 0.03 (-0.01) 0.03 (Fin 0) (Fin 0)); lra.
Defined.

(** What a window can record: no root, or one root of [[-1,1]] (kept in
    [x1], also when it was computed as [x2]), or two. *)
Lemma fit_roots_cases (h0 h1 h2 x1 x2 : number) :
  let f := fitWindow h0 h1 h2 x1 x2 in
  fit_roots f = 0%Z
  \/ (fit_roots f = 1%Z /\ exists r : R, fit_x1 f = Fin r /\ -1 <= r <= 1)
  \/ fit_roots f = 2%Z.
Proof.
  unfold fitWindow.
  set (a := ((h0 + h2) / Fin 2 - h1)%num).
  set (b := ((h2 - h0) / Fin 2)%num).
  set (xe := (- b / (Fin 2 * a))%num).
  set (d := (b * b - Fin 4 * a * h1)%num).
  set (dx := (Math.sqrt d / (Math.abs a * Fin 2))%num).
  cbv zeta.
  destruct (d >=? Fin 0)%num; cbn [fit_roots fit_x1 fit_x2]; [ | left; reflexivity].
  destruct (Math.abs (xe - dx) <=? Fin 1)%num eqn:H1;
    destruct (Math.abs (xe + dx) <=? Fin 1)%num eqn:H2.
  - right; right. reflexivity.
  - right; left. split; [reflexivity | ].
    destruct (abs_leb_inv _ H1) as [r1 [E1 B1]].
    exists r1. rewrite E1. cbn [ltb]. rewrite Rltb_false by lra.
    split; [reflexivity | exact B1].
  - right; left. split; [reflexivity | ].
    destruct (abs_leb_inv _ H2) as [r2 [E2 B2]].
    destruct (add_Fin_inv _ _ _ E2) as [u [v [Eu [Ev Er2]]]].
    pose proof (root_spread_nonneg d a v Ev) as Hv.
    rewrite Eu, Ev in *. cbn [sub add neg Math.abs leb ltb] in *.
    assert (Hlt : u + - v < -1).
    { apply Rnot_le_lt. intros Hge.
      rewrite Rleb_true in H1; [discriminate | ].
      apply Rabs_le. lra. }
    rewrite (Rltb_true _ _ Hlt). exists r2. split; [exact E2 | exact B2].
  - left. reflexivity.
Qed.

(** X5: In a window with exactly one root in [[-1,1]], that root becomes the rise
    if the first sample [h0] is negative, and the set otherwise; the other of
    the two keeps its value. *)
Theorem one_root_assignment :
  forall (i h1 h2 : number) (s : Scan),
    let f := fitWindow (h0 s) h1 h2 (x1 s) (x2 s) in
    fit_roots f = 1%Z ->
    exists r : R,
      fit_x1 f = Fin r /\ -1 <= r <= 1
      /\ (if (h0 s <? Fin 0)%num
          then rise (moonWindow i h1 h2 s) = Some (i + Fin r)%num
               /\ set (moonWindow i h1 h2 s) = set s
          else set (moonWindow i h1 h2 s) = Some (i + Fin r)%num
               /\ rise (moonWindow i h1 h2 s) = rise s).
Proof.
  intros i h1 h2 s f Hroots.
  destruct (fit_roots_cases (h0 s) h1 h2 (x1 s) (x2 s)) as [H | [[_ H] | H]];
    fold f in H; try (rewrite Hroots in H; discriminate).
  destruct H as [r [Er Br]]. exists r. split; [exact Er | split; [exact Br | ] ].
  subst f. unfold moonWindow. cbv zeta in *. rewrite Hroots, Er.
  cbn [Z.eqb Pos.eqb].
  destruct (h0 s <? Fin 0)%num; cbn [fst snd rise set]; split; reflexivity.
Qed.

(** A window in which the moon comes up: samples -0.03, 0, 0.01. *)
Lemma rising_window_fit (x1 x2 : number) :
  fitWindow (Fin (-0.03)) (Fin 0) (Fin 0.01) x1 x2
  = {| fit_ye := Fin 0.01; fit_roots := 1; fit_x1 := Fin 0; fit_x2 := Fin 2 |}.
Proof.
  assert (Hs : sqrt (0.02 * 0.02) = 0.02) by (apply sqrt_square; lra).
  rewrite fitWindow_Fin by lra.
  replace ((0.01 - -0.03) / 2 * ((0.01 - -0.03) / 2)
           - 4 * ((-0.03 + 0.01) / 2 - 0) * 0) with (0.02 * 0.02) by lra.
  rewrite Hs.
  replace (Rabs ((-0.03 + 0.01) / 2 - 0)) with 0.01
    by (rewrite Rabs_left; lra).
  replace (- ((0.01 - -0.03) / 2) / (2 * ((-0.03 + 0.01) / 2 - 0))) with 1 by lra.
  replace (1 - 0.02 / (0.01 * 2)) with 0 by lra.
  replace (1 + 0.02 / (0.01 * 2)) with 2 by lra.
  rewrite Rabs_R0. rewrite (Rabs_pos_eq 2) by lra.
  rewrite Rleb_true by lra. rewrite Rleb_false by lra. rewrite Rltb_false by lra.
  f_equal. f_equal. lra.
Qed.

Lemma one_root_assignment_witness :
  exists r : R,
    fit_x1 (fitWindow (Fin (-0.03)) (Fin 0) (Fin 0.01) (Fin 0) (Fin 0)) = Fin r
    /\ -1 <= r <= 1
    /\ (if (Fin (-0.03) <? Fin 0)%num
        then rise (moonWindow (Fin 5) (Fin 0) (Fin 0.01) (initialScan (Fin (-0.03))))
             = Some (Fin 5 + Fin r)%num
             /\ set (moonWindow (Fin 5) (Fin 0) (Fin 0.01) (initialScan (Fin (-0.03))))
                = None
        else set (moonWindow (Fin 5) (Fin 0) (Fin 0.01) (initialScan (Fin (-0.03))))
             = Some (Fin 5 + Fin r)%num
             /\ rise (moonWindow (Fin 5) (Fin 0) (Fin 0.01) (initialScan (Fin (-0.03))))
                = None).
Proof.
  apply (one_root_assignment (Fin 5) (Fin 0) (Fin 0.01) (initialScan (Fin (-0.03)))).
  cbn [initialScan h0 x1 x2]. rewrite rising_window_fit. reflexivity.
Defined.

(* ================================================================== *)
(** * The rise/set scan: the hours it reports *)
(* ================================================================== *)

Lemma moonWindow_hours (i : Z) (h1 h2 : number) (s : Scan) :
  (1 <= i <= 23)%Z ->
  hourOfDay (rise s) -> hourOfDay (set s) ->
  hourOfDay (rise (moonWindow (Fin (IZR i)) h1 h2 s))
  /\ hourOfDay (set (moonWindow (Fin (IZR i)) h1 h2 s)).
Proof.
  intros Hi Hrise Hset.
  assert (Hi1 : 1 <= IZR i) by (apply IZR_le; lia).
  assert (Hi2 : IZR i <= 23) by (apply IZR_le; lia).
  unfold moonWindow. cbv zeta.
  destruct (fit_roots_cases (h0 s) h1 h2 (x1 s) (x2 s)) as [H | [[H Hr] | H]];
    rewrite H; cbn [Z.eqb Pos.eqb].
  - cbn [fst snd rise set]. auto.
  - destruct Hr as [r [Er Br]]. rewrite Er.
    destruct (h0 s <? Fin 0)%num; cbn [fst snd rise set add hourOfDay];
      split; try assumption; lra.
  - destruct (two_roots_ordered (h0 s) h1 h2 (x1 s) (x2 s) H)
      as [r1 [r2 [E1 [E2 [B1 [B2 B3]]]]]].
    rewrite E1, E2.
    destruct (fit_ye _ <? Fin 0)%num; cbn [fst snd rise set add hourOfDay];
      split; lra.
Qed.

Lemma nextWindow_rise (h : number) (s : Scan) : rise (nextWindow h s) = rise s.
Proof. reflexivity. Qed.

Lemma nextWindow_set (h : number) (s : Scan) : set (nextWindow h s) = set s.
Proof. reflexivity. Qed.

Lemma moonScan_hours (date : Date) (lat lon : number) (hours : list Z) (s : Scan) :
  (forall i, In i hours -> (1 <= i <= 23)%Z) ->
  hourOfDay (rise s) -> hourOfDay (set s) ->
  hourOfDay (rise (Index.moonScan date lat lon hours s))
  /\ hourOfDay (set (Index.moonScan date lat lon hours s)).
Proof.
  revert s. induction hours as [ | i rest IH]; intros s Hin Hrise Hset.
  - cbn. auto.
  - cbn [Index.moonScan]. cbv zeta.
    match goal with
    | |- context [moonWindow (Fin (IZR i)) ?a ?b s] =>
        destruct (moonWindow_hours i a b s) as [Hr Hs];
        [apply Hin; left; reflexivity | assumption | assumption | ];
        set (s' := moonWindow (Fin (IZR i)) a b s) in *;
        set (next := b) in *
    end.
    clearbody s' next.
    destruct (truthyOpt (rise s') && truthyOpt (set s')).
    + auto.
    + apply IH.
      * intros j Hj. apply Hin. right. exact Hj.
      * rewrite nextWindow_rise. exact Hr.
      * rewrite nextWindow_set. exact Hs.
Qed.

Lemma windowHours_range (i : Z) : In i windowHours -> (1 <= i <= 23)%Z.
Proof.
  unfold windowHours. cbn [In]. intros H.
  repeat (destruct H as [H | H]; [lia | ]). contradiction.
Qed.

Lemma Ztrunc_le (x y : R) : x <= y -> (Ztrunc x <= Ztrunc y)%Z.
Proof.
  intros Hxy. unfold Ztrunc.
  destruct (Rltb x 0) eqn:Hx; destruct (Rltb y 0) eqn:Hy.
  - apply Zceil_le. exact Hxy.
  - apply Rltb_spec in Hx.
    assert (0 <= y).
    { apply Rnot_lt_le. intros C. apply Rltb_spec in C. congruence. }
    assert (Zceil x <= 0)%Z.
    { replace 0%Z with (Zceil 0) by (apply Zceil_eq; simpl; lra).
      apply Zceil_le. lra. }
    assert (0 <= Zfloor y)%Z by (apply Zfloor_lub; simpl; lra).
    lia.
  - apply Rltb_spec in Hy.
    assert (0 <= x).
    { apply Rnot_lt_le. intros C. apply Rltb_spec in C. congruence. }
    lra.
  - apply Zfloor_le. exact Hxy.
Qed.

Lemma hoursShift_within_day (t0 : Z) (r : R) :
  0 <= r <= 24 ->
  withinDayAfter (DateAt t0) (Some (hoursShift (DateAt t0) (Fin r))).
Proof.
  intros Hr. unfold hoursShift. rewrite dayMills_Fin. cbn [valueOf mul].
  rewrite div_Fin by lra. cbn [add]. unfold newDate.
  destruct (Rleb _ _); cbn [withinDayAfter]; [ | exact I].
  rewrite <- (Ztrunc_IZR t0) at 1.
  replace (t0 + 86400000)%Z with (Ztrunc (IZR (t0 + 86400000)))
    by apply Ztrunc_IZR.
  split; apply Ztrunc_le; rewrite ?plus_IZR; lra.
Qed.

(** X6: A moonrise or moonset that [getMoonTimes] reports lies within the 24
    hours that follow the midnight the [Date] object was reset to: the scan
    only ever records hours between 0 and 24. *)
Theorem moon_crossings_within_the_day :
  forall (tz : TimeZone) (date : Date) (lat lon : number),
    let result := fst (Index.getMoonTimes tz date lat lon) in
    let midnight := snd (Index.getMoonTimes tz date lat lon) in
    withinDayAfter midnight (moonrise result)
    /\ withinDayAfter midnight (moonset result).
Proof.
  intros tz date lat lon. unfold Index.getMoonTimes. cbn [fst snd]. cbv zeta.
  generalize (setHours tz date 0 0 0 0). intros midnight.
  set (start := initialScan _).
  destruct (moonScan_hours midnight lat lon windowHours start)
    as [Hrise Hset]; [apply windowHours_range | exact I | exact I | ].
  set (s := Index.moonScan midnight lat lon windowHours start) in *.
  clearbody s. clear start.
  unfold moonResult. cbn [moonrise moonset].
  split.
  - destruct (rise s) as [[r | | | ] | ]; cbn [hourOfDay] in Hrise;
      try contradiction; [ | exact I].
    destruct (truthy (Fin r)); [ | exact I].
    destruct midnight as [t0 | ]; [apply hoursShift_within_day; exact Hrise | exact I].
  - destruct (set s) as [[r | | | ] | ]; cbn [hourOfDay] in Hset;
      try contradiction; [ | exact I].
    destruct (truthy (Fin r)); [ | exact I].
    destruct midnight as [t0 | ]; [apply hoursShift_within_day; exact Hset | exact I].
Qed.

(* ================================================================== *)
(** * The result object is never empty *)
(* ================================================================== *)

(** X7: [getMoonTimes] never returns the empty object: without a rise and a set
    one of the two flags is [true]. *)
Theorem getMoonTimes_never_empty :
  forall (tz : TimeZone) (date : Date) (lat lon : number),
    let r := fst (Index.getMoonTimes tz date lat lon) in
    moonrise r <> None \/ moonset r <> None
    \/ (alwaysUp r = Some true /\ alwaysDown r = None)
    \/ (alwaysUp r = None /\ alwaysDown r = Some true).
Proof.
  intros tz date lat lon. unfold Index.getMoonTimes. cbn [fst]. cbv zeta.
  generalize (setHours tz date 0 0 0 0). intros midnight.
  generalize (Index.moonScan midnight lat lon windowHours
                (initialScan (Index.mp_altitude
                                (Index.getMoonPosition midnight lat lon) - hc))).
  intros s. unfold moonResult. cbn [moonrise moonset alwaysUp alwaysDown].
  destruct (rise s) as [r1 | ]; destruct (set s) as [r2 | ]; cbn [truthyOpt];
    try destruct (truthy r1); try destruct (truthy r2); cbn [negb andb];
    try (left; discriminate); try (right; left; discriminate);
    destruct (ye s >? Fin 0)%num; cbn [negb]; auto.
Qed.

(* ================================================================== *)
(** * Angles of the positions *)
(* ================================================================== *)

Lemma atan2R_range (y x : R) : - Rpi < Math.atan2R y x <= Rpi.
Proof.
  unfold Math.atan2R. pose proof PI_RGT_0.
  pose proof (atan_bound (y / x)) as Hb.
  destruct (Rltb 0 x) eqn:Hx; [lra | ].
  destruct (Rltb x 0) eqn:Hx'.
  - apply Rltb_spec in Hx'.
    destruct (Rleb 0 y) eqn:Hy.
    + apply Rleb_spec in Hy.
      assert (y / x <= 0).
      { assert (0 <= y * / - x).
        { apply Rmult_le_pos; [exact Hy | apply Rlt_le, Rinv_0_lt_compat; lra]. }
        replace (y / x) with (- (y * / - x)); [lra | field; lra]. }
      pose proof (atan_nonpos _ H0). lra.
    + assert (y < 0).
      { apply Rnot_le_lt. intros C. apply Rleb_spec in C. congruence. }
      assert (0 < y / x).
      { replace (y / x) with ((- y) * / (- x)) by (field; lra).
        apply Rmult_lt_0_compat; [lra | apply Rinv_0_lt_compat; lra]. }
      assert (0 < atan (y / x)) by (rewrite <- atan_0; apply atan_increasing; lra).
      lra.
  - destruct (Rltb 0 y); [lra | ]. destruct (Rltb y 0); lra.
Qed.


Lemma asin_within (x bound : R) :
  0 <= bound <= Rpi / 2 -> - sin bound <= x <= sin bound ->
  - bound <= asin x <= bound.
Proof.
  intros Hb Hx.
  assert (Hx1 : -1 <= x <= 1) by (pose proof (SIN_bound bound); lra).
  pose proof (asin_bound x) as Ha. pose proof (sin_asin x Hx1) as Hs.
  split.
  - apply Rnot_lt_le. intros C.
    assert (sin (asin x) < sin (- bound)) by (apply sin_increasing_1; lra).
    rewrite sin_neg in H. lra.
  - apply Rnot_lt_le. intros C.
    assert (sin bound < sin (asin x)) by (apply sin_increasing_1; lra).
    lra.
Qed.

Lemma obliquity_range : 0 < Rpi / 180 * 23.4397 < Rpi / 2.
Proof. pose proof PI_RGT_0. lra. Qed.

(** The declination of the sun never leaves the band of the obliquity,
    23.4397 degrees on either side of the equator. *)
Lemma getSunCoords_bounds (d : R) :
  exists dec ra : R,
    getSunCoords (Fin d)
    = {| sc_declination := Fin dec; sc_rightAscension := Fin ra |}
    /\ - (Rpi / 180 * 23.4397) <= dec <= Rpi / 180 * 23.4397
    /\ - Rpi < ra <= Rpi.
Proof.
  unfold getSunCoords, getSolarEclipticLongitude, getEquationOfCenter,
    getSolarMeanAnomaly, PI, Math.PI.
  rewrite rad_Fin. cbn [Math.sin mul add].
  match goal with
  | |- context [getDeclination (Fin ?x) (Fin 0)] => generalize x
  end.
  intros L.
  unfold getDeclination, getRightAscension. rewrite e_Fin.
  rewrite (tan_Fin 0) by (rewrite cos_0; lra).
  cbn [Math.sin Math.cos mul add sub neg Math.atan2].
  pose proof obliquity_range as He.
  set (eps := Rpi / 180 * 23.4397) in *.
  assert (Hse : 0 <= sin eps) by (apply sin_ge_0; pose proof PI_RGT_0; lra).
  pose proof (SIN_bound L) as HL. pose proof (SIN_bound eps) as Hse1.
  assert (Harg : - sin eps <= sin 0 * cos eps + cos 0 * sin eps * sin L <= sin eps).
  { rewrite sin_0, cos_0. split; nra. }
  rewrite asin_Fin by lra.
  eexists. eexists. split; [reflexivity | ]. split.
  - apply asin_within; [lra | exact Harg].
  - apply atan2R_range.
Qed.

(** X8: At every instant the sun's declination that [getSunCoords] gives is
    finite and at most the obliquity of the ecliptic, 23.4397 degrees, in
    absolute value. *)
Theorem sun_declination_within_obliquity :
  forall t : Z,
  exists dec : R,
    sc_declination (getSunCoords (getDays (DateAt t))) = Fin dec
    /\ Rabs dec <= Rpi / 180 * 23.4397.
Proof.
  intros t. rewrite getDays_Fin.
  destruct (getSunCoords_bounds (IZR t / 86400000 - 0.5 + 2440588 - 2451545))
    as [dec [ra [H [Hdec _]]]].
  rewrite H. exists dec. split; [reflexivity | ]. apply Rabs_le. exact Hdec.
Qed.




(* ================================================================== *)
(** * Refraction *)
(* ================================================================== *)

Lemma refraction_angle_range (c : R) :
  0 <= c ->
  0 < 0.00312536 / (c + 0.08901179) <= 0.0352.
Proof.
  intros Hc.
  assert (Hq : 0.00312536 / (c + 0.08901179) * (c + 0.08901179) = 0.00312536)
    by (field; lra).
  assert (Hpos : 0 < 0.00312536 / (c + 0.08901179)).
  { apply Rmult_lt_0_compat; [lra | apply Rinv_0_lt_compat; lra]. }
  split; [exact Hpos | nra].
Qed.

(** The refraction formula on an altitude that is not below the horizon. *)
Lemma refraction_formula (c : R) :
  0 <= c <= Rpi / 2 ->
  exists r : R,
    (Fin 0.0002967
     / Math.tan (Fin c + Fin 0.00312536 / (Fin c + Fin 0.08901179)))%num
    = Fin r
    /\ (c <= 1.46 -> 0 < r).
Proof.
  intros Hc. pose proof PI_RGT_0 as Hpi. pose proof PI2_1 as Hpi1.
  pose proof PI2_3_2 as Hpi2.
  cbn [add]. rewrite div_Fin by lra. cbn [add].
  destruct (refraction_angle_range c (proj1 Hc)) as [Hq1 Hq2].
  set (x := c + 0.00312536 / (c + 0.08901179)) in *.
  assert (Hx : 0 < x < Rpi) by (unfold x; lra).
  assert (Hsin : 0 < sin x) by (apply sin_gt_0; lra).
  unfold Math.tan, div.
  destruct (Reqb (cos x) 0) eqn:Hcos.
  - rewrite (Reqb_false (sin x) 0) by lra.
    cbn [negative]. rewrite (Rltb_false (sin x) 0) by lra. cbn [inf].
    exists 0. split; [reflexivity | ].
    intros Hc'. apply Reqb_spec in Hcos.
    assert (0 < cos x) by (apply cos_gt_0; unfold x; lra). lra.
  - assert (Hc0 : cos x <> 0).
    { intros E. rewrite (Reqb_true _ _ E) in Hcos. discriminate. }
    assert (Ht : sin x / cos x <> 0).
    { intros E. apply (Rmult_eq_compat_r (cos x)) in E.
      unfold Rdiv in E. rewrite Rmult_assoc, Rinv_l, Rmult_1_r, Rmult_0_l in E
        by exact Hc0. lra. }
    rewrite (Reqb_false _ _ Ht).
    eexists. split; [reflexivity | ].
    intros Hc'.
    assert (0 < cos x) by (apply cos_gt_0; unfold x; lra).
    apply Rmult_lt_0_compat; [lra | ].
    apply Rinv_0_lt_compat. apply Rmult_lt_0_compat; [lra | ].
    apply Rinv_0_lt_compat. lra.
Qed.


(** X10: [getAstroRefraction] is finite on every altitude that [asin] can give; it
    is the same for all altitudes at or below the horizon, and positive up to
    an altitude of 1.46 radians. *)
Theorem refraction_finite_and_positive :
  forall a : R,
    - (Rpi / 2) <= a <= Rpi / 2 ->
    exists r : R,
      getAstroRefraction (Fin a) = Fin r
      /\ (if Rleb a 0 then getAstroRefraction (Fin a) = getAstroRefraction (Fin 0)
          else True)
      /\ (if Rleb a 1.46 then 0 < r else True).
Proof.
  intros a Ha. pose proof PI_RGT_0 as Hpi.
  unfold getAstroRefraction. cbv zeta. cbn [ltb].
  rewrite (Rltb_false 0 0) by lra.
  destruct (Rltb a 0) eqn:Hneg.
  - apply Rltb_spec in Hneg.
    destruct (refraction_formula 0) as [r [Hr Hp]]; [lra | ].
    exists r. split; [exact Hr | ].
    rewrite (Rleb_true a 0), (Rleb_true a 1.46) by lra.
    split; [reflexivity | apply Hp; lra].
  - assert (0 <= a).
    { apply Rnot_lt_le. intros C. apply Rltb_spec in C. congruence. }
    destruct (refraction_formula a) as [r [Hr Hp]]; [lra | ].
    exists r. split; [exact Hr | ]. split.
    + destruct (Rleb a 0) eqn:Hle; [ | exact I].
      apply Rleb_spec in Hle. replace a with 0 by lra. reflexivity.
    + destruct (Rleb a 1.46) eqn:Hle; [ | exact I].
      apply Rleb_spec in Hle. apply Hp. exact Hle.
Qed.

Lemma refraction_finite_and_positive_witness :
  exists r : R,
    getAstroRefraction (Fin 0) = Fin r
    /\ (if Rleb 0 0 then getAstroRefraction (Fin 0) = getAstroRefraction (Fin 0)
        else True)
    /\ (if Rleb 0 1.46 then 0 < r else True).
Proof.
  apply (refraction_finite_and_positive 0).
  pose proof PI_RGT_0. lra.
Defined.

(* ================================================================== *)
(** * The position of the moon is finite *)
(* ================================================================== *)

Lemma Rabs_le_elim (a b : R) : Rabs a <= b -> - b <= a <= b.
Proof. unfold Rabs. destruct (Rcase_abs a); lra. Qed.

Lemma sin_abs_le (x : R) : Rabs (sin x) <= Rabs x.
Proof.
  destruct (Req_dec x 0) as [-> | Hx].
  - rewrite sin_0. lra.
  - destruct (Rlt_dec 0 x) as [Hpos | Hneg].
    + rewrite (Rabs_pos_eq x) by lra.
      apply Rabs_le. pose proof (sin_lt_x x Hpos). pose proof (SIN_bound x).
      destruct (Rle_dec x 1).
      * assert (0 <= sin x); [ | lra].
        apply sin_ge_0; [lra | pose proof PI2_1; lra].
      * lra.
    + assert (Hx' : 0 < - x) by lra.
      rewrite (Rabs_left x) by lra.
      apply Rabs_le. pose proof (sin_lt_x (- x) Hx') as H. rewrite sin_neg in H.
      pose proof (SIN_bound x).
      destruct (Rle_dec (- x) 1).
      * assert (0 <= sin (- x)).
        { apply sin_ge_0; [lra | pose proof PI2_1; lra]. }
        rewrite sin_neg in H1. lra.
      * lra.
Qed.




(* ================================================================== *)
(** * Moon phase: how the three results hang together *)
(* ================================================================== *)

(** X12: The illuminated fraction is a function of the phase,
    [fraction = (1 - cos (2 PI phase)) / 2]; the phase is below one half
    exactly when the limb angle is negative (a waxing moon) and at least one
    half otherwise; the angle lies in [(-PI, PI]]. *)
Theorem moon_phase_consistent :
  forall t : Z,
  exists f p a : R,
    Index.getMoonPhase (DateAt t)
    = {| fraction := Fin f; phase := Fin p; angle := Fin a |}
    /\ f = (1 - cos (2 * Rpi * p)) / 2
    /\ - Rpi < a <= Rpi
    /\ (if Rltb a 0 then p <= 1 / 2 else 1 / 2 <= p).
Proof.
  intros t. unfold Index.getMoonPhase. rewrite getDays_Fin.
  destruct (getSunCoords_Fin (IZR t / 86400000 - 0.5 + 2440588 - 2451545))
    as [ds [rs Hsun]].
  destruct (getMoonCoords_Fin (IZR t / 86400000 - 0.5 + 2440588 - 2451545))
    as [rm [dm [km [Hmoon Hkm]]]].
  rewrite Hsun, Hmoon. cbv zeta.
  cbn [sc_declination sc_rightAscension Index.rightAscension Index.declination
       Index.distance Math.sin Math.cos mul add sub neg].
  rewrite acos_Fin.
  2:{ apply unit_product_bound.
      - apply sin_cos_unit.
      - apply sin_cos_unit.
      - apply COS_bound. }
  set (sep := acos (sin ds * sin dm + cos ds * cos dm * cos (rs + - rm))).
  assert (Hsep : 0 <= sep <= Rpi) by apply acos_bound.
  cbn [Math.sin Math.cos mul add sub neg Math.atan2].
  set (inc := Math.atan2R (149598000 * sin sep) (km + - (149598000 * cos sep))).
  assert (Hinc : 0 <= inc <= Rpi).
  { apply atan2R_upper_half.
    apply Rmult_le_pos; [lra | ]. apply sin_ge_0; lra. }
  rewrite (div_Fin _ 2) by lra.
  set (ang := Math.atan2R _ _).
  pose proof (atan2R_range
                (cos ds * sin (rs + - rm))
                (sin ds * cos dm + - (cos ds * sin dm * cos (rs + - rm)))) as Hang.
  fold ang in Hang.
  pose proof PI_RGT_0 as Hpi.
  cbn [ltb]. clearbody ang inc sep.
  assert (Hq : 0 <= inc / Rpi).
  { apply Rmult_le_pos; [lra | apply Rlt_le, Rinv_0_lt_compat; exact Hpi]. }
  assert (Hq' : Rpi * (inc / Rpi) = inc) by (field; lra).
  destruct (Rltb ang 0) eqn:Hneg; cbn [mul]; unfold Math.PI;
    rewrite div_Fin by lra; cbn [add];
    exists ((1 + cos inc) / 2); eexists; exists ang;
    (split; [reflexivity | split; [ | split; [exact Hang | ] ] ]).
  - replace (0.5 * inc * -1 / Rpi) with (- (0.5 * (inc / Rpi))) by (field; lra).
    replace (2 * Rpi * (0.5 + - (0.5 * (inc / Rpi)))) with (- inc + Rpi) by nra.
    rewrite neg_cos, cos_neg. lra.
  - rewrite Hneg.
    replace (0.5 * inc * -1 / Rpi) with (- (0.5 * (inc / Rpi))) by (field; lra).
    lra.
  - replace (0.5 * inc * 1 / Rpi) with (0.5 * (inc / Rpi)) by (field; lra).
    replace (2 * Rpi * (0.5 + 0.5 * (inc / Rpi))) with (inc + Rpi) by nra.
    rewrite neg_cos. lra.
  - rewrite Hneg.
    replace (0.5 * inc * 1 / Rpi) with (0.5 * (inc / Rpi)) by (field; lra).
    lra.
Qed.

(* ================================================================== *)
(** * Sun times: the transit and the crossings around it *)
(* ================================================================== *)

Lemma two_pi_neq_0 : 2 * Rpi <> 0.
Proof. pose proof PI_RGT_0. lra. Qed.

(** [getJulianCycle] gives a whole number, the nearest to its argument. *)
Lemma getJulianCycle_Fin (j lw : R) :
  exists n : Z,
    getJulianCycle (Fin j) (Fin lw) = Fin (IZR n)
    /\ j - 2451545 - 0.0009 - lw / (2 * Rpi) - 1 / 2 < IZR n
       <= j - 2451545 - 0.0009 - lw / (2 * Rpi) + 1 / 2.
Proof.
  unfold getJulianCycle, julian2000, julian0, PI, Math.PI. cbn [mul].
  rewrite div_Fin by apply two_pi_neq_0. cbn [sub add neg Math.round].
  eexists. split; [reflexivity | ].
  match goal with
  | |- context [Zfloor ?x] => pose proof (Zfloor_bound x) as Hb
  end.
  lra.
Qed.

Lemma getApproxSolarTransit_Fin (ht lw n : R) :
  getApproxSolarTransit (Fin ht) (Fin lw) (Fin n)
  = Fin (2451545 + 0.0009 + (ht + lw) / (2 * Rpi) + n).
Proof.
  unfold getApproxSolarTransit, julian2000, julian0, PI, Math.PI. cbn [mul add].
  rewrite div_Fin by apply two_pi_neq_0. reflexivity.
Qed.

Lemma getSolarTransit_Fin (a m l : R) :
  getSolarTransit (Fin a) (Fin m) (Fin l)
  = Fin (a + 0.0053 * sin m + -0.0069 * sin (2 * l)).
Proof. reflexivity. Qed.

Lemma getSolarMeanAnomaly_Fin (d : R) :
  getSolarMeanAnomaly (Fin d) = Fin (Rpi / 180 * (357.5291 + 0.98560028 * d)).
Proof. unfold getSolarMeanAnomaly. rewrite rad_Fin. reflexivity. Qed.

Lemma getSolarEclipticLongitude_Fin (m : R) :
  exists l : R, getSolarEclipticLongitude (Fin m) = Fin l.
Proof.
  unfold getSolarEclipticLongitude, getEquationOfCenter, PI, Math.PI.
  rewrite rad_Fin. cbn [Math.sin mul add]. eexists. reflexivity.
Qed.

(** An evening crossing is the transit plus the hour angle, as a fraction of
    a turn. *)
Lemma getSunsetJulianDate_Fin (w m l lw n : R) :
  getSunsetJulianDate (Fin w) (Fin m) (Fin l) (Fin lw) (Fin n)
  = Fin (2451545 + 0.0009 + lw / (2 * Rpi) + n + 0.0053 * sin m
         + -0.0069 * sin (2 * l) + w / (2 * Rpi)).
Proof.
  unfold getSunsetJulianDate. rewrite getApproxSolarTransit_Fin, getSolarTransit_Fin.
  f_equal. pose proof two_pi_neq_0. field. lra.
Qed.

Lemma getHourAngle_NaN_or_Fin (h phi dec : number) :
  getHourAngle h phi dec = NaN
  \/ exists w : R, getHourAngle h phi dec = Fin w /\ 0 <= w <= Rpi.
Proof.
  unfold getHourAngle.
  destruct (hourAngleCosine h phi dec) as [x | | | ]; cbn [Math.acos]; auto.
  destruct (Rleb (-1) x && Rleb x 1); [right | left; reflexivity].
  eexists. split; [reflexivity | apply acos_bound].
Qed.

(** X13: For a longitude between -180 and 180 degrees the solar transit that
    [getSunTimes] computes is finite and at most 0.5123 days from the Julian
    date of the instant asked for, whatever the latitude: the cycle number
    picks the transit nearest to the instant. *)
Theorem solar_transit_near_instant :
  forall (t : Z) (lat : number) (lon : R),
    -180 <= lon <= 180 ->
    exists T : R,
      julianTransit (sunJulianDates (DateAt t) lat (Fin lon)) = Fin T
      /\ Rabs (T - (IZR t / 86400000 - 0.5 + 2440588)) <= 0.5123.
Proof.
  intros t lat lon Hlon. unfold sunJulianDates. cbv zeta. cbn [julianTransit].
  rewrite toJulian_Fin, rad_Fin. cbn [neg mul].
  set (J := IZR t / 86400000 - 0.5 + 2440588).
  set (lw := - lon * (Rpi / 180)).
  destruct (getJulianCycle_Fin J lw) as [n [Hn Bn]]. rewrite Hn.
  rewrite getApproxSolarTransit_Fin. unfold julian2000. cbn [sub add neg].
  rewrite getSolarMeanAnomaly_Fin.
  match goal with
  | |- context [getSolarEclipticLongitude (Fin ?m)] =>
      destruct (getSolarEclipticLongitude_Fin m) as [l Hl]; rewrite Hl;
      set (M := m) in *
  end.
  rewrite getSolarTransit_Fin. eexists. split; [reflexivity | ].
  pose proof (SIN_bound M). pose proof (SIN_bound (2 * l)).
  replace ((0 + lw) / (2 * Rpi)) with (lw / (2 * Rpi))
    by (pose proof two_pi_neq_0; field; lra).
  apply Rabs_le. lra.
Qed.

Lemma solar_transit_near_instant_witness :
  exists T : R,
    julianTransit (sunJulianDates (DateAt 1549735200000) (Fin 40.74) (Fin 74)) = Fin T
    /\ Rabs (T - (IZR 1549735200000 / 86400000 - 0.5 + 2440588)) <= 0.5123.
Proof.
  apply (solar_transit_near_instant 1549735200000 (Fin 40.74) 74). lra.
Defined.

Lemma crossing_pair (w : number) (m l lw n : R) :
  w = NaN \/ (exists omega : R, w = Fin omega) ->
  let T := 2451545 + 0.0009 + (0 + lw) / (2 * Rpi) + n + 0.0053 * sin m
           + -0.0069 * sin (2 * l) in
  getSunsetJulianDate w (Fin m) (Fin l) (Fin lw) (Fin n) = eveningOf T w
  /\ getSunriseJulianDate (Fin T)
       (getSunsetJulianDate w (Fin m) (Fin l) (Fin lw) (Fin n))
     = morningOf T w.
Proof.
  intros [-> | [omega ->]] T.
  - rewrite getSunsetJulianDate_NaN, getSunriseJulianDate_NaN. split; reflexivity.
  - rewrite getSunsetJulianDate_Fin. unfold getSunriseJulianDate, eveningOf, morningOf.
    cbn [sub add neg]. pose proof two_pi_neq_0.
    split; f_equal; unfold T; field; lra.
Qed.

Lemma hourAngle_cases (h phi dec : number) :
  getHourAngle h phi dec = NaN
  \/ (exists omega : R, getHourAngle h phi dec = Fin omega).
Proof.
  destruct (getHourAngle_NaN_or_Fin h phi dec) as [H | [w [H _]]]; eauto.
Qed.

(** The Julian dates of [getSunTimes] at an instant and finite coordinates:
    a finite transit [T], a declination within the obliquity, and for every
    threshold the pair [T + w / (2 PI)], [T - w / (2 PI)] of its hour angle
    [w]. *)
Lemma sunJulianDates_shape (t : Z) (lat lon : R) :
  exists T dec : R,
    Rabs dec <= Rpi / 180 * 23.4397
    /\ sunJulianDates (DateAt t) (Fin lat) (Fin lon)
       = let phi := Fin (lat * (Rpi / 180)) in
         let W0 := getHourAngle sunsetAngle phi (Fin dec) in
         let W1 := getHourAngle (sunsetAngle + sunDiameter) phi (Fin dec) in
         let W2 := getHourAngle nauticalTwilightAngle phi (Fin dec) in
         let W3 := getHourAngle astronomicalTwilightAngle phi (Fin dec) in
         let W4 := getHourAngle darknessAngle phi (Fin dec) in
         {| phi_ := phi; sunDeclination := Fin dec; julianTransit := Fin T;
            w0 := W0; w1 := W1; w2 := W2; w3 := W3; w4 := W4;
            julianSet := eveningOf T W0; julianSetStart := eveningOf T W1;
            julianRise := morningOf T W0; julianRiseEnd := morningOf T W1;
            julianNautical := eveningOf T W2; julianCivil := morningOf T W2;
            julianAstro := eveningOf T W3; julianDark := eveningOf T W4;
            julianNautical2 := morningOf T W3; julianAsto2 := morningOf T W4 |}.
Proof.
  unfold sunJulianDates. cbv zeta.
  rewrite toJulian_Fin, rad_Fin. cbn [neg mul].
  set (J := IZR t / 86400000 - 0.5 + 2440588).
  set (lw := - lon * (Rpi / 180)).
  destruct (getJulianCycle_Fin J lw) as [n [Hn _]]. rewrite Hn.
  rewrite getApproxSolarTransit_Fin. unfold julian2000. cbn [sub add neg].
  rewrite getSolarMeanAnomaly_Fin.
  match goal with
  | |- context [getSolarEclipticLongitude (Fin ?m)] =>
      destruct (getSolarEclipticLongitude_Fin m) as [l Hl]; rewrite Hl;
      generalize m
  end.
  intros M. clear Hl.
  rewrite getSolarTransit_Fin. rewrite e_Fin. cbn [Math.sin mul].
  pose proof obliquity_range as He.
  set (eps := Rpi / 180 * 23.4397) in *.
  assert (Hse : 0 <= sin eps) by (apply sin_ge_0; pose proof PI_RGT_0; lra).
  pose proof (SIN_bound l) as HL. pose proof (SIN_bound eps) as Hse1.
  assert (Harg : - sin eps <= sin l * sin eps <= sin eps) by (split; nra).
  rewrite asin_Fin by lra.
  set (dec := asin (sin l * sin eps)).
  set (phi := Fin (lat * (Rpi / 180))).
  set (T := 2451545 + 0.0009 + (0 + lw) / (2 * Rpi) + IZR n + 0.0053 * sin M
            + -0.0069 * sin (2 * l)).
  exists T, dec. split.
  - apply Rabs_le. apply asin_within; [lra | exact Harg].
  - cbv zeta.
    destruct (crossing_pair (getHourAngle sunsetAngle phi (Fin dec)) M l lw (IZR n)
                (hourAngle_cases _ _ _)) as [E0 M0].
    destruct (crossing_pair (getHourAngle (sunsetAngle + sunDiameter) phi (Fin dec))
                M l lw (IZR n) (hourAngle_cases _ _ _)) as [E1 M1].
    destruct (crossing_pair (getHourAngle nauticalTwilightAngle phi (Fin dec))
                M l lw (IZR n) (hourAngle_cases _ _ _)) as [E2 M2].
    destruct (crossing_pair (getHourAngle astronomicalTwilightAngle phi (Fin dec))
                M l lw (IZR n) (hourAngle_cases _ _ _)) as [E3 M3].
    destruct (crossing_pair (getHourAngle darknessAngle phi (Fin dec))
                M l lw (IZR n) (hourAngle_cases _ _ _)) as [E4 M4].
    fold T in M0, M1, M2, M3, M4, E0, E1, E2, E3, E4.
    rewrite M0, M1, M2, M3, M4, E0, E1, E2, E3, E4.
    reflexivity.
Qed.

(** X14: For a longitude between -180 and 180 degrees each threshold of
    [getSunTimes] gives an evening crossing at most half a day after the
    transit and a morning crossing as long before it, or no crossing at all
    (NaN for both). *)
Theorem sun_crossings_around_transit :
  forall (t : Z) (lat lon : R),
    -180 <= lon <= 180 ->
    let j := sunJulianDates (DateAt t) (Fin lat) (Fin lon) in
    exists T : R,
      julianTransit j = Fin T
      /\ (let around w evening morning :=
            match w with
            | Fin omega =>
                0 <= omega <= Rpi
                /\ evening = Fin (T + omega / (2 * Rpi))
                /\ morning = Fin (T - omega / (2 * Rpi))
                /\ 0 <= omega / (2 * Rpi) <= 1 / 2
            | _ => evening = NaN /\ morning = NaN
            end in
          around (w0 j) (julianSet j) (julianRise j)
          /\ around (w1 j) (julianSetStart j) (julianRiseEnd j)
          /\ around (w2 j) (julianNautical j) (julianCivil j)
          /\ around (w3 j) (julianAstro j) (julianNautical2 j)
          /\ around (w4 j) (julianDark j) (julianAsto2 j)).
Proof.
  intros t lat lon Hlon j. subst j.
  destruct (sunJulianDates_shape t lat lon) as [T [dec [_ H]]].
  rewrite H. clear H. cbv zeta.
  cbn [julianTransit w0 w1 w2 w3 w4 julianSet julianRise julianSetStart
       julianRiseEnd julianNautical julianCivil julianAstro julianNautical2
       julianDark julianAsto2].
  exists T. split; [reflexivity | ].
  assert (Hgen : forall w : number,
             w = NaN \/ (exists omega : R, w = Fin omega /\ 0 <= omega <= Rpi) ->
             match w with
             | Fin omega =>
                 0 <= omega <= Rpi
                 /\ eveningOf T w = Fin (T + omega / (2 * Rpi))
                 /\ morningOf T w = Fin (T - omega / (2 * Rpi))
                 /\ 0 <= omega / (2 * Rpi) <= 1 / 2
             | _ => eveningOf T w = NaN /\ morningOf T w = NaN
             end).
  { intros w [-> | [omega [-> Hb]]]; cbn [eveningOf morningOf].
    - split; reflexivity.
    - pose proof PI_RGT_0 as Hpi.
      split; [exact Hb | split; [reflexivity | split; [reflexivity | ] ] ].
      assert (Hq : omega / (2 * Rpi) * (2 * Rpi) = omega) by (field; lra).
      assert (0 <= omega / (2 * Rpi)).
      { apply Rmult_le_pos; [lra | apply Rlt_le, Rinv_0_lt_compat; lra]. }
      split; [assumption | nra]. }
  repeat split; apply Hgen; apply getHourAngle_NaN_or_Fin.
Qed.

Lemma sun_crossings_around_transit_witness :
  let j := sunJulianDates (DateAt 1549735200000) (Fin 40.74) (Fin 74) in
  exists T : R,
    julianTransit j = Fin T
    /\ (let around w evening morning :=
          match w with
          | Fin omega =>
              0 <= omega <= Rpi
              /\ evening = Fin (T + omega / (2 * Rpi))
              /\ morning = Fin (T - omega / (2 * Rpi))
              /\ 0 <= omega / (2 * Rpi) <= 1 / 2
          | _ => evening = NaN /\ morning = NaN
          end in
        around (w0 j) (julianSet j) (julianRise j)
        /\ around (w1 j) (julianSetStart j) (julianRiseEnd j)
        /\ around (w2 j) (julianNautical j) (julianCivil j)
        /\ around (w3 j) (julianAstro j) (julianNautical2 j)
        /\ around (w4 j) (julianDark j) (julianAsto2 j)).
Proof.
  apply (sun_crossings_around_transit 1549735200000 40.74 74). lra.
Defined.

Lemma acos_decreasing (a b : R) :
  -1 <= a -> a <= b -> b <= 1 -> acos b <= acos a.
Proof.
  intros Ha Hab Hb.
  apply Rnot_lt_le. intros C.
  pose proof (acos_bound a) as Ba. pose proof (acos_bound b) as Bb.
  assert (cos (acos b) < cos (acos a)) by (apply cos_decreasing_1; lra).
  rewrite !cos_acos in H by lra. lra.
Qed.

Lemma hourAngleCosine_Fin (h phi dec : R) :
  cos phi * cos dec <> 0 ->
  hourAngleCosine (Fin h) (Fin phi) (Fin dec)
  = Fin ((sin h - sin phi * sin dec) / (cos phi * cos dec)).
Proof.
  intros H. unfold hourAngleCosine. cbn [Math.sin Math.cos mul sub add neg].
  rewrite div_Fin by exact H. reflexivity.
Qed.

(** A lower threshold has the larger hour angle: it is crossed later in the
    evening. *)
Lemma hourAngle_monotone (ha hb phi dec : R) :
  0 < cos phi -> 0 < cos dec ->
  - (Rpi / 2) <= ha -> ha <= hb -> hb <= Rpi / 2 ->
  finLe (getHourAngle (Fin hb) (Fin phi) (Fin dec))
        (getHourAngle (Fin ha) (Fin phi) (Fin dec)).
Proof.
  intros Hphi Hdec H1 H2 H3.
  assert (Hc : 0 < cos phi * cos dec) by (apply Rmult_lt_0_compat; assumption).
  unfold getHourAngle. rewrite !hourAngleCosine_Fin by lra.
  assert (Hs : sin ha <= sin hb) by (apply sin_incr_1; lra).
  set (xa := (sin ha - sin phi * sin dec) / (cos phi * cos dec)).
  set (xb := (sin hb - sin phi * sin dec) / (cos phi * cos dec)).
  assert (Hx : xa <= xb).
  { unfold xa, xb, Rdiv. apply Rmult_le_compat_r; [ | lra].
    apply Rlt_le, Rinv_0_lt_compat. exact Hc. }
  unfold Math.acos.
  destruct (Rleb (-1) xb) eqn:Hb1; destruct (Rleb xb 1) eqn:Hb2; cbn [andb finLe];
    try exact I.
  destruct (Rleb (-1) xa) eqn:Ha1; destruct (Rleb xa 1) eqn:Ha2; cbn [andb finLe];
    try exact I.
  apply Rleb_spec in Hb1, Hb2, Ha1, Ha2.
  apply acos_decreasing; assumption.
Qed.

Lemma threshold_values :
  sunsetAngle = Fin (-0.83 * (Rpi / 180))
  /\ (sunsetAngle + sunDiameter)%num = Fin (-0.83 * (Rpi / 180) + 0.53 * (Rpi / 180))
  /\ nauticalTwilightAngle = Fin (-6 * (Rpi / 180))
  /\ astronomicalTwilightAngle = Fin (-12 * (Rpi / 180))
  /\ darknessAngle = Fin (-18 * (Rpi / 180)).
Proof.
  unfold sunsetAngle, sunDiameter, nauticalTwilightAngle, astronomicalTwilightAngle,
    darknessAngle.
  rewrite rad_Fin. repeat split.
Qed.

Lemma eveningOf_le (T : R) (w w' : number) :
  finLe w w' -> finLe (eveningOf T w) (eveningOf T w').
Proof.
  destruct w as [a | | | ], w' as [b | | | ]; cbn; try exact (fun _ => I).
  intros H. pose proof PI_RGT_0.
  assert (a / (2 * Rpi) <= b / (2 * Rpi)); [ | lra].
  unfold Rdiv. apply Rmult_le_compat_r; [ | exact H].
  apply Rlt_le, Rinv_0_lt_compat. lra.
Qed.

Lemma morningOf_le (T : R) (w w' : number) :
  finLe w w' -> finLe (morningOf T w') (morningOf T w).
Proof.
  destruct w as [a | | | ], w' as [b | | | ]; cbn; try exact (fun _ => I).
  intros H. pose proof PI_RGT_0.
  assert (a / (2 * Rpi) <= b / (2 * Rpi)); [ | lra].
  unfold Rdiv. apply Rmult_le_compat_r; [ | exact H].
  apply Rlt_le, Rinv_0_lt_compat. lra.
Qed.

Lemma julianDateToDate_not_finite (x : number) :
  is_finite x = false -> julianDateToDate x = InvalidDate.
Proof.
  unfold julianDateToDate, julian1970. rewrite dayMills_Fin.
  destruct x; cbn; try discriminate; intros _; case_tests; reflexivity.
Qed.

Lemma dateLe_invalid_r (d : Date) : dateLe d InvalidDate.
Proof. destruct d; exact I. Qed.

Lemma julianDateToDate_le (x y : number) :
  finLe x y -> dateLe (julianDateToDate x) (julianDateToDate y).
Proof.
  destruct x as [a | | | ];
    try (intros _;
         match goal with
         | |- dateLe (julianDateToDate ?v) _ =>
             rewrite (julianDateToDate_not_finite v eq_refl)
         end;
         exact I).
  destruct y as [b | | | ];
    try (intros _;
         match goal with
         | |- dateLe _ (julianDateToDate ?v) =>
             rewrite (julianDateToDate_not_finite v eq_refl)
         end;
         apply dateLe_invalid_r).
  cbn [finLe]. intros H.
  rewrite !julianDateToDate_Fin. unfold newDate.
  destruct (Rleb _ _); [ | exact I].
  destruct (Rleb _ _); [ | exact I].
  cbn [dateLe]. apply Ztrunc_le. lra.
Qed.

(** X15: Between the poles every span of [getSunTimes] runs forward: wherever both
    ends of a span are valid dates the start is not after the end, the
    morning spans end by the transit and the evening spans start from it. *)
Theorem sun_time_spans_ordered :
  forall (t : Z) (lat lon : R),
    -90 < lat < 90 ->
    let s := getSunTimes (DateAt t) (Fin lat) (Fin lon) in
    dateLe (start (astronomicalDawn s)) (end_ (astronomicalDawn s))
    /\ dateLe (start (nauticalDawn s)) (end_ (nauticalDawn s))
    /\ dateLe (start (civilDawn s)) (end_ (civilDawn s))
    /\ dateLe (start (sunrise s)) (end_ (sunrise s))
    /\ dateLe (end_ (sunrise s)) (transit s)
    /\ dateLe (transit s) (start (sunset s))
    /\ dateLe (start (sunset s)) (end_ (sunset s))
    /\ dateLe (start (civilDusk s)) (end_ (civilDusk s))
    /\ dateLe (start (nauticalDusk s)) (end_ (nauticalDusk s))
    /\ dateLe (start (astronomicalDusk s)) (end_ (astronomicalDusk s)).
Proof.
  intros t lat lon Hlat s. subst s. unfold getSunTimes.
  destruct (sunJulianDates_shape t lat lon) as [T [dec [Hdec H]]].
  rewrite H. clear H. cbv zeta.
  cbn [start end_ sunrise civilDawn nauticalDawn astronomicalDawn sunset civilDusk
       nauticalDusk astronomicalDusk transit
       julianTransit julianSet julianRise julianSetStart
       julianRiseEnd julianNautical julianCivil julianAstro julianNautical2
       julianDark julianAsto2].
  destruct threshold_values as [E0 [E1 [E2 [E3 E4]]]].
  rewrite E1, E0, E2, E3, E4.
  pose proof PI_RGT_0 as Hpi. pose proof obliquity_range as Heps.
  apply Rabs_le_elim in Hdec.
  assert (Hcphi : 0 < cos (lat * (Rpi / 180))) by (apply cos_gt_0; nra).
  assert (Hcdec : 0 < cos dec) by (apply cos_gt_0; lra).
  set (phi := lat * (Rpi / 180)) in *.
  set (W := fun h : R => getHourAngle (Fin h) (Fin phi) (Fin dec)).
  assert (Hmono : forall ha hb : R,
             - (Rpi / 2) <= ha -> ha <= hb -> hb <= Rpi / 2 ->
             finLe (W hb) (W ha)).
  { intros ha hb H1 H2 H3. apply hourAngle_monotone; assumption. }
  assert (Hnonneg : forall h : R, finLe (Fin 0) (W h)).
  { intros h. unfold W.
    destruct (getHourAngle_NaN_or_Fin (Fin h) (Fin phi) (Fin dec))
      as [-> | [w [-> Hw]]]; cbn; [exact I | lra]. }
  assert (Hev0 : forall h : R, finLe (Fin T) (eveningOf T (W h))).
  { intros h. specialize (Hnonneg h). destruct (W h); cbn in *; try exact I.
    assert (0 <= r / (2 * Rpi)); [ | lra].
    apply Rmult_le_pos; [lra | apply Rlt_le, Rinv_0_lt_compat; lra]. }
  assert (Hmo0 : forall h : R, finLe (morningOf T (W h)) (Fin T)).
  { intros h. specialize (Hnonneg h). destruct (W h); cbn in *; try exact I.
    assert (0 <= r / (2 * Rpi)); [ | lra].
    apply Rmult_le_pos; [lra | apply Rlt_le, Rinv_0_lt_compat; lra]. }
  fold (W (-0.83 * (Rpi / 180))).
  fold (W (-0.83 * (Rpi / 180) + 0.53 * (Rpi / 180))).
  fold (W (-6 * (Rpi / 180))). fold (W (-12 * (Rpi / 180))).
  fold (W (-18 * (Rpi / 180))).
  repeat split; apply julianDateToDate_le;
    first [ apply Hev0 | apply Hmo0
          | apply eveningOf_le; apply Hmono; lra
          | apply morningOf_le; apply Hmono; lra ].
Qed.

Lemma sun_time_spans_ordered_witness :
  let s := getSunTimes (DateAt 1549735200000) (Fin 40.74) (Fin 74) in
  dateLe (start (astronomicalDawn s)) (end_ (astronomicalDawn s))
  /\ dateLe (start (nauticalDawn s)) (end_ (nauticalDawn s))
  /\ dateLe (start (civilDawn s)) (end_ (civilDawn s))
  /\ dateLe (start (sunrise s)) (end_ (sunrise s))
  /\ dateLe (end_ (sunrise s)) (transit s)
  /\ dateLe (transit s) (start (sunset s))
  /\ dateLe (start (sunset s)) (end_ (sunset s))
  /\ dateLe (start (civilDusk s)) (end_ (civilDusk s))
  /\ dateLe (start (nauticalDusk s)) (end_ (nauticalDusk s))
  /\ dateLe (start (astronomicalDusk s)) (end_ (astronomicalDusk s)).
Proof.
  apply (sun_time_spans_ordered 1549735200000 40.74 74). lra.
Defined.

Lemma hourAngle_defined (h phi dec : R) :
  Rabs h <= 0.4 -> Rabs phi <= Rpi / 6 -> Rabs dec <= Rpi / 180 * 23.4397 ->
  exists omega : R,
    getHourAngle (Fin h) (Fin phi) (Fin dec) = Fin omega /\ 0 <= omega <= Rpi.
Proof.
  intros Hh Hphi Hdec.
  pose proof PI_RGT_0 as Hpi. pose proof PI_4 as Hpi4.
  assert (Hsh : Rabs (sin h) <= 0.4) by (eapply Rle_trans; [apply sin_abs_le | exact Hh]).
  assert (Hsd : Rabs (sin dec) <= 0.521).
  { eapply Rle_trans; [apply sin_abs_le | ]. lra. }
  apply Rabs_le_elim in Hh, Hphi, Hdec, Hsh, Hsd.
  assert (Hsp : -1 / 2 <= sin phi <= 1 / 2).
  { assert (Hup1 : sin phi <= sin (Rpi / 6)) by (apply sin_incr_1; lra).
    assert (Hlo1 : sin (- (Rpi / 6)) <= sin phi) by (apply sin_incr_1; lra).
    rewrite sin_neg in Hlo1. rewrite sin_PI6 in Hup1, Hlo1. lra. }
  assert (Hcp : 0 < cos phi) by (apply cos_gt_0; lra).
  assert (Hcd : 0 < cos dec) by (apply cos_gt_0; lra).
  pose proof (sin_cos_unit phi) as Hup. pose proof (sin_cos_unit dec) as Hud.
  assert (Hcp' : 0.86 <= cos phi) by nra.
  assert (Hcd' : 0.85 <= cos dec) by nra.
  assert (Hc : 0.731 <= cos phi * cos dec) by nra.
  assert (Hn : -0.6605 <= sin h - sin phi * sin dec <= 0.6605) by (split; nra).
  unfold getHourAngle. rewrite hourAngleCosine_Fin by lra.
  set (x := (sin h - sin phi * sin dec) / (cos phi * cos dec)).
  assert (Hx : -1 <= x <= 1).
  { assert (Hq : x * (cos phi * cos dec) = sin h - sin phi * sin dec)
      by (unfold x; field; lra).
    split; nra. }
  rewrite acos_Fin by exact Hx.
  eexists. split; [reflexivity | apply acos_bound].
Qed.

(** X16: Between 30 degrees south and 30 degrees north every threshold is crossed
    on every day: the five hour angles are finite, in the order of the
    thresholds, so that all the Julian dates of [getSunTimes] are finite. *)
Theorem low_latitudes_cross_every_threshold :
  forall (t : Z) (lat lon : R),
    -30 <= lat <= 30 ->
    let j := sunJulianDates (DateAt t) (Fin lat) (Fin lon) in
    exists a1 a0 a2 a3 a4 : R,
      w1 j = Fin a1 /\ w0 j = Fin a0 /\ w2 j = Fin a2 /\ w3 j = Fin a3
      /\ w4 j = Fin a4
      /\ 0 <= a1 /\ a1 <= a0 /\ a0 <= a2 /\ a2 <= a3 /\ a3 <= a4 /\ a4 <= Rpi.
Proof.
  intros t lat lon Hlat j. subst j.
  destruct (sunJulianDates_shape t lat lon) as [T [dec [Hdec H]]].
  rewrite H. clear H. cbv zeta. cbn [w0 w1 w2 w3 w4].
  destruct threshold_values as [E0 [E1 [E2 [E3 E4]]]].
  rewrite E1, E0, E2, E3, E4.
  pose proof PI_RGT_0 as Hpi. pose proof PI_4 as Hpi4.
  pose proof obliquity_range as Heps.
  set (phi := lat * (Rpi / 180)) in *.
  assert (Hphi : Rabs phi <= Rpi / 6) by (apply Rabs_le; unfold phi; split; nra).
  assert (Hcphi : 0 < cos phi).
  { apply Rabs_le_elim in Hphi. apply cos_gt_0; lra. }
  assert (Hcdec : 0 < cos dec).
  { pose proof (Rabs_le_elim _ _ Hdec). apply cos_gt_0; lra. }
  assert (Hh : forall c : R, -18 <= c <= 0 -> Rabs (c * (Rpi / 180)) <= 0.4)
    by (intros c Hc; apply Rabs_le; split; nra).
  destruct (hourAngle_defined (-0.83 * (Rpi / 180) + 0.53 * (Rpi / 180)) phi dec)
    as [a1 [H1 B1]]; [ | exact Hphi | exact Hdec | ].
  { replace (-0.83 * (Rpi / 180) + 0.53 * (Rpi / 180)) with (-0.3 * (Rpi / 180))
      by lra.
    apply Hh. lra. }
  destruct (hourAngle_defined (-0.83 * (Rpi / 180)) phi dec)
    as [a0 [H0 B0]]; [apply Hh; lra | exact Hphi | exact Hdec | ].
  destruct (hourAngle_defined (-6 * (Rpi / 180)) phi dec)
    as [a2 [H2 B2]]; [apply Hh; lra | exact Hphi | exact Hdec | ].
  destruct (hourAngle_defined (-12 * (Rpi / 180)) phi dec)
    as [a3 [H3 B3]]; [apply Hh; lra | exact Hphi | exact Hdec | ].
  destruct (hourAngle_defined (-18 * (Rpi / 180)) phi dec)
    as [a4 [H4 B4]]; [apply Hh; lra | exact Hphi | exact Hdec | ].
  pose proof (hourAngle_monotone (-0.83 * (Rpi / 180))
                (-0.83 * (Rpi / 180) + 0.53 * (Rpi / 180)) phi dec Hcphi Hcdec) as M10.
  pose proof (hourAngle_monotone (-6 * (Rpi / 180)) (-0.83 * (Rpi / 180))
                phi dec Hcphi Hcdec) as M02.
  pose proof (hourAngle_monotone (-12 * (Rpi / 180)) (-6 * (Rpi / 180))
                phi dec Hcphi Hcdec) as M23.
  pose proof (hourAngle_monotone (-18 * (Rpi / 180)) (-12 * (Rpi / 180))
                phi dec Hcphi Hcdec) as M34.
  rewrite H0, H1 in M10. rewrite H0, H2 in M02. rewrite H2, H3 in M23.
  rewrite H3, H4 in M34. cbn [finLe] in M10, M02, M23, M34.
  exists a1, a0, a2, a3, a4.
  repeat split; try assumption; try lra;
    first [apply M10 | apply M02 | apply M23 | apply M34]; lra.
Qed.

Lemma low_latitudes_cross_every_threshold_witness :
  exists a1 a0 a2 a3 a4 : R,
    w1 (sunJulianDates (DateAt 1549735200000) (Fin 0) (Fin 0)) = Fin a1
    /\ w0 (sunJulianDates (DateAt 1549735200000) (Fin 0) (Fin 0)) = Fin a0
    /\ w2 (sunJulianDates (DateAt 1549735200000) (Fin 0) (Fin 0)) = Fin a2
    /\ w3 (sunJulianDates (DateAt 1549735200000) (Fin 0) (Fin 0)) = Fin a3
    /\ w4 (sunJulianDates (DateAt 1549735200000) (Fin 0) (Fin 0)) = Fin a4
    /\ 0 <= a1 /\ a1 <= a0 /\ a0 <= a2 /\ a2 <= a3 /\ a3 <= a4 /\ a4 <= Rpi.
Proof.
  apply (low_latitudes_cross_every_threshold 1549735200000 0 0). lra.
Defined.

(* ================================================================== *)
(** * Shifting dates *)
(* ================================================================== *)

(** X17: Shifting by a whole number of hours adds 3 600 000 ms for each hour, and
    two such shifts add up; the Julian date moves by a twenty-fourth per
    hour. *)
Theorem hoursShift_whole_hours :
  forall t a b : Z,
    (Z.abs (t + 3600000 * a) <= TimeValue.maxTime)%Z ->
    (Z.abs (t + 3600000 * (a + b)) <= TimeValue.maxTime)%Z ->
    hoursShift (DateAt t) (Fin (IZR a)) = DateAt (t + 3600000 * a)
    /\ hoursShift (hoursShift (DateAt t) (Fin (IZR a))) (Fin (IZR b))
       = hoursShift (DateAt t) (Fin (IZR (a + b)))
    /\ toJulian (hoursShift (DateAt t) (Fin (IZR a)))
       = (toJulian (DateAt t) + Fin (IZR a / 24))%num.
Proof.
  intros t a b Ha Hab.
  assert (Hshift : forall h : Z,
             (Z.abs (t + 3600000 * h) <= TimeValue.maxTime)%Z ->
             hoursShift (DateAt t) (Fin (IZR h)) = DateAt (t + 3600000 * h)).
  { intros h Hh. unfold hoursShift. rewrite dayMills_Fin. cbn [valueOf mul].
    rewrite div_Fin by lra. cbn [add].
    replace (IZR t + IZR h * 86400000 / 24) with (IZR (t + 3600000 * h))
      by (rewrite plus_IZR, mult_IZR; lra).
    apply newDate_IZR. exact Hh. }
  rewrite (Hshift a Ha). split; [reflexivity | split].
  - rewrite (Hshift (a + b)%Z Hab).
    unfold hoursShift. rewrite dayMills_Fin. cbn [valueOf mul].
    rewrite div_Fin by lra. cbn [add].
    replace (IZR (t + 3600000 * a) + IZR b * 86400000 / 24)
      with (IZR (t + 3600000 * (a + b)))
      by (rewrite !plus_IZR, !mult_IZR, plus_IZR; lra).
    apply newDate_IZR. exact Hab.
  - rewrite !toJulian_Fin. cbn [add]. f_equal.
    rewrite plus_IZR, mult_IZR. lra.
Qed.

Lemma hoursShift_whole_hours_witness :
  hoursShift (DateAt 1549670400000) (Fin (IZR 1)) = DateAt (1549670400000 + 3600000 * 1)
  /\ hoursShift (hoursShift (DateAt 1549670400000) (Fin (IZR 1))) (Fin (IZR 2))
     = hoursShift (DateAt 1549670400000) (Fin (IZR (1 + 2)))
  /\ toJulian (hoursShift (DateAt 1549670400000) (Fin (IZR 1)))
     = (toJulian (DateAt 1549670400000) + Fin (IZR 1 / 24))%num.
Proof.
  apply (hoursShift_whole_hours 1549670400000 1 2); vm_compute; discriminate.
Defined.

(* ================================================================== *)
(** * [getMoonTimes] depends on the day only *)
(* ================================================================== *)

Lemma setHours_UTC_day (t : Z) :
  setHours UTCZone (DateAt t) 0 0 0 0
  = TimeValue.TimeClip (TimeValue.Day t * TimeValue.msPerDay).
Proof.
  unfold setHours, TimeValue.LocalTime, TimeValue.UTC, UTCZone, TimeValue.MakeDate,
    TimeValue.MakeTime.
  f_equal. replace (t + 0)%Z with t by lia. lia.
Qed.

(** X18: In a UTC environment two instants of the same day give the same result
    and leave the [Date] object in the same state: what [getMoonTimes]
    returns is a function of the calendar day. *)
Theorem getMoonTimes_same_day :
  forall (t1 t2 : Z) (lat lon : number),
    TimeValue.Day t1 = TimeValue.Day t2 ->
    Index.getMoonTimes UTCZone (DateAt t1) lat lon
    = Index.getMoonTimes UTCZone (DateAt t2) lat lon
    /\ Part001.getMoonTimes UTCZone (DateAt t1) lat lon
       = Part001.getMoonTimes UTCZone (DateAt t2) lat lon.
Proof.
  intros t1 t2 lat lon Hday.
  unfold Index.getMoonTimes, Part001.getMoonTimes.
  rewrite !setHours_UTC_day, Hday. split; reflexivity.
Qed.

Lemma getMoonTimes_same_day_witness :
  Index.getMoonTimes UTCZone (DateAt 1549735200000) (Fin 40.74) (Fin 74)
  = Index.getMoonTimes UTCZone (DateAt 1549670400000) (Fin 40.74) (Fin 74)
  /\ Part001.getMoonTimes UTCZone (DateAt 1549735200000) (Fin 40.74) (Fin 74)
     = Part001.getMoonTimes UTCZone (DateAt 1549670400000) (Fin 40.74) (Fin 74).
Proof.
  apply (getMoonTimes_same_day 1549735200000 1549670400000).
  vm_compute. reflexivity.
Defined.

(* ================================================================== *)
(** * [normalize] and the zodiac table *)
(* ================================================================== *)



(** X20: The zodiac lookup on a finite longitude: it returns the sign of the one
    entry whose 30-degree range holds the longitude, which exists exactly for
    longitudes of [[0,360)]; on any other longitude it throws. *)
Theorem zodiac_sign_of_longitude :
  forall L : R,
    match Part001.zodiacLookup (Fin L) with
    | Returns s =>
        0 <= L < 360
        /\ exists (zodiac : Part001.Zodiac) (lo : R),
             Part001.zodiacMatches (Fin L) = [zodiac]
             /\ In zodiac (map snd Part001.zodiacs)
             /\ Part001.sign zodiac = s
             /\ Part001.long zodiac = Fin lo /\ lo <= L < lo + 30
    | Throws _ => L < 0 \/ 360 <= L
    end.
Proof.
  intros L.
  destruct (Rlt_dec L 0) as [Hneg | Hpos].
  { rewrite zodiacLookup_outside by (left; exact Hneg). left. exact Hneg. }
  destruct (Rle_dec 360 L) as [Hbig | Hsmall].
  { rewrite zodiacLookup_outside by (right; exact Hbig). right. exact Hbig. }
  assert (H : 0 <= L < 360) by lra.
  unfold Part001.zodiacLookup, Part001.zodiacMatches, Part001.zodiacs.
  cbn [map snd].
  assert (Hcase : L < 30 \/ 30 <= L < 60 \/ 60 <= L < 90 \/ 90 <= L < 120
                  \/ 120 <= L < 150 \/ 150 <= L < 180 \/ 180 <= L < 210
                  \/ 210 <= L < 240 \/ 240 <= L < 270 \/ 270 <= L < 300
                  \/ 300 <= L < 330 \/ 330 <= L).
  { destruct (Rlt_dec L 30); [tauto | ].
    destruct (Rlt_dec L 60); [right; left; lra | ].
    destruct (Rlt_dec L 90); [do 2 right; left; lra | ].
    destruct (Rlt_dec L 120); [do 3 right; left; lra | ].
    destruct (Rlt_dec L 150); [do 4 right; left; lra | ].
    destruct (Rlt_dec L 180); [do 5 right; left; lra | ].
    destruct (Rlt_dec L 210); [do 6 right; left; lra | ].
    destruct (Rlt_dec L 240); [do 7 right; left; lra | ].
    destruct (Rlt_dec L 270); [do 8 right; left; lra | ].
    destruct (Rlt_dec L 300); [do 9 right; left; lra | ].
    destruct (Rlt_dec L 330); [do 10 right; left; lra | ].
    do 11 right. lra. }
  repeat destruct Hcase as [Hcase | Hcase];
    filter_table;
    (split; [exact H | ]);
    eexists; eexists;
    (split; [reflexivity | ]);
    (split; [cbn [In]; tauto | ]);
    (split; [reflexivity | ]);
    (split; [reflexivity | lra]).
Qed.

(* ================================================================== *)
(** * The day number of [part_001] *)
(* ================================================================== *)

Lemma Zfloor_div_IZR (a b : Z) :
  (0 < b)%Z -> Zfloor (IZR a / IZR b) = (a / b)%Z.
Proof.
  intros Hb. apply Zfloor_eq.
  pose proof (Z.div_mod a b ltac:(lia)) as Hdm.
  pose proof (Z.mod_pos_bound a b Hb) as Hm.
  assert (Hb' : 0 < IZR b) by (apply (IZR_lt 0); exact Hb).
  assert (Ha : IZR a = IZR b * IZR (a / b) + IZR (a mod b))
    by (rewrite <- mult_IZR, <- plus_IZR; f_equal; exact Hdm).
  assert (H0 : 0 <= IZR (a mod b)) by (apply (IZR_le 0); lia).
  assert (H1 : IZR (a mod b) < IZR b) by (apply IZR_lt; lia).
  split.
  - apply (Rmult_le_reg_r (IZR b)); [exact Hb' | ].
    unfold Rdiv. rewrite Rmult_assoc, Rinv_l by lra. nra.
  - apply (Rmult_lt_reg_r (IZR b)); [exact Hb' | ].
    unfold Rdiv. rewrite Rmult_assoc, Rinv_l by lra. nra.
Qed.

Lemma floor_quotient (r : R) (a b : Z) :
  (0 < b)%Z -> r = IZR a / IZR b -> Math.floor (Fin r) = Fin (IZR (a / b)).
Proof.
  intros Hb ->. unfold Math.floor. rewrite (Zfloor_div_IZR a b Hb). reflexivity.
Qed.

Lemma Rleb_IZR (a b : Z) : Rleb (IZR a) (IZR b) = (a <=? b)%Z.
Proof.
  destruct (Z.leb_spec a b) as [H | H].
  - apply Rleb_true. apply IZR_le. exact H.
  - apply Rleb_false. apply IZR_lt. exact H.
Qed.

Lemma Rltb_IZR (a b : Z) : Rltb (IZR a) (IZR b) = (a <? b)%Z.
Proof.
  destruct (Z.ltb_spec a b) as [H | H].
  - apply Rltb_true. apply IZR_lt. exact H.
  - apply Rltb_false. apply IZR_le. exact H.
Qed.

(** The floating-point text of [calendarDayNumber] computes, on every valid
    date, the integer that [dayNumberZ] gives on its calendar fields. *)
Lemma calendarDayNumber_integral (tz : TimeZone) (t : Z) :
  Part001.calendarDayNumber tz (DateAt t)
  = Fin (IZR (dayNumberZ
                (TimeValue.YearFromTime (TimeValue.LocalTime tz t))
                (TimeValue.MonthFromTime (TimeValue.LocalTime tz t))
                (TimeValue.DateFromTime (TimeValue.LocalTime tz t)))).
Proof.
  unfold Part001.calendarDayNumber, getFullYear, getMonth, getDate, dayNumberZ.
  generalize (TimeValue.YearFromTime (TimeValue.LocalTime tz t)).
  generalize (TimeValue.MonthFromTime (TimeValue.LocalTime tz t)).
  generalize (TimeValue.DateFromTime (TimeValue.LocalTime tz t)).
  intros D M Y. cbv zeta.
  set (q := ((12 - (M + 1)) / 10)%Z).
  set (mm := if (12 <=? M + 1 + 9)%Z then (M + 1 + 9 - 12)%Z else (M + 1 + 9)%Z).
  set (k1 := ((1461 * (Y - q + 4712)) / 4)%Z).
  set (k2 := ((306 * mm + 5) / 10)%Z).
  set (k3 := ((3 * ((Y - q) / 100 + 49)) / 4)%Z).
  assert (Hyy : (Fin (IZR Y)
                 - Math.floor ((Fin 12 - (Fin (IZR M) + Fin 1)) / Fin 10))%num
                = Fin (IZR (Y - q))).
  { cbn [add sub neg]. rewrite (div_Fin _ 10) by lra.
    rewrite (floor_quotient _ (12 - (M + 1)) 10)
      by (try lia; rewrite minus_IZR, plus_IZR; lra).
    fold q. cbn [add neg]. rewrite minus_IZR. f_equal. }
  assert (Hmm : (if (Fin (IZR M) + Fin 1 + Fin 9 >=? Fin 12)%num
                 then (Fin (IZR M) + Fin 1 + Fin 9 - Fin 12)%num
                 else (Fin (IZR M) + Fin 1 + Fin 9)%num)
                = Fin (IZR mm)).
  { cbn [add sub neg geb leb].
    replace (IZR M + 1 + 9) with (IZR (M + 1 + 9)) by (rewrite !plus_IZR; lra).
    rewrite (Rleb_IZR 12 (M + 1 + 9)). unfold mm.
    destruct (12 <=? M + 1 + 9)%Z; [rewrite minus_IZR | ]; reflexivity. }
  rewrite !Hyy, !Hmm.
  assert (Hk1 : Math.floor (Fin 365.25 * (Fin (IZR (Y - q)) + Fin 4712))%num
                = Fin (IZR k1)).
  { cbn [add mul].
    apply (floor_quotient _ (1461 * (Y - q + 4712)) 4);
      [lia | rewrite mult_IZR, plus_IZR; lra]. }
  assert (Hk2 : Math.floor (Fin 30.6 * Fin (IZR mm) + Fin 0.5)%num = Fin (IZR k2)).
  { cbn [add mul].
    apply (floor_quotient _ (306 * mm + 5) 10);
      [lia | rewrite plus_IZR, mult_IZR; lra]. }
  assert (Hk3 : (Math.floor
                   (Math.floor (Fin (IZR (Y - q)) / Fin 100 + Fin 49) * Fin 0.75)
                 - Fin 38)%num
                = Fin (IZR (k3 - 38))).
  { rewrite (div_Fin _ 100) by lra. cbn [add].
    replace (IZR (Y - q) / 100 + 49) with (IZR (Y - q) / IZR 100 + IZR 49) by lra.
    unfold Math.floor at 2. rewrite Zfloor_addz, (Zfloor_div_IZR _ 100) by lia.
    cbn [mul].
    rewrite (floor_quotient _ (3 * ((Y - q) / 100 + 49)) 4)
      by (try lia; rewrite mult_IZR; lra).
    fold k3. cbn [sub add neg]. rewrite minus_IZR. f_equal. }
  rewrite !Hk1, !Hk2, !Hk3.
  cbn [add sub neg gtb ltb].
  replace (IZR k1 + IZR k2 + IZR D + 59) with (IZR (k1 + k2 + D + 59))
    by (rewrite !plus_IZR; lra).
  rewrite (Rltb_IZR 2299160 (k1 + k2 + D + 59)).
  destruct (2299160 <? k1 + k2 + D + 59)%Z.
  - f_equal. rewrite !minus_IZR. lra.
  - reflexivity.
Qed.

Lemma Day_of_day_start (t : Z) :
  TimeValue.Day (TimeValue.Day t * TimeValue.msPerDay) = TimeValue.Day t.
Proof. unfold TimeValue.Day. apply Z.div_mul. discriminate. Qed.

Ltac month_case m s :=
  exists m, s; split; [cbn [In]; tauto | ];
  split; [reflexivity | split; [lia | intros; lia]].

(** The months of a year as [MonthFromTime] cuts them: the number of the
    month and the day of the year on which it starts. *)
Lemma month_and_date (t dw leap : Z) :
  TimeValue.DayWithinYear t = dw -> TimeValue.InLeapYear t = leap ->
  exists m s : Z,
    In (m, s) [(0, 0); (1, 31); (2, 59 + leap); (3, 90 + leap); (4, 120 + leap);
               (5, 151 + leap); (6, 181 + leap); (7, 212 + leap); (8, 243 + leap);
               (9, 273 + leap); (10, 304 + leap); (11, 334 + leap)]%Z
    /\ TimeValue.MonthFromTime t = m
    /\ TimeValue.DateFromTime t = (dw - s + 1)%Z
    /\ ((0 <= dw)%Z -> (s <= dw)%Z).
Proof.
  intros Hdw Hleap.
  assert (HM : TimeValue.MonthFromTime t
               = (if dw <? 31 then 0
                  else if dw <? 59 + leap then 1
                  else if dw <? 90 + leap then 2
                  else if dw <? 120 + leap then 3
                  else if dw <? 151 + leap then 4
                  else if dw <? 181 + leap then 5
                  else if dw <? 212 + leap then 6
                  else if dw <? 243 + leap then 7
                  else if dw <? 273 + leap then 8
                  else if dw <? 304 + leap then 9
                  else if dw <? 334 + leap then 10
                  else 11)%Z)
    by (unfold TimeValue.MonthFromTime; rewrite Hdw, Hleap; reflexivity).
  unfold TimeValue.DateFromTime. rewrite Hdw, Hleap, HM. cbv zeta.
  clear HM Hdw Hleap.
  destruct (Z.ltb_spec dw 31); [month_case 0%Z 0%Z | ].
  destruct (Z.ltb_spec dw (59 + leap)); [month_case 1%Z 31%Z | ].
  destruct (Z.ltb_spec dw (90 + leap)); [month_case 2%Z (59 + leap)%Z | ].
  destruct (Z.ltb_spec dw (120 + leap)); [month_case 3%Z (90 + leap)%Z | ].
  destruct (Z.ltb_spec dw (151 + leap)); [month_case 4%Z (120 + leap)%Z | ].
  destruct (Z.ltb_spec dw (181 + leap)); [month_case 5%Z (151 + leap)%Z | ].
  destruct (Z.ltb_spec dw (212 + leap)); [month_case 6%Z (181 + leap)%Z | ].
  destruct (Z.ltb_spec dw (243 + leap)); [month_case 7%Z (212 + leap)%Z | ].
  destruct (Z.ltb_spec dw (273 + leap)); [month_case 8%Z (243 + leap)%Z | ].
  destruct (Z.ltb_spec dw (304 + leap)); [month_case 9%Z (273 + leap)%Z | ].
  destruct (Z.ltb_spec dw (334 + leap)); [month_case 10%Z (304 + leap)%Z | ].
  month_case 11%Z (334 + leap)%Z.
Qed.

(** Past the threshold the day number grows by one with the day of the
    month. *)
Lemma dayNumberZ_linear (y m D A : Z) :
  dayNumberZ y m 1 = A -> (2299160 < A)%Z -> (1 <= D)%Z ->
  dayNumberZ y m D = (A + D - 1)%Z.
Proof.
  unfold dayNumberZ. cbv zeta.
  set (yy := (y - (12 - (m + 1)) / 10)%Z).
  set (mm := (if (12 <=? m + 1 + 9)%Z then (m + 1 + 9 - 12)%Z else (m + 1 + 9)%Z)).
  set (k1 := ((1461 * (yy + 4712)) / 4)%Z).
  set (k2 := ((306 * mm + 5) / 10)%Z).
  set (k3 := ((3 * (yy / 100 + 49)) / 4 - 38)%Z).
  intros H1 HA HD.
  destruct (Z.ltb_spec 2299160 (k1 + k2 + 1 + 59));
    destruct (Z.ltb_spec 2299160 (k1 + k2 + D + 59)); lia.
Qed.

(** What the years 1583 to 3999 show when they are evaluated one by one:
    the length of the year, the estimate of [YearFromTime] at its two ends,
    and the day number of the first of each month. *)
Lemma calendar_years_1583_3999 :
  forallb
    (fun y : Z =>
       let F := TimeValue.DayFromYear y in
       let G := TimeValue.DayFromYear (y + 1) in
       let leap := (if TimeValue.DaysInYear y =? 366 then 1 else 0)%Z in
       (G - F =? 365 + leap)%Z
       && (y - 1 <=? 1970 + F * 10000 / 3652425)%Z
       && (1970 + (G - 1) * 10000 / 3652425 <=? y + 1)%Z
       && (TimeValue.DayFromYear (y - 1) <=? F)%Z
       && (-141349 <=? F)%Z
       && forallb (fun ms : Z * Z =>
                     (dayNumberZ y (fst ms) 1 =? F + snd ms + 2440588)%Z)
            [(0, 0); (1, 31); (2, 59 + leap); (3, 90 + leap); (4, 120 + leap);
             (5, 151 + leap); (6, 181 + leap); (7, 212 + leap); (8, 243 + leap);
             (9, 273 + leap); (10, 304 + leap); (11, 334 + leap)]%Z)
    (map (fun n : nat => (1583 + Z.of_nat n)%Z) (seq 0 2417))
  = true.
Proof. vm_compute. reflexivity. Qed.

Lemma year_of_day (d : Z) (n : nat) :
  (TimeValue.DayFromYear 1583 <= d < TimeValue.DayFromYear (1583 + Z.of_nat n))%Z ->
  exists k : nat,
    (k < n)%nat
    /\ (TimeValue.DayFromYear (1583 + Z.of_nat k) <= d
        < TimeValue.DayFromYear (1583 + Z.of_nat k + 1))%Z.
Proof.
  induction n as [ | n IH]; intros [Hlo Hhi].
  - replace (1583 + Z.of_nat 0)%Z with 1583%Z in Hhi by lia. lia.
  - destruct (Z_lt_dec d (TimeValue.DayFromYear (1583 + Z.of_nat n))) as [Hlt | Hge].
    + destruct (IH (conj Hlo Hlt)) as [k [Hk Hd]]. exists k. split; [lia | exact Hd].
    + exists n. split; [lia | ].
      replace (1583 + Z.of_nat n + 1)%Z with (1583 + Z.of_nat (S n))%Z by lia. lia.
Qed.

(** From 1 January 1583 to 31 December 3999 the calendar fields of a time
    value give, through the arithmetic of [getMoonCoords], the Julian Day
    Number of its day. *)
Lemma dayNumberZ_julian (t : Z) :
  (-141349 <= TimeValue.Day t <= 741441)%Z ->
  dayNumberZ (TimeValue.YearFromTime t) (TimeValue.MonthFromTime t)
             (TimeValue.DateFromTime t)
  = julianDayNumber t.
Proof.
  intros Hrange. unfold julianDayNumber.
  destruct (year_of_day (TimeValue.Day t) 2417) as [k [Hk [Hlo Hhi]]].
  { replace (TimeValue.DayFromYear 1583) with (-141349)%Z by (vm_compute; reflexivity).
    replace (TimeValue.DayFromYear (1583 + Z.of_nat 2417)) with 741442%Z
      by (vm_compute; reflexivity).
    lia. }
  pose proof calendar_years_1583_3999 as Hall.
  rewrite forallb_forall in Hall.
  specialize (Hall (1583 + Z.of_nat k)%Z).
  assert (Hin : In (1583 + Z.of_nat k)%Z
                  (map (fun n : nat => (1583 + Z.of_nat n)%Z) (seq 0 2417)))
    by (apply in_map_iff; exists k; split; [reflexivity | apply in_seq; lia]).
  specialize (Hall Hin). clear Hin Hk Hrange.
  set (y := (1583 + Z.of_nat k)%Z) in *. clearbody y. clear k.
  cbv zeta in Hall.
  set (F := TimeValue.DayFromYear y) in *.
  set (G := TimeValue.DayFromYear (y + 1)) in *.
  set (leap := (if TimeValue.DaysInYear y =? 366 then 1 else 0)%Z) in *.
  rewrite !andb_true_iff in Hall.
  destruct Hall as [[[[[Hlen He1] He2] Hprev] Hfirst] Hmonths].
  apply Z.eqb_eq in Hlen. apply Z.leb_le in He1, He2, Hprev, Hfirst.
  assert (Hleap : (0 <= leap <= 1)%Z)
    by (unfold leap; destruct (TimeValue.DaysInYear y =? 366)%Z; lia).
  assert (HY : TimeValue.YearFromTime t = y).
  { unfold TimeValue.YearFromTime. cbv zeta.
    set (d := TimeValue.Day t) in *.
    set (e := (1970 + d * 10000 / 3652425)%Z).
    assert (He : (y - 1 <= e <= y + 1)%Z).
    { unfold e. split.
      - apply Z.le_trans with (1 := He1). apply Z.add_le_mono_l.
        apply Z.div_le_mono; lia.
      - apply Z.le_trans with (2 := He2). apply Z.add_le_mono_l.
        apply Z.div_le_mono; lia. }
    assert (Hcases : e = (y - 1)%Z \/ e = y \/ e = (y + 1)%Z) by lia.
    destruct Hcases as [-> | [-> | ->]].
    - replace (y - 1 + 1)%Z with y by lia. fold F.
      destruct (Z.ltb_spec d (TimeValue.DayFromYear (y - 1))); [lia | ].
      destruct (Z.leb_spec F d); lia.
    - fold F G.
      destruct (Z.ltb_spec d F); [lia | ].
      destruct (Z.leb_spec G d); lia.
    - fold G.
      destruct (Z.ltb_spec d G); lia. }
  assert (Hdw : TimeValue.DayWithinYear t = (TimeValue.Day t - F)%Z)
    by (unfold TimeValue.DayWithinYear; rewrite HY; reflexivity).
  assert (HL : TimeValue.InLeapYear t = leap)
    by (unfold TimeValue.InLeapYear; rewrite HY; reflexivity).
  destruct (month_and_date t _ _ Hdw HL) as [m [s [Hms [HM [HD Hs]]]]].
  rewrite HY, HM, HD.
  rewrite forallb_forall in Hmonths. specialize (Hmonths (m, s) Hms).
  cbn [fst snd] in Hmonths. apply Z.eqb_eq in Hmonths.
  assert (Hs0 : (0 <= s)%Z)
    by (cbn [In] in Hms;
        repeat (destruct Hms as [Hms | Hms];
                [apply (f_equal snd) in Hms; cbn [snd] in Hms; lia | ]);
        contradiction).
  rewrite (dayNumberZ_linear y m _ _ Hmonths) by lia.
  lia.
Qed.

(** X21: On every date whose local calendar day lies between 1 January 1583 and
    31 December 3999, the day number that [getMoonCoords] of [part_001]
    computes from the year, the month and the day of the month is the Julian
    Day Number of that day: a whole number, the same for every instant of the
    day. *)
Theorem calendarDayNumber_is_julian_day_number :
  forall (tz : TimeZone) (t : Z),
    (-141349 <= TimeValue.Day (TimeValue.LocalTime tz t) <= 741441)%Z ->
    Part001.calendarDayNumber tz (DateAt t)
    = Fin (IZR (julianDayNumber (TimeValue.LocalTime tz t))).
Proof.
  intros tz t Hrange. rewrite calendarDayNumber_integral.
  rewrite (dayNumberZ_julian _ Hrange). reflexivity.
Qed.

Lemma calendarDayNumber_is_julian_day_number_witness :
  Part001.calendarDayNumber UTCZone (DateAt 1549735200000)
  = Fin (IZR (julianDayNumber (TimeValue.LocalTime UTCZone 1549735200000))).
Proof.
  apply (calendarDayNumber_is_julian_day_number UTCZone 1549735200000).
  vm_compute. split; discriminate.
Defined.

(* ================================================================== *)
(** * [part_001] beside [index.ts] *)
(* ================================================================== *)

Lemma calendar_fields_of_day (t1 t2 : Z) :
  TimeValue.Day t1 = TimeValue.Day t2 ->
  TimeValue.YearFromTime t1 = TimeValue.YearFromTime t2
  /\ TimeValue.MonthFromTime t1 = TimeValue.MonthFromTime t2
  /\ TimeValue.DateFromTime t1 = TimeValue.DateFromTime t2.
Proof.
  intros Hday.
  assert (HY : TimeValue.YearFromTime t1 = TimeValue.YearFromTime t2)
    by (unfold TimeValue.YearFromTime; rewrite Hday; reflexivity).
  assert (HW : TimeValue.DayWithinYear t1 = TimeValue.DayWithinYear t2)
    by (unfold TimeValue.DayWithinYear; rewrite Hday, HY; reflexivity).
  assert (HL : TimeValue.InLeapYear t1 = TimeValue.InLeapYear t2)
    by (unfold TimeValue.InLeapYear; rewrite HY; reflexivity).
  assert (HM : TimeValue.MonthFromTime t1 = TimeValue.MonthFromTime t2)
    by (unfold TimeValue.MonthFromTime; rewrite HW, HL; reflexivity).
  repeat split; [exact HY | exact HM | ].
  unfold TimeValue.DateFromTime. rewrite HW, HL, HM. reflexivity.
Qed.

Lemma calendarDayNumber_of_day (tz : TimeZone) (t1 t2 : Z) :
  TimeValue.Day (TimeValue.LocalTime tz t1) = TimeValue.Day (TimeValue.LocalTime tz t2) ->
  Part001.calendarDayNumber tz (DateAt t1) = Part001.calendarDayNumber tz (DateAt t2).
Proof.
  intros Hday. rewrite !calendarDayNumber_integral.
  destruct (calendar_fields_of_day _ _ Hday) as [-> [-> ->]]. reflexivity.
Qed.

(** [getMoonPosition] of [part_001] is the one of [index.ts] behind the
    zodiac lookup. *)
Lemma getMoonPosition_part001_lookup (tz : TimeZone) (date : Date) (lat lon : number) :
  Part001.getMoonPosition tz date lat lon
  = let jd := Part001.calendarDayNumber tz date in
    let p := Index.getMoonPosition date lat lon in
    do zodiacSign <- Part001.zodiacLookup (Part001.zodiacLongitude jd);
    Returns {| Part001.mp_azimuth := Index.mp_azimuth p;
               Part001.mp_altitude := Index.mp_altitude p;
               Part001.mp_distance := Index.mp_distance p;
               Part001.mp_parallacticAngle := Index.mp_parallacticAngle p;
               Part001.mp_latitude := Part001.zodiacLatitude jd;
               Part001.mp_longitude := Part001.zodiacLongitude jd;
               Part001.mp_zodiacSign := zodiacSign |}.
Proof.
  unfold Part001.getMoonPosition, Part001.getMoonCoords. cbv zeta.
  destruct (Part001.zodiacLookup _); reflexivity.
Qed.

Lemma getMoonPhase_part001_lookup (tz : TimeZone) (date : Date) :
  Part001.getMoonPhase tz date
  = do zodiacSign <- Part001.zodiacLookup
                       (Part001.zodiacLongitude (Part001.calendarDayNumber tz date));
    Returns (Index.getMoonPhase date).
Proof.
  unfold Part001.getMoonPhase, Part001.getMoonCoords. cbv zeta.
  destruct (Part001.zodiacLookup _); reflexivity.
Qed.

(** The longitude of a valid date, and what the lookup does with it. *)
Lemma zodiacLookup_of_date (tz : TimeZone) (t : Z) :
  exists L : R,
    Part001.zodiacLongitude (Part001.calendarDayNumber tz (DateAt t)) = Fin L
    /\ -8.3 <= L < 368.3
    /\ ((0 <= L < 360
         /\ exists zodiac : Part001.Zodiac,
              Part001.zodiacMatches (Fin L) = [zodiac]
              /\ Part001.zodiacLookup (Fin L) = Returns (Part001.sign zodiac))
        \/ ((L < 0 \/ 360 <= L)
            /\ Part001.zodiacLookup (Fin L) = Throws TypeError)).
Proof.
  rewrite calendarDayNumber_integral.
  destruct (zodiacLongitude_range (IZR (dayNumberZ
              (TimeValue.YearFromTime (TimeValue.LocalTime tz t))
              (TimeValue.MonthFromTime (TimeValue.LocalTime tz t))
              (TimeValue.DateFromTime (TimeValue.LocalTime tz t)))))
    as [L [HL HB]].
  exists L. split; [exact HL | split; [exact HB | ]].
  destruct (Rlt_dec L 0) as [Hneg | Hpos].
  { right. split; [left; exact Hneg | apply zodiacLookup_outside; left; exact Hneg]. }
  destruct (Rle_dec 360 L) as [Hbig | Hsmall].
  { right. split; [right; exact Hbig | apply zodiacLookup_outside; right; exact Hbig]. }
  left. split; [lra | apply zodiacLookup_inside; lra].
Qed.

(** X22: [getMoonPosition] of [part_001] on a valid date.  The longitude it
    computes is a finite number [L] of [[-8.3, 368.3)].  The call returns
    exactly when [L] lies in [[0, 360)]: then [longitude] is [L], the sign is
    that of the one table entry whose range holds [L], and the azimuth, the
    altitude, the distance and the parallactic angle are those of
    [getMoonPosition] of [index.ts].  Otherwise it throws. *)
Theorem part001_moon_position_cases :
  forall (tz : TimeZone) (t : Z) (lat lon : number),
  exists L : R,
    Part001.zodiacLongitude (Part001.calendarDayNumber tz (DateAt t)) = Fin L
    /\ -8.3 <= L < 368.3
    /\ match Part001.getMoonPosition tz (DateAt t) lat lon with
       | Returns p =>
           0 <= L < 360
           /\ Part001.mp_longitude p = Fin L
           /\ (exists zodiac : Part001.Zodiac,
                  Part001.zodiacMatches (Fin L) = [zodiac]
                  /\ Part001.mp_zodiacSign p = Part001.sign zodiac)
           /\ Part001.mp_azimuth p
              = Index.mp_azimuth (Index.getMoonPosition (DateAt t) lat lon)
           /\ Part001.mp_altitude p
              = Index.mp_altitude (Index.getMoonPosition (DateAt t) lat lon)
           /\ Part001.mp_distance p
              = Index.mp_distance (Index.getMoonPosition (DateAt t) lat lon)
           /\ Part001.mp_parallacticAngle p
              = Index.mp_parallacticAngle (Index.getMoonPosition (DateAt t) lat lon)
       | Throws _ => L < 0 \/ 360 <= L
       end.
Proof.
  intros tz t lat lon.
  destruct (zodiacLookup_of_date tz t) as [L [HL [HB Hcases]]].
  exists L. split; [exact HL | split; [exact HB | ]].
  rewrite getMoonPosition_part001_lookup. cbv zeta. rewrite HL.
  destruct Hcases as [[Hin [zodiac [Hm Hs]]] | [Hout Hthrow]].
  - rewrite Hs. cbn [bind Part001.mp_longitude Part001.mp_zodiacSign
                     Part001.mp_azimuth Part001.mp_altitude Part001.mp_distance
                     Part001.mp_parallacticAngle].
    split; [exact Hin | split; [reflexivity | split]].
    + exists zodiac. split; [exact Hm | reflexivity].
    + repeat split.
  - rewrite Hthrow. cbn [bind]. exact Hout.
Qed.

(** X23: [getMoonPhase] of [part_001] on a valid date: it returns, under the same
    condition on the longitude, what [getMoonPhase] of [index.ts] returns, and
    throws otherwise, although the phase uses neither the longitude nor the
    sign. *)
Theorem part001_moon_phase_cases :
  forall (tz : TimeZone) (t : Z),
  exists L : R,
    Part001.zodiacLongitude (Part001.calendarDayNumber tz (DateAt t)) = Fin L
    /\ match Part001.getMoonPhase tz (DateAt t) with
       | Returns ph => 0 <= L < 360 /\ ph = Index.getMoonPhase (DateAt t)
       | Throws _ => L < 0 \/ 360 <= L
       end.
Proof.
  intros tz t.
  destruct (zodiacLookup_of_date tz t) as [L [HL [HB Hcases]]].
  exists L. split; [exact HL | ].
  rewrite getMoonPhase_part001_lookup, HL.
  destruct Hcases as [[Hin [zodiac [Hm Hs]]] | [Hout Hthrow]].
  - rewrite Hs. cbn [bind]. split; [exact Hin | reflexivity].
  - rewrite Hthrow. cbn [bind]. exact Hout.
Qed.

(** The scan of [part_001] against the scan of [index.ts]: the same state
    when it returns; when it throws, one of the positions it asks for
    throws. *)
Lemma moonScan_part001_cases (tz : TimeZone) (date : Date) (lat lon : number)
  (hours : list Z) :
  (forall i : Z, In i hours -> (1 <= i < 24)%Z) ->
  forall s : Scan,
    match Part001.moonScan tz date lat lon hours s with
    | Returns s' => s' = Index.moonScan date lat lon hours s
    | Throws _ =>
        exists k : Z,
          (1 <= k <= 24)%Z
          /\ Part001.getMoonPosition tz (hoursShift date (Fin (IZR k))) lat lon
             = Throws TypeError
    end.
Proof.
  induction hours as [ | i rest IH]; intros Hhours s.
  - reflexivity.
  - assert (Hi : (1 <= i < 24)%Z) by (apply Hhours; left; reflexivity).
    assert (Hrest : forall j : Z, In j rest -> (1 <= j < 24)%Z)
      by (intros j Hj; apply Hhours; right; exact Hj).
    cbn [Part001.moonScan Index.moonScan]. cbv zeta.
    assert (Hnext : (Fin (IZR i) + Fin 1)%num = Fin (IZR (i + 1)))
      by (cbn [add]; rewrite plus_IZR; reflexivity).
    rewrite Hnext.
    rewrite (getMoonPosition_part001_lookup tz (hoursShift date (Fin (IZR i)))).
    rewrite (getMoonPosition_part001_lookup tz (hoursShift date (Fin (IZR (i + 1))))).
    cbv zeta.
    pose proof (getMoonPosition_part001_lookup tz (hoursShift date (Fin (IZR i))) lat lon)
      as E1.
    pose proof (getMoonPosition_part001_lookup tz (hoursShift date (Fin (IZR (i + 1))))
                  lat lon) as E2.
    cbv zeta in E1, E2.
    destruct (Part001.zodiacLookup
                (Part001.zodiacLongitude
                   (Part001.calendarDayNumber tz (hoursShift date (Fin (IZR i))))))
      as [s1 | e1].
    2:{ cbn [bind]. exists i. split; [lia | ].
        rewrite E1. destruct e1. reflexivity. }
    destruct (Part001.zodiacLookup
                (Part001.zodiacLongitude
                   (Part001.calendarDayNumber tz (hoursShift date (Fin (IZR (i + 1)))))))
      as [s2 | e2].
    2:{ cbn [bind]. exists (i + 1)%Z. split; [lia | ].
        rewrite E2. destruct e2. reflexivity. }
    cbn [bind Part001.mp_altitude].
    destruct (truthyOpt (rise _) && truthyOpt (set _)).
    + reflexivity.
    + apply IH. exact Hrest.
Qed.

Lemma windowHours_in_day : forall i : Z, In i windowHours -> (1 <= i < 24)%Z.
Proof.
  intros i Hi. unfold windowHours in Hi. cbn in Hi.
  repeat (destruct Hi as [<- | Hi]; [lia | ]). contradiction.
Qed.

Lemma getMoonTimes_part001_scan (tz : TimeZone) (date : Date) (lat lon : number) :
  let start := setHours tz date 0 0 0 0 in
  match fst (Part001.getMoonTimes tz date lat lon) with
  | Returns r => r = fst (Index.getMoonTimes tz date lat lon)
  | Throws _ =>
      Part001.getMoonPosition tz start lat lon = Throws TypeError
      \/ exists k : Z,
           (1 <= k <= 24)%Z
           /\ Part001.getMoonPosition tz (hoursShift start (Fin (IZR k))) lat lon
              = Throws TypeError
  end.
Proof.
  intros start.
  unfold Part001.getMoonTimes, Index.getMoonTimes. cbv zeta. cbn [fst].
  fold start.
  pose proof (getMoonPosition_part001_lookup tz start lat lon) as E0.
  cbv zeta in E0.
  destruct (Part001.getMoonPosition tz start lat lon) as [p0 | e0] eqn:Hp0.
  - cbn [bind].
    assert (Halt : Part001.mp_altitude p0
                   = Index.mp_altitude (Index.getMoonPosition start lat lon)).
    { destruct (Part001.zodiacLookup _); cbn [bind] in E0; [ | discriminate].
      apply (f_equal (fun o => match o with Returns a => a | Throws _ => p0 end)) in E0.
      cbv beta iota in E0. rewrite E0. reflexivity. }
    rewrite Halt.
    pose proof (moonScan_part001_cases tz start lat lon windowHours windowHours_in_day
                  (initialScan (Index.mp_altitude (Index.getMoonPosition start lat lon) - hc)))
      as Hscan.
    destruct (Part001.moonScan tz start lat lon windowHours _) as [s | e].
    + cbn [bind]. rewrite Hscan. reflexivity.
    + cbn [bind]. right. exact Hscan.
  - cbn [bind]. left. destruct e0. reflexivity.
Qed.

(** X24: [getMoonTimes] of [part_001] against [getMoonTimes] of [index.ts]: it
    leaves the [Date] object in the same state; when it returns, it returns
    the same result; when it throws, [getMoonPosition] throws at the start of
    the day or at one of the 24 whole hours after it. *)
Theorem part001_moon_times_cases :
  forall (tz : TimeZone) (date : Date) (lat lon : number),
    let start := setHours tz date 0 0 0 0 in
    snd (Part001.getMoonTimes tz date lat lon)
    = snd (Index.getMoonTimes tz date lat lon)
    /\ match fst (Part001.getMoonTimes tz date lat lon) with
       | Returns r => r = fst (Index.getMoonTimes tz date lat lon)
       | Throws _ =>
           Part001.getMoonPosition tz start lat lon = Throws TypeError
           \/ exists k : Z,
                (1 <= k <= 24)%Z
                /\ Part001.getMoonPosition tz (hoursShift start (Fin (IZR k))) lat lon
                   = Throws TypeError
       end.
Proof.
  intros tz date lat lon start. split; [reflexivity | ].
  apply getMoonTimes_part001_scan.
Qed.

(* ================================================================== *)
(** * When [part_001] returns *)
(* ================================================================== *)

(** The longitude stays within 8.3 degrees of its main term. *)
Lemma zodiacLongitude_near (jd : Z) :
  awayFromTheWrap jd ->
  exists L : R,
    Part001.zodiacLongitude (Fin (IZR jd)) = Fin L /\ 0 <= L < 360.
Proof.
  unfold awayFromTheWrap. cbv zeta. intros Hsafe.
  unfold Part001.zodiacLongitude, PI, Math.PI.
  cbn [sub add neg].
  rewrite !div_Fin by lra.
  destruct (normalize_range ((IZR jd + - (2451550.1)) / 29.530588853)) as [ip [Hip _]].
  destruct (normalize_range ((IZR jd + - (2451562.2)) / 27.55454988)) as [dp [Hdp _]].
  rewrite Hip, Hdp.
  rewrite (normalize_Fin ((IZR jd + - (2451555.8)) / 27.321582241)
             (Zfloor ((IZR jd + - (2451555.8)) / 27.321582241)))
    by apply Zfloor_bound.
  cbn [mul add sub neg Math.sin].
  eexists. split; [reflexivity | ].
  replace (IZR jd + - (2451555.8)) with (IZR jd - 2451555.8) by lra.
  match goal with
  | |- _ <= _ + 6.3 * sin ?a + 1.3 * sin ?b + 0.7 * sin ?c < _ =>
      pose proof (SIN_bound a); pose proof (SIN_bound b); pose proof (SIN_bound c)
  end.
  lra.
Qed.

Lemma zodiacLookup_away_from_wrap (tz : TimeZone) (t : Z) :
  (-141349 <= TimeValue.Day (TimeValue.LocalTime tz t) <= 741441)%Z ->
  awayFromTheWrap (julianDayNumber (TimeValue.LocalTime tz t)) ->
  exists sign : string,
    Part001.zodiacLookup
      (Part001.zodiacLongitude (Part001.calendarDayNumber tz (DateAt t)))
    = Returns sign.
Proof.
  intros Hrange Hsafe.
  rewrite calendarDayNumber_integral, (dayNumberZ_julian _ Hrange).
  destruct (zodiacLongitude_near _ Hsafe) as [L [HL HB]]. rewrite HL.
  destruct (zodiacLookup_inside L HB) as [zodiac [_ Hs]].
  exists (Part001.sign zodiac). exact Hs.
Qed.

Lemma hoursShift_hours (t k : Z) :
  (Z.abs (t + 3600000 * k) <= TimeValue.maxTime)%Z ->
  hoursShift (DateAt t) (Fin (IZR k)) = DateAt (t + 3600000 * k).
Proof.
  intros Hk. unfold hoursShift. rewrite dayMills_Fin. cbn [valueOf mul].
  rewrite div_Fin by lra. cbn [add].
  replace (IZR t + IZR k * 86400000 / 24) with (IZR (t + 3600000 * k))
    by (rewrite plus_IZR, mult_IZR; lra).
  apply newDate_IZR. exact Hk.
Qed.

Lemma day_of_shifted_start (d k : Z) :
  (0 <= k <= 24)%Z ->
  TimeValue.Day (d * TimeValue.msPerDay + 3600000 * k) = d
  \/ TimeValue.Day (d * TimeValue.msPerDay + 3600000 * k) = (d + 1)%Z.
Proof.
  intros Hk. unfold TimeValue.Day, TimeValue.msPerDay.
  destruct (Z.eq_dec k 24) as [-> | Hne].
  - right. replace (d * 86400000 + 3600000 * 24)%Z with ((d + 1) * 86400000)%Z by lia.
    apply Z.div_mul. discriminate.
  - left. symmetry. apply Z.div_unique with (r := (3600000 * k)%Z); lia.
Qed.

(** X25: [part_001] in a UTC environment, on a day from 1 January 1583 to
    30 December 3999: if the main term of the longitude keeps away from the
    ends of the circle on the day of the date and on the day after it, then
    [getMoonPosition], [getMoonPhase] and [getMoonTimes] return, and
    [getMoonTimes] returns what the one of [index.ts] returns. *)
Theorem part001_returns_away_from_the_wrap :
  forall (t : Z) (lat lon : number),
    (-141349 <= TimeValue.Day t <= 741440)%Z ->
    awayFromTheWrap (julianDayNumber t) ->
    awayFromTheWrap (julianDayNumber t + 1) ->
    (exists p, Part001.getMoonPosition UTCZone (DateAt t) lat lon = Returns p)
    /\ Part001.getMoonPhase UTCZone (DateAt t) = Returns (Index.getMoonPhase (DateAt t))
    /\ fst (Part001.getMoonTimes UTCZone (DateAt t) lat lon)
       = Returns (fst (Index.getMoonTimes UTCZone (DateAt t) lat lon)).
Proof.
  intros t lat lon Hrange Hsafe Hnext.
  assert (Hlocal : forall u : Z, TimeValue.LocalTime UTCZone u = u)
    by (intros u; unfold TimeValue.LocalTime, UTCZone; lia).
  assert (Hlookup : forall u : Z,
             TimeValue.Day u = TimeValue.Day t
             \/ TimeValue.Day u = (TimeValue.Day t + 1)%Z ->
             exists sign : string,
               Part001.zodiacLookup
                 (Part001.zodiacLongitude
                    (Part001.calendarDayNumber UTCZone (DateAt u)))
               = Returns sign).
  { intros u Hu. apply zodiacLookup_away_from_wrap.
    - rewrite Hlocal. lia.
    - rewrite Hlocal. unfold julianDayNumber in *.
      destruct Hu as [-> | ->]; [exact Hsafe | ].
      replace (TimeValue.Day t + 1 + 2440588)%Z
        with (TimeValue.Day t + 2440588 + 1)%Z by lia.
      exact Hnext. }
  assert (Hpos : forall (u : Z) (la lo : number),
             TimeValue.Day u = TimeValue.Day t
             \/ TimeValue.Day u = (TimeValue.Day t + 1)%Z ->
             exists p, Part001.getMoonPosition UTCZone (DateAt u) la lo = Returns p).
  { intros u la lo Hu. rewrite getMoonPosition_part001_lookup. cbv zeta.
    destruct (Hlookup u Hu) as [sign ->]. cbn [bind]. eexists. reflexivity. }
  split; [apply Hpos; left; reflexivity | split].
  - rewrite getMoonPhase_part001_lookup.
    destruct (Hlookup t (or_introl eq_refl)) as [sign ->]. reflexivity.
  - pose proof (getMoonTimes_part001_scan UTCZone (DateAt t) lat lon) as Hscan.
    cbv zeta in Hscan.
    destruct (fst (Part001.getMoonTimes UTCZone (DateAt t) lat lon)) as [r | e].
    { rewrite Hscan. reflexivity. }
    exfalso.
    rewrite setHours_UTC_day in Hscan.
    set (t0 := (TimeValue.Day t * TimeValue.msPerDay)%Z) in *.
    assert (Ht0 : TimeValue.Day t0 = TimeValue.Day t) by apply Day_of_day_start.
    assert (Hshift : forall k : Z, (0 <= k <= 24)%Z ->
               (Z.abs (t0 + 3600000 * k) <= TimeValue.maxTime)%Z
               /\ (TimeValue.Day (t0 + 3600000 * k) = TimeValue.Day t
                   \/ TimeValue.Day (t0 + 3600000 * k) = (TimeValue.Day t + 1)%Z)).
    { intros k Hk. destruct (day_of_shifted_start (TimeValue.Day t) k Hk) as [Hd | Hd].
      - split; [ | left; exact Hd].
        unfold t0, TimeValue.maxTime, TimeValue.msPerDay. lia.
      - split; [ | right; exact Hd].
        unfold t0, TimeValue.maxTime, TimeValue.msPerDay. lia. }
    unfold TimeValue.TimeClip in Hscan.
    destruct (Hshift 0%Z ltac:(lia)) as [H0 _].
    replace (t0 + 3600000 * 0)%Z with t0 in H0 by lia.
    apply Z.leb_le in H0. rewrite H0 in Hscan.
    destruct Hscan as [Hthrow | [k [Hk Hthrow]]].
    + destruct (Hpos t0 lat lon (or_introl Ht0)) as [p Hp]. congruence.
    + destruct (Hshift k ltac:(lia)) as [Hin Hday].
      rewrite (hoursShift_hours t0 k Hin) in Hthrow.
      destruct (Hpos _ lat lon Hday) as [p Hp]. congruence.
Qed.

Lemma part001_returns_away_from_the_wrap_witness :
  (exists p,
      Part001.getMoonPosition UTCZone (DateAt 1549735200000) (Fin 40.74) (Fin 74)
      = Returns p)
  /\ Part001.getMoonPhase UTCZone (DateAt 1549735200000)
     = Returns (Index.getMoonPhase (DateAt 1549735200000))
  /\ fst (Part001.getMoonTimes UTCZone (DateAt 1549735200000) (Fin 40.74) (Fin 74))
     = Returns (fst (Index.getMoonTimes UTCZone (DateAt 1549735200000)
                       (Fin 40.74) (Fin 74))).
Proof.
  apply (part001_returns_away_from_the_wrap 1549735200000 (Fin 40.74) (Fin 74)).
  - vm_compute. split; discriminate.
  - replace (julianDayNumber 1549735200000) with 2458524%Z by (vm_compute; reflexivity).
    unfold awayFromTheWrap. cbv zeta.
    rewrite (Zfloor_eq 255) by lra. lra.
  - replace (julianDayNumber 1549735200000 + 1)%Z with 2458525%Z
      by (vm_compute; reflexivity).
    unfold awayFromTheWrap. cbv zeta.
    rewrite (Zfloor_eq 255) by lra. lra.
Defined.
